(** * Sales and inventory engine of system-posLibreria

    A shallow embedding of the transactional core of the point of sale:
    [SalesService.create], [SalesService.cancel] and
    [ProductService.adjustStock], together with the part of the SQLite
    schema of [electron/database/database.ts] those three operations read
    and write.

    Modelling conventions.
    - INTEGER columns and the JavaScript numbers stored in them (stock,
      quantity, daily_number) are [Z]; REAL columns (prices, totals) are
      rationals [Q]; TEXT columns are [string]; nullable columns are
      [option].  For stocks and quantities this is the code on whole
      numbers below 2^53, where its arithmetic rounds nothing ([add_of_Z],
      [sub_of_Z], [ltb_of_Z]).  The numbers of the code are binary64, and
      nothing makes a quantity whole: module [Double] embeds the three
      operations again on binary64, and the statements that depend on how
      a stock is computed, the cancellation of a sale just created and
      [adjustStock], are made there.  The two embeddings agree while the
      stocks and the quantities are whole numbers and their magnitudes
      together stay below 2^53 ([create_agrees], [cancel_agrees],
      [adjustStock_agrees]).
    - A timestamp is the number of seconds since the epoch, in UTC, as both
      [CURRENT_TIMESTAMP] and [Date.prototype.toISOString] are; the SQL
      function [DATE] keeps the day.  An operation reads the clock once:
      [now] is the instant of all its statements.
    - [generateId] reads the clock and a random source.  It is modelled as an
      oracle [gen]: the [k]-th call made during one operation returns
      [gen k].
    - The tables carry the constraints the schema declares and that these
      operations can meet: primary keys, and the foreign keys enforced under
      [PRAGMA foreign_keys = ON]; on binary64 also [NOT NULL] on the
      numbers of an item and of a ledger row, as SQLite stores a NaN as
      [NULL].  A violated constraint raises an exception in the store, like
      any [throw] of the service code.
    - [withTransaction] runs its callback and commits; if the callback
      throws, every write the callback made is rolled back and the exception
      is rethrown. *)

From Stdlib Require Import ZArith QArith String DecimalString Lia SpecFloat.
From stdpp Require Import base option list gmap strings sorting.

Local Open Scope Z_scope.

(** ** Data model *)

Inductive payment_method := cash | card | transfer.

Inductive movement_type := sale | adjustment | restock.

(** A row of [products]; the primary key [id] is the key of the map that
    holds the table. *)
Record Product := mkProduct {
  p_name : string;
  p_price : Q;
  p_cost : Q;
  p_stock : Z;
  p_min_stock : Z;
  p_category : option string;
  p_barcode : option string;
  p_description : option string;
  p_image_url : option string;
  p_is_active : bool;
  p_created_at : Z;
  p_updated_at : Z
}.

Record Sale := mkSale {
  s_id : string;
  s_total : Q;
  s_subtotal : Q;
  s_tax : Q;
  s_discount : Q;
  s_payment_method : payment_method;
  s_cashier_id : string;
  s_cashier_name : string;
  s_customer_name : option string;
  s_notes : option string;
  s_daily_number : Z;
  s_is_active : bool;
  s_created_at : Z
}.

Record SaleItem := mkSaleItem {
  si_id : string;
  si_sale_id : string;
  si_product_id : string;
  si_product_name : string;
  si_quantity : Z;
  si_unit_price : Q;
  si_total_price : Q
}.

Record StockMovement := mkStockMovement {
  sm_id : string;
  sm_product_id : string;
  sm_movement_type : movement_type;
  sm_quantity : Z;
  sm_previous_stock : Z;
  sm_new_stock : Z;
  sm_reference_id : option string;
  sm_notes : option string;
  sm_created_by : option string;
  sm_created_at : Z
}.

(** One element of [CreateSaleInput.items]. *)
Record ItemInput := mkItemInput {
  it_product_id : string;
  it_product_name : string;
  it_quantity : Z;
  it_unit_price : Q;
  it_total_price : Q
}.

Record CreateSaleInput := mkCreateSaleInput {
  in_items : list ItemInput;
  in_subtotal : Q;
  in_total : Q;
  in_tax : option Q;
  in_discount : option Q;
  in_payment_method : payment_method;
  in_cashier_id : string;
  in_cashier_name : string;
  in_customer_name : option string;
  in_notes : option string
}.

(** The store: the ids of [users] (the other columns of that table are never
    read here), [products] by id, and the three tables the engine appends
    to, in insertion order. *)
Record Database := mkDatabase {
  users : gset string;
  products : gmap string Product;
  sales : list Sale;
  sale_items : list SaleItem;
  stock_movements : list StockMovement
}.

(** ** Exceptions *)

(** Every [throw new Error(...)] of the three operations, with the values
    interpolated in its message, and the two constraint errors of the
    store. *)
Inductive error :=
  | EmptySale
  | NonPositiveTotal
  | SaleProductNotFound (product_name : string)
  | InsufficientStock (product_name : string) (available requested : Z)
  | SaleNotFoundOrCancelled
  | ProductNotFound
  | NegativeStock
  | UniqueConstraintFailed (column : string)
  | ForeignKeyConstraintFailed.

Definition string_of_Z (z : Z) : string := NilZero.string_of_int (Z.to_int z).

(** The double quote character, code 34. *)
Definition dquote : Ascii.ascii := Ascii.ascii_of_nat 34.

Definition quoted (s : string) : string := String dquote (s +:+ String dquote "").

(** The text of [error.message]. *)
Definition message (e : error) : string :=
  match e with
  | EmptySale => "La venta debe tener al menos un producto"
  | NonPositiveTotal => "El total debe ser mayor a cero"
  | SaleProductNotFound n => "Producto " +:+ quoted n +:+ " no encontrado"
  | InsufficientStock n a r =>
      "Stock insuficiente para " +:+ quoted n +:+ ". " +:+
      "Disponible: " +:+ string_of_Z a +:+ ", Solicitado: " +:+ string_of_Z r
  | SaleNotFoundOrCancelled => "Venta no encontrada o ya cancelada"
  | ProductNotFound => "Producto no encontrado"
  | NegativeStock => "El stock no puede ser negativo"
  | UniqueConstraintFailed c => "UNIQUE constraint failed: " +:+ c
  | ForeignKeyConstraintFailed => "FOREIGN KEY constraint failed"
  end.

Inductive result (A : Type) :=
  | Ok (a : A)
  | Err (e : error).
Arguments Ok {A} a.
Arguments Err {A} e.

(** ** Computations inside a transaction *)

(** The state a callback runs in: the store and the number of ids generated
    so far.  A computation that throws keeps the state reached at the
    [throw]; undoing it is the business of [withTransaction]. *)
Record St := mkSt {
  st_db : Database;
  st_ids : nat
}.

Definition M (A : Type) : Type := St -> St * result A.

Definition ret {A} (a : A) : M A := fun s => (s, Ok a).

Definition bind {A B} (m : M A) (f : A -> M B) : M B :=
  fun s =>
    match m s with
    | (s', Ok a) => f a s'
    | (s', Err e) => (s', Err e)
    end.

Definition throw {A} (e : error) : M A := fun s => (s, Err e).

Notation "'do' x <- m ; k" := (bind m (fun x => k))
  (at level 10, x name, m at level 100, k at level 200).
Notation "'run' m ; k" := (bind m (fun _ => k))
  (at level 10, m at level 100, k at level 200).

(** A read-only statement. *)
Definition query {A} (q : Database -> A) : M A := fun s => (s, Ok (q (st_db s))).

(** A write that the store accepts. *)
Definition write (f : Database -> Database) : M unit :=
  fun s => (mkSt (f (st_db s)) (st_ids s), Ok tt).

(** [for (const x of l) { body }] *)
Fixpoint for_each {A} (body : A -> M unit) (l : list A) : M unit :=
  match l with
  | [] => ret tt
  | x :: l' => run body x; for_each body l'
  end.

(** [db.transaction(callback)()] *)
Definition withTransaction {A} (callback : M A) (db : Database) : Database * result A :=
  match callback (mkSt db 0) with
  | (s, Ok a) => (st_db s, Ok a)
  | (_, Err e) => (db, Err e)
  end.

(** [DATE(t)] *)
Definition DATE (t : Z) : Z := t / 86400.

(** [x || 0] on an optional number: [undefined] and [0] are falsy. *)
Definition or_zero (x : option Q) : Q :=
  match x with
  | Some q => if Qeq_bool q 0 then 0%Q else q
  | None => 0%Q
  end.

(** [x || null] on an optional string: [undefined] and the empty string are
    falsy. *)
Definition or_null (x : option string) : option string :=
  match x with
  | Some s => if decide (s = "") then None else Some s
  | None => None
  end.

Section Engine.

(** The clock, and the id oracle of one operation. *)
Variable now : Z.
Variable gen : nat -> string.

(** [generateId()] *)
Definition generateId : M string :=
  fun s => (mkSt (st_db s) (S (st_ids s)), Ok (gen (st_ids s))).

(** ** Statements *)

Definition set_products (f : gmap string Product -> gmap string Product) (db : Database) : Database :=
  mkDatabase (users db) (f (products db)) (sales db) (sale_items db) (stock_movements db).

Definition set_sales (f : list Sale -> list Sale) (db : Database) : Database :=
  mkDatabase (users db) (products db) (f (sales db)) (sale_items db) (stock_movements db).

Definition set_sale_items (f : list SaleItem -> list SaleItem) (db : Database) : Database :=
  mkDatabase (users db) (products db) (sales db) (f (sale_items db)) (stock_movements db).

Definition set_stock_movements (f : list StockMovement -> list StockMovement) (db : Database) : Database :=
  mkDatabase (users db) (products db) (sales db) (sale_items db) (f (stock_movements db)).

(** [SELECT stock FROM products WHERE id = ?] *)
Definition getProductStock (id : string) (db : Database) : option Z :=
  p_stock <$> products db !! id.

(** [SELECT * FROM products WHERE id = ?] *)
Definition getOne (id : string) (db : Database) : option Product :=
  products db !! id.

(** An [UPDATE] of the stock of one product row, followed by the trigger
    [update_products_timestamp] of migration 002. *)
Definition with_stock (f : Z -> Z) (p : Product) : Product :=
  mkProduct (p_name p) (p_price p) (p_cost p) (f (p_stock p)) (p_min_stock p)
    (p_category p) (p_barcode p) (p_description p) (p_image_url p)
    (p_is_active p) (p_created_at p) now.

(** [UPDATE products SET stock = stock - ? WHERE id = ?] *)
Definition updateStock_sub (q : Z) (id : string) : M unit :=
  write (set_products (alter (with_stock (fun s => s - q)) id)).

(** [UPDATE products SET stock = stock + ? WHERE id = ?] *)
Definition updateStock_add (q : Z) (id : string) : M unit :=
  write (set_products (alter (with_stock (fun s => s + q)) id)).

(** [UPDATE products SET stock = ? WHERE id = ?] *)
Definition updateStock_set (newStock : Z) (id : string) : M unit :=
  write (set_products (alter (with_stock (fun _ => newStock)) id)).

(** [INSERT INTO sales (id, total, subtotal, tax, discount, payment_method,
    cashier_id, cashier_name, customer_name, notes, daily_number)]; the
    columns [is_active] and [created_at] take their defaults. *)
Definition insertSale (id : string) (total subtotal tax discount : Q)
    (pm : payment_method) (cashier_id cashier_name : string)
    (customer_name notes : option string) (daily_number : Z) : M unit :=
  do db <- query (fun db => db);
  if decide (id ∈ s_id <$> sales db) then throw (UniqueConstraintFailed "sales.id")
  else if decide (cashier_id ∈ users db) then
    write (set_sales (fun l => l ++
      [mkSale id total subtotal tax discount pm cashier_id cashier_name
         customer_name notes daily_number true now]))
  else throw ForeignKeyConstraintFailed.

(** [INSERT INTO sale_items (id, sale_id, product_id, product_name,
    quantity, unit_price, total_price)] *)
Definition insertItem (id sale_id product_id product_name : string)
    (quantity : Z) (unit_price total_price : Q) : M unit :=
  do db <- query (fun db => db);
  if decide (id ∈ si_id <$> sale_items db) then throw (UniqueConstraintFailed "sale_items.id")
  else if decide (sale_id ∈ s_id <$> sales db ∧ product_id ∈ dom (products db)) then
    write (set_sale_items (fun l => l ++
      [mkSaleItem id sale_id product_id product_name quantity unit_price total_price]))
  else throw ForeignKeyConstraintFailed.

(** [INSERT INTO stock_movements (id, product_id, movement_type, quantity,
    previous_stock, new_stock, reference_id, notes, created_by)]; a column
    an operation does not list is [NULL], and [created_at] takes its
    default. *)
Definition insertMovement (id product_id : string) (ty : movement_type)
    (quantity previous_stock new_stock : Z)
    (reference_id notes : option string) (created_by : string) : M unit :=
  do db <- query (fun db => db);
  if decide (id ∈ sm_id <$> stock_movements db) then throw (UniqueConstraintFailed "stock_movements.id")
  else if decide (product_id ∈ dom (products db) ∧ created_by ∈ users db) then
    write (set_stock_movements (fun l => l ++
      [mkStockMovement id product_id ty quantity previous_stock new_stock
         reference_id notes (Some created_by) now]))
  else throw ForeignKeyConstraintFailed.

(** [SELECT daily_number FROM sales WHERE DATE(created_at) = DATE(?)
    ORDER BY daily_number DESC LIMIT 1], the query [create] runs for
    [lastSale]: the greatest daily number of the day, if the day has a
    sale. *)
Definition lastSaleOfDay (today : Z) (db : Database) : option Z :=
  foldr (fun n acc => Some (match acc with Some m => Z.max n m | None => n end)) None
    (s_daily_number <$> filter (fun s => DATE (s_created_at s) = today) (sales db)).

(** [getLastDailyNumber] of SaleModel: the same query, and 0 when it finds
    no row. *)
Definition getLastDailyNumber (date : Z) (db : Database) : Z :=
  match lastSaleOfDay date db with
  | Some n => n
  | None => 0
  end.

(** [SELECT * FROM sales WHERE id = ?] *)
Definition getSale (id : string) (db : Database) : option Sale :=
  head (filter (fun s => s_id s = id) (sales db)).

(** [SELECT * FROM sales WHERE id = ? AND is_active = 1] *)
Definition getActiveSale (id : string) (db : Database) : option Sale :=
  head (filter (fun s => s_id s = id ∧ s_is_active s = true) (sales db)).

(** [SELECT * FROM sale_items WHERE sale_id = ?] *)
Definition getSaleItems (id : string) (db : Database) : list SaleItem :=
  filter (fun i => si_sale_id i = id) (sale_items db).

Definition deactivate (s : Sale) : Sale :=
  mkSale (s_id s) (s_total s) (s_subtotal s) (s_tax s) (s_discount s)
    (s_payment_method s) (s_cashier_id s) (s_cashier_name s)
    (s_customer_name s) (s_notes s) (s_daily_number s) false (s_created_at s).

(** [UPDATE sales SET is_active = 0 WHERE id = ?] *)
Definition markCancelled (id : string) : M unit :=
  write (set_sales (fmap (fun s => if decide (s_id s = id) then deactivate s else s))).

(** ** SalesService.create *)

(** The body of the loop over [data.items]. *)
Definition createItem (saleId cashier_id : string) (item : ItemInput) : M unit :=
  do product <- query (getProductStock (it_product_id item));
  match product with
  | None => throw (SaleProductNotFound (it_product_name item))
  | Some stock =>
      if stock <? it_quantity item then
        throw (InsufficientStock (it_product_name item) stock (it_quantity item))
      else
        do itemId <- generateId;
        run insertItem itemId saleId (it_product_id item) (it_product_name item)
              (it_quantity item) (it_unit_price item) (it_total_price item);
        let previousStock := stock in
        let newStock := previousStock - it_quantity item in
        run updateStock_sub (it_quantity item) (it_product_id item);
        do movementId <- generateId;
        insertMovement movementId (it_product_id item) sale (it_quantity item)
          previousStock newStock (Some saleId) None cashier_id
  end.

(** The callback [create] hands to [withTransaction]. *)
Definition createTx (data : CreateSaleInput) : M (option Sale * Z) :=
  let today := DATE now in
  do lastSale <- query (lastSaleOfDay today);
  let dailyNumber := match lastSale with Some n => n + 1 | None => 1 end in
  do saleId <- generateId;
  run insertSale saleId (in_total data) (in_subtotal data)
        (or_zero (in_tax data)) (or_zero (in_discount data))
        (in_payment_method data) (in_cashier_id data) (in_cashier_name data)
        (or_null (in_customer_name data)) (or_null (in_notes data)) dailyNumber;
  run for_each (createItem saleId (in_cashier_id data)) (in_items data);
  do created <- query (getSale saleId);
  ret (created, dailyNumber).

Definition create (data : CreateSaleInput) (db : Database)
    : Database * result (option Sale * Z) :=
  match in_items data with
  | [] => (db, Err EmptySale)
  | _ :: _ =>
      if Qle_bool (in_total data) 0 then (db, Err NonPositiveTotal)
      else withTransaction (createTx data) db
  end.

(** ** SalesService.cancel *)

Definition cancelNotes (daily_number : Z) : string :=
  "Cancelación de venta #" +:+ string_of_Z daily_number.

(** The body of the loop over the items of the cancelled sale. *)
Definition cancelItem (id userId : string) (daily_number : Z) (item : SaleItem) : M unit :=
  do product <- query (getProductStock (si_product_id item));
  match product with
  | Some stock =>
      let previousStock := stock in
      let newStock := previousStock + si_quantity item in
      run updateStock_add (si_quantity item) (si_product_id item);
      do movementId <- generateId;
      insertMovement movementId (si_product_id item) adjustment (si_quantity item)
        previousStock newStock (Some id) (Some (cancelNotes daily_number)) userId
  | None => ret tt
  end.

(** The callback [cancel] hands to [withTransaction]. *)
Definition cancelTx (id userId : string) : M unit :=
  do found <- query (getActiveSale id);
  match found with
  | None => throw SaleNotFoundOrCancelled
  | Some theSale =>
      do items <- query (getSaleItems id);
      run for_each (cancelItem id userId (s_daily_number theSale)) items;
      markCancelled id
  end.

Definition cancel (id userId : string) (db : Database) : Database * result unit :=
  withTransaction (cancelTx id userId) db.

(** ** ProductService.adjustStock *)

Definition adjustStock (productId : string) (quantity : Z) (reason userId : string)
    (db : Database) : Database * result unit :=
  withTransaction (
    do product <- query (getOne productId);
    match product with
    | None => throw ProductNotFound
    | Some product =>
        let previousStock := p_stock product in
        let newStock := previousStock + quantity in
        if newStock <? 0 then throw NegativeStock
        else
          run updateStock_set newStock productId;
          do id <- generateId;
          insertMovement id productId adjustment quantity previousStock newStock
            None (Some reason) userId
    end) db.

(** ** ProductService.delete *)

(** The soft delete: [UPDATE products SET is_active = 0 WHERE id = ?], then
    the timestamp trigger; the result is [changes > 0]. *)
Definition delete (id : string) (db : Database) : Database * bool :=
  (set_products (alter (fun p =>
      mkProduct (p_name p) (p_price p) (p_cost p) (p_stock p) (p_min_stock p)
        (p_category p) (p_barcode p) (p_description p) (p_image_url p)
        false (p_created_at p) now) id) db,
   bool_decide (id ∈ dom (products db))).

End Engine.

(** ** Vocabulary of the statements *)

(** Units of product [pid] that a list of request lines asks for. *)
Fixpoint requested (pid : string) (items : list ItemInput) : Z :=
  match items with
  | [] => 0
  | it :: l =>
      (if decide (it_product_id it = pid) then it_quantity it else 0) + requested pid l
  end.


(** Units of product [pid] in a list of [sale_items] rows. *)
Fixpoint sold (pid : string) (rows : list SaleItem) : Z :=
  match rows with
  | [] => 0
  | r :: l =>
      (if decide (si_product_id r = pid) then si_quantity r else 0) + sold pid l
  end.

(** The [sale_items] rows of a request, for the sale [saleId], when the
    first of them takes the id [gen k]: each line consumes two ids, one for
    its row and one for its ledger entry. *)
Fixpoint item_rows (gen : nat -> string) (saleId : string) (k : nat)
    (items : list ItemInput) : list SaleItem :=
  match items with
  | [] => []
  | it :: l =>
      mkSaleItem (gen k) saleId (it_product_id it) (it_product_name it)
        (it_quantity it) (it_unit_price it) (it_total_price it)
      :: item_rows gen saleId (S (S k)) l
  end.

(** The state one pass of the loop of [create] leaves, for a line whose
    product row is [p]. *)
Definition item_done (now : Z) (gen : nat -> string) (saleId cashier : string)
    (item : ItemInput) (p : Product) (s : St) : St :=
  mkSt (mkDatabase (users (st_db s))
          (<[it_product_id item := with_stock now (fun st => st - it_quantity item) p]>
             (products (st_db s)))
          (sales (st_db s))
          (sale_items (st_db s) ++
             [mkSaleItem (gen (st_ids s)) saleId (it_product_id item) (it_product_name item)
                (it_quantity item) (it_unit_price item) (it_total_price item)])
          (stock_movements (st_db s) ++
             [mkStockMovement (gen (S (st_ids s))) (it_product_id item) sale
                (it_quantity item) (p_stock p) (p_stock p - it_quantity item)
                (Some saleId) None (Some cashier) now]))
       (S (S (st_ids s))).

(** A ledger row that records the sale of one request line. *)
Definition records_sale (saleId cashier : string) (it : ItemInput) (m : StockMovement) : Prop :=
  sm_product_id m = it_product_id it /\
  sm_movement_type m = sale /\
  sm_quantity m = it_quantity it /\
  sm_new_stock m = sm_previous_stock m - sm_quantity m /\
  0 <= sm_new_stock m /\
  sm_reference_id m = Some saleId /\
  sm_created_by m = Some cashier.

(** The [sales] row [create] inserts for a request: the submitted values,
    the id and daily number given, and the defaults of the two columns the
    [INSERT] does not list. *)
Definition header (now : Z) (id : string) (data : CreateSaleInput) (dailyNumber : Z) : Sale :=
  mkSale id (in_total data) (in_subtotal data)
    (or_zero (in_tax data)) (or_zero (in_discount data))
    (in_payment_method data) (in_cashier_id data) (in_cashier_name data)
    (or_null (in_customer_name data)) (or_null (in_notes data)) dailyNumber true now.

(** The daily numbers of the sales created on day [d]. *)
Definition day_numbers (d : Z) (db : Database) : list Z :=
  s_daily_number <$> filter (fun s => DATE (s_created_at s) = d) (sales db).

(** The sum of the [total_price] column over some [sale_items] rows. *)
Definition items_total (rows : list SaleItem) : Q :=
  foldr (fun r acc => (si_total_price r + acc)%Q) 0%Q rows.

(** A [sale_items] row that holds a request line as submitted. *)
Definition holds_line (saleId : string) (it : ItemInput) (r : SaleItem) : Prop :=
  si_sale_id r = saleId /\
  si_product_id r = it_product_id it /\
  si_product_name r = it_product_name it /\
  si_quantity r = it_quantity it /\
  si_unit_price r = it_unit_price it /\
  si_total_price r = it_total_price it.

(** The state one pass of the loop of [cancel] leaves, for an item whose
    product row is [p]. *)
Definition item_undone (now : Z) (gen : nat -> string) (id userId : string)
    (daily_number : Z) (item : SaleItem) (p : Product) (s : St) : St :=
  mkSt (mkDatabase (users (st_db s))
          (<[si_product_id item := with_stock now (fun st => st + si_quantity item) p]>
             (products (st_db s)))
          (sales (st_db s))
          (sale_items (st_db s))
          (stock_movements (st_db s) ++
             [mkStockMovement (gen (st_ids s)) (si_product_id item) adjustment
                (si_quantity item) (p_stock p) (p_stock p + si_quantity item)
                (Some id) (Some (cancelNotes daily_number)) (Some userId) now]))
       (S (st_ids s)).

(** A ledger row that compensates one item of the cancelled sale [id]. *)
Definition compensates (id userId : string) (it : SaleItem) (m : StockMovement) : Prop :=
  sm_product_id m = si_product_id it /\
  sm_movement_type m = adjustment /\
  sm_quantity m = si_quantity it /\
  sm_new_stock m = sm_previous_stock m + sm_quantity m /\
  sm_reference_id m = Some id /\
  sm_created_by m = Some userId.

(** The items of a sale whose product is still a row of [products]. *)
Definition with_product (db : Database) (items : list SaleItem) : list SaleItem :=
  filter (fun it => si_product_id it ∈ dom (products db)) items.



(** Every item belongs to a sale: the foreign key of [sale_items.sale_id]. *)
Definition items_reference_sales (db : Database) : Prop :=
  Forall (fun i => si_sale_id i ∈ (s_id <$> sales db)) (sale_items db).

(** ** Sequences of operations *)

(** A call of one of the three operations, with the clock and the id oracle
    it runs under. *)
Inductive operation :=
  | CreateSale (now : Z) (gen : nat -> string) (data : CreateSaleInput)
  | CancelSale (now : Z) (gen : nat -> string) (id userId : string)
  | AdjustStock (now : Z) (gen : nat -> string) (productId : string) (quantity : Z)
      (reason userId : string).

(** The store a call leaves when it succeeds. *)
Definition perform (op : operation) (db : Database) : option Database :=
  match op with
  | CreateSale now gen data =>
      match create now gen data db with
      | (db', Ok _) => Some db'
      | (_, Err _) => None
      end
  | CancelSale now gen id userId =>
      match cancel now gen id userId db with
      | (db', Ok _) => Some db'
      | (_, Err _) => None
      end
  | AdjustStock now gen productId quantity reason userId =>
      match adjustStock now gen productId quantity reason userId db with
      | (db', Ok _) => Some db'
      | (_, Err _) => None
      end
  end.

(** The store a sequence of calls leaves when each of them succeeds. *)
Fixpoint perform_all (ops : list operation) (db : Database) : option Database :=
  match ops with
  | [] => Some db
  | op :: ops' =>
      match perform op db with
      | Some db' => perform_all ops' db'
      | None => None
      end
  end.

(** No product has a negative stock. *)
Definition stock_nonneg (db : Database) : Prop :=
  forall pid st, getProductStock pid db = Some st -> 0 <= st.

(** No stored item has a negative quantity. *)
Definition items_nonneg (db : Database) : Prop :=
  Forall (fun r => 0 <= si_quantity r) (sale_items db).

(** No line of a request has a negative quantity. *)
Definition lines_nonneg (op : operation) : Prop :=
  match op with
  | CreateSale _ _ data => Forall (fun it => 0 <= it_quantity it) (in_items data)
  | _ => True
  end.

(** ** A small store to run the operations on *)

Module Demo.

Definition book : Product :=
  mkProduct "Cuaderno" (5 # 2) 1 10 5 None None None None true 0 0.

Definition db0 : Database :=
  mkDatabase {[ "admin-001" ]} {[ "p1" := book ]} [] [] [].

(** Ids as the oracle hands them out: a prefix and the call number. *)
Definition ids (prefix : string) (k : nat) : string :=
  prefix +:+ string_of_Z (Z.of_nat k).

(** A request line: the name and the price are the cashier's, not the
    catalogue's. *)
Definition line (pid : string) (q : Z) : ItemInput :=
  mkItemInput pid "Cuaderno (oferta)" q 2 (2 * inject_Z q)%Q.

Definition request (items : list ItemInput) : CreateSaleInput :=
  mkCreateSaleInput items 10 10 None None cash "admin-001" "Administrador" None None.

Definition stock_of (pid : string) (db : Database) : option Z :=
  p_stock <$> products db !! pid.

(** What a [create] that succeeded has returned. *)
Definition returned (x : Database * result (option Sale * Z)) : option Sale * Z :=
  match snd x with
  | Ok r => r
  | Err _ => (None, 0)
  end.

(** Two sales on one day and a third on the next. *)
Definition day1a := create 100 (ids "a") (request [line "p1" 3]) db0.
Definition day1b := create 200 (ids "b") (request [line "p1" 2]) (fst day1a).
Definition day2 := create 86500 (ids "c") (request [line "p1" 1]) (fst day1b).




(** The sale of [day1a], then its cancellation. *)
Definition undone := cancel 300 (ids "c") "a0" "admin-001" (fst day1a).

(** A request like [request], with total 0. *)
Definition free (items : list ItemInput) : CreateSaleInput :=
  mkCreateSaleInput items 0 0 None None cash "admin-001" "Administrador" None None.


(** A sale with a line of -5 units, a write-off of 15 units, and the
    cancellation of the sale. *)
Definition returns_then_cancel : list operation :=
  [ CreateSale 100 (ids "a") (request [line "p1" (-5)]);
    AdjustStock 200 (ids "b") "p1" (-15) "merma" "admin-001";
    CancelSale 300 (ids "c") "a0" "admin-001" ].

End Demo.

(** ** Reading the sales *)

(** [SalesService.getById], which is also [findSaleWithItemsById] of
    SaleModel: the sale and its items, or nothing. *)
Definition getById (id : string) (db : Database) : option (Sale * list SaleItem) :=
  match getSale id db with
  | None => None
  | Some s => Some (s, getSaleItems id db)
  end.

(** [cancelSale] of SaleModel: the [UPDATE] alone, and whether it changed a
    row. *)
Definition cancelSale (id : string) (db : Database) : Database * bool :=
  (set_sales (fmap (fun s => if decide (s_id s = id) then deactivate s else s)) db,
   bool_decide (id ∈ s_id <$> sales db)).

(** ** Properties of a store *)

(** The primary keys of the three tables the engine appends to. *)
Definition keys_unique (db : Database) : Prop :=
  NoDup (s_id <$> sales db) /\
  NoDup (si_id <$> sale_items db) /\
  NoDup (sm_id <$> stock_movements db).

(** The last ledger row of a product. *)
Definition last_movement (pid : string) (db : Database) : option StockMovement :=
  last (filter (fun m => sm_product_id m = pid) (stock_movements db)).

(** The ledger agrees with the stock: the last row of a product carries the
    stock the product has. *)
Definition reconciled (db : Database) : Prop :=
  forall pid m, last_movement pid db = Some m ->
    getProductStock pid db = Some (sm_new_stock m).

(** Nothing is removed: the ledger and the items only grow at the end, the
    sales keep their ids in order, and the products and users stay. *)
Definition grows (db db' : Database) : Prop :=
  stock_movements db `prefix_of` stock_movements db' /\
  sale_items db `prefix_of` sale_items db' /\
  (s_id <$> sales db) `prefix_of` (s_id <$> sales db') /\
  dom (products db') = dom (products db) /\
  users db' = users db.

(** ** SalesService: metrics and listings *)

(** The optional bounds [DATE(created_at) >= DATE(from)] and
    [DATE(created_at) <= DATE(to)] of a query.  A bound that is [undefined]
    or the empty string is not applied; a bound that is given is a day. *)
Definition in_period (from to : option Z) (s : Sale) : Prop :=
  match from with Some f => f <= DATE (s_created_at s) | None => True end /\
  match to with Some t => DATE (s_created_at s) <= t | None => True end.

#[global] Instance in_period_dec from to s : Decision (in_period from to s).
Proof. unfold in_period. destruct from, to; apply _. Defined.

(** The sum without rounding, for the examples. *)
Definition sumQ (l : list Q) : Q := foldr Qplus 0%Q l.

Record SaleMetrics := mkSaleMetrics {
  totalSales : Q;
  totalTickets : Z;
  averageTicket : Q;
  cancelledSales : Z
}.

Section Metrics.

(** [SUM] and [AVG] of SQLite over the values of a [REAL] column.  The
    values are binary64 and every partial sum is rounded, in a way that
    depends on the version of SQLite (a running sum in older versions, a
    compensated one in newer ones): the two aggregates are approximations
    of the sum and of the mean, and they are parameters here.  No statement
    below depends on how they round. *)
Variable SUM : list Q -> Q.
Variable AVG : list Q -> Q.

(** [SalesService.getMetrics].  Over the sales of the period:
    [COALESCE(SUM(CASE WHEN is_active = 1 THEN total ELSE 0 END), 0)],
    [COUNT(CASE WHEN is_active = 1 THEN 1 END)],
    [COALESCE(AVG(CASE WHEN is_active = 1 THEN total END), 0)] and
    [COUNT(CASE WHEN is_active = 0 THEN 1 END)].  [SUM] totals a value for
    every sale of the period, 0 for a cancelled one, and [AVG] averages the
    totals of the active ones; of no value at all both are [NULL], which
    [COALESCE] turns into 0. *)
Definition getMetrics (from to : option Z) (db : Database) : SaleMetrics :=
  let rows := filter (in_period from to) (sales db) in
  let tickets := filter (fun s => s_is_active s = true) rows in
  mkSaleMetrics
    (match rows with
     | [] => 0%Q
     | _ :: _ => SUM ((fun s => if s_is_active s then s_total s else 0%Q) <$> rows)
     end)
    (Z.of_nat (length tickets))
    (match tickets with
     | [] => 0%Q
     | _ :: _ => AVG (s_total <$> tickets)
     end)
    (Z.of_nat (length (filter (fun s => s_is_active s = false) rows))).

End Metrics.

(** The mean without rounding, for the examples. *)
Definition meanQ (l : list Q) : Q := (sumQ l / inject_Z (Z.of_nat (length l)))%Q.

(** The text of a payment method in the column [payment_method]. *)
Definition payment_method_name (pm : payment_method) : string :=
  match pm with
  | cash => "cash"
  | card => "card"
  | transfer => "transfer"
  end.

Inductive sale_status := active_sales | cancelled_sales.

(** [SaleFilters]; [from] and [to] are days. *)
Record SaleFilters := mkSaleFilters {
  f_from : option Z;
  f_to : option Z;
  f_payment_method : option string;
  f_cashier : option string;
  f_status : option sale_status
}.

(** The [WHERE] clause [getAll] builds: a filter that is [undefined] or the
    empty string adds no condition. *)
Definition matches (f : SaleFilters) (s : Sale) : Prop :=
  in_period (f_from f) (f_to f) s /\
  match or_null (f_payment_method f) with
  | Some pm => payment_method_name (s_payment_method s) = pm
  | None => True
  end /\
  match or_null (f_cashier f) with
  | Some c => s_cashier_id s = c
  | None => True
  end /\
  match f_status f with
  | Some active_sales => s_is_active s = true
  | Some cancelled_sales => s_is_active s = false
  | None => True
  end.

#[global] Instance matches_dec f s : Decision (matches f s).
Proof.
  unfold matches. destruct (or_null (f_payment_method f)), (or_null (f_cashier f)),
    (f_status f) as [[]|]; apply _.
Defined.

(** [ORDER BY created_at DESC] *)
Definition newest_first (a b : Sale) : Prop := s_created_at b <= s_created_at a.

#[global] Instance newest_first_dec a b : Decision (newest_first a b).
Proof. unfold newest_first. apply _. Defined.

(** [SalesService.getAll].  SQL leaves the order of sales created in the
    same second open; the sort used here fixes one, and no statement below
    depends on which. *)
Definition getAll (f : SaleFilters) (db : Database) : list Sale :=
  merge_sort newest_first (filter (matches f) (sales db)).

(** [SalesService.getToday], at the instant [now]. *)
Definition getToday (now : Z) (db : Database) : list Sale :=
  merge_sort newest_first (filter (fun s => DATE (s_created_at s) = DATE now) (sales db)).

(** ** ProductService: the catalogue *)

Module ProductService.

(** The exceptions of [create] and [update]: their own messages, and those
    that carry a message [adjustStock] or the store also uses. *)
Inductive catalogue_error :=
  | NameRequired
  | PriceNotPositive
  | BarcodeTaken
  | CreateFailed
  | NameEmpty
  | PriceNegative
  | BarcodeTakenByOther
  | Thrown (e : error).

Definition catalogue_message (e : catalogue_error) : string :=
  match e with
  | NameRequired => "El nombre del producto es requerido"
  | PriceNotPositive => "El precio debe ser un valor positivo"
  | BarcodeTaken => "Ya existe un producto con ese código de barras"
  | CreateFailed => "Error al crear el producto"
  | NameEmpty => "El nombre no puede estar vacío"
  | PriceNegative => "El precio no puede ser negativo"
  | BarcodeTakenByOther => "Ya existe otro producto con ese código de barras"
  | Thrown e => message e
  end.

Inductive outcome (A : Type) :=
  | Done (a : A)
  | Refused (e : catalogue_error).
Arguments Done {A} a.
Arguments Refused {A} e.

Record CreateProductInput := mkCreateProductInput {
  cp_name : string;
  cp_price : option Q;
  cp_cost : option Q;
  cp_stock : option Z;
  cp_min_stock : option Z;
  cp_category : option string;
  cp_barcode : option string;
  cp_description : option string;
  cp_image_url : option string
}.

Record UpdateProductInput := mkUpdateProductInput {
  up_name : option string;
  up_price : option Q;
  up_cost : option Q;
  up_stock : option Z;
  up_min_stock : option Z;
  up_category : option string;
  up_barcode : option string;
  up_description : option string;
  up_image_url : option string;
  up_is_active : option bool
}.


(** [x || d] on an optional integer: [undefined] and [0] are falsy. *)
Definition or_Z (d : Z) (x : option Z) : Z :=
  match x with
  | Some z => if decide (z = 0) then d else z
  | None => d
  end.

(** [x < 0] on a REAL. *)
Definition negative (q : Q) : bool := negb (Qle_bool 0 q).

(** The [UNIQUE] constraint of [products.barcode]: some row other than
    [self] holds the barcode.  [NULL] conflicts with nothing. *)
Definition barcode_in_use (self : option string) (b : option string)
    (ps : gmap string Product) : Prop :=
  match b with
  | Some b => map_Exists (fun k p => Some k <> self /\ p_barcode p = Some b) ps
  | None => False
  end.

#[global] Instance barcode_in_use_dec self b ps : Decision (barcode_in_use self b ps).
Proof. unfold barcode_in_use. destruct b; apply _. Defined.

(** [SELECT * FROM products WHERE barcode = ? AND is_active = 1], of which
    [get] returns the first row.  SQL leaves open which one is first; the
    [UNIQUE] constraint leaves at most one row to return. *)
Definition getByBarcode (barcode : string) (db : Database) : option Product :=
  snd <$> head (filter (fun kp => p_barcode kp.2 = Some barcode /\ p_is_active kp.2 = true)
                  (map_to_list (products db))).





Section Catalogue.

(** The clock, the id oracle, and [String.prototype.trim]. *)
Variable now : Z.
Variable gen : nat -> string.
Variable trim : string -> string.

(** [x?.trim() || null] *)
Definition trimmed (x : option string) : option string := or_null (trim <$> x).

(** The row [create] inserts. *)
Definition new_product (data : CreateProductInput) (price : Q) : Product :=
  mkProduct (trim (cp_name data)) price (or_zero (cp_cost data))
    (or_Z 0 (cp_stock data)) (or_Z 5 (cp_min_stock data))
    (trimmed (cp_category data)) (trimmed (cp_barcode data))
    (trimmed (cp_description data)) (or_null (cp_image_url data))
    true now now.

(** [ProductService.create].  The id is generated first; the [INSERT] is
    subject to the primary key and to the [UNIQUE] constraint of the
    barcode.  Which of the two the store reports when both fail is not
    fixed by the source, and no statement below depends on it. *)
Definition create (data : CreateProductInput) (db : Database) : Database * outcome Product :=
  let id := gen 0%nat in
  if decide (cp_name data = "" \/ trim (cp_name data) = "") then (db, Refused NameRequired)
  else
    match cp_price data with
    | None => (db, Refused PriceNotPositive)
    | Some price =>
        if negative price then (db, Refused PriceNotPositive)
        else if match or_null (cp_barcode data) with
                | Some b => bool_decide (is_Some (getByBarcode b db))
                | None => false
                end
        then (db, Refused BarcodeTaken)
        else
          let row := new_product data price in
          if decide (id ∈ dom (products db))
          then (db, Refused (Thrown (UniqueConstraintFailed "products.id")))
          else if decide (barcode_in_use None (p_barcode row) (products db))
          then (db, Refused (Thrown (UniqueConstraintFailed "products.barcode")))
          else
            let db' := set_products (insert id row) db in
            match getOne id db' with
            | Some product => (db', Done product)
            | None => (db', Refused CreateFailed)
            end
    end.

(** The row an [UPDATE] leaves: the columns the input names, the others as
    they were, and the timestamp of the trigger. *)
Definition updated (data : UpdateProductInput) (p : Product) : Product :=
  mkProduct
    (match up_name data with Some n => trim n | None => p_name p end)
    (default (p_price p) (up_price data))
    (default (p_cost p) (up_cost data))
    (default (p_stock p) (up_stock data))
    (default (p_min_stock p) (up_min_stock data))
    (match up_category data with Some _ => trimmed (up_category data) | None => p_category p end)
    (match up_barcode data with Some _ => trimmed (up_barcode data) | None => p_barcode p end)
    (match up_description data with
     | Some _ => trimmed (up_description data)
     | None => p_description p
     end)
    (match up_image_url data with Some _ => or_null (up_image_url data) | None => p_image_url p end)
    (default (p_is_active p) (up_is_active data))
    (p_created_at p) now.

(** No column is named: [fields.length === 0]. *)
Definition nothing_to_update (data : UpdateProductInput) : Prop :=
  up_name data = None /\ up_price data = None /\ up_cost data = None /\
  up_stock data = None /\ up_min_stock data = None /\ up_category data = None /\
  up_barcode data = None /\ up_description data = None /\ up_image_url data = None /\
  up_is_active data = None.

(** [ProductService.update].  The checks run in the order of the source:
    name, price, stock, barcode.  The barcode is looked up as given and
    stored trimmed, so the [UNIQUE] constraint is checked again by the
    [UPDATE]. *)
Definition update (id : string) (data : UpdateProductInput) (db : Database)
    : Database * outcome bool :=
  match getOne id db with
  | None => (db, Refused (Thrown ProductNotFound))
  | Some existing =>
      if match up_name data with Some n => bool_decide (trim n = "") | None => false end
      then (db, Refused NameEmpty)
      else if match up_price data with Some p => negative p | None => false end
      then (db, Refused PriceNegative)
      else if match up_stock data with Some s => s <? 0 | None => false end
      then (db, Refused (Thrown NegativeStock))
      else if decide (barcode_in_use (Some id) (or_null (up_barcode data)) (products db))
      then (db, Refused BarcodeTakenByOther)
      else if decide (nothing_to_update data) then (db, Done false)
      else
        let row := updated data existing in
        if match up_barcode data with
           | Some _ => bool_decide (barcode_in_use (Some id) (p_barcode row) (products db))
           | None => false
           end
        then (db, Refused (Thrown (UniqueConstraintFailed "products.barcode")))
        else (set_products (insert id row) db, Done true)
  end.

End Catalogue.

End ProductService.

(** [updateProductStock] of ProductModel: the [UPDATE] alone, and whether it
    changed a row. *)
Definition updateProductStock (now : Z) (id : string) (newStock : Z) (db : Database)
    : Database * bool :=
  (set_products (alter (with_stock now (fun _ => newStock)) id) db,
   bool_decide (id ∈ dom (products db))).

(** No two products share a barcode: the [UNIQUE] constraint of
    [products.barcode]. *)
Definition barcodes_unique (db : Database) : Prop :=
  forall k1 k2 p1 p2 b,
    products db !! k1 = Some p1 -> products db !! k2 = Some p2 ->
    p_barcode p1 = Some b -> p_barcode p2 = Some b -> k1 = k2.

(** What the catalogue says of a product: every column but [stock] and
    [updated_at]. *)
Definition described (p : Product) :=
  (p_name p, p_price p, p_cost p, p_min_stock p, p_category p, p_barcode p,
   p_description p, p_image_url p, p_is_active p, p_created_at p).

(** ** The listings of SaleModel *)

(** [findAllSales] *)
Definition findAllSales (db : Database) : list Sale :=
  merge_sort newest_first (sales db).

(** [findActiveSales] *)
Definition findActiveSales (db : Database) : list Sale :=
  merge_sort newest_first (filter (fun s => s_is_active s = true) (sales db)).

(** [findSalesByDate], of a day. *)
Definition findSalesByDate (date : Z) (db : Database) : list Sale :=
  merge_sort newest_first (filter (fun s => DATE (s_created_at s) = date) (sales db)).

(** [findSalesByDateRange], between two days: [BETWEEN] includes both. *)
Definition findSalesByDateRange (from to : Z) (db : Database) : list Sale :=
  merge_sort newest_first
    (filter (fun s => from <= DATE (s_created_at s) /\ DATE (s_created_at s) <= to) (sales db)).

(** [findSalesByCashier] *)
Definition findSalesByCashier (cashierId : string) (db : Database) : list Sale :=
  merge_sort newest_first (filter (fun s => s_cashier_id s = cashierId) (sales db)).

(** [findTodaySales], at the instant [now]. *)
Definition findTodaySales (now : Z) (db : Database) : list Sale :=
  findSalesByDate (DATE now) db.

(** ** The migrations of the schema *)

Module Migrations.

(** A migration.  Its [up] function is known by the version; it creates
    tables and triggers [IF NOT EXISTS] and is taken to succeed. *)
Record migration := mkMigration {
  version : Z;
  description : string
}.

Definition migrations : list migration :=
  [ mkMigration 1 "Initial schema";
    mkMigration 2 "Add triggers for timestamps" ].

(** What [runMigrations] reads and writes: the rows of [schema_version],
    and the [up] functions that have run, by version and in order. *)
Record Schema := mkSchema {
  schema_version : list (Z * string);
  ran : list Z
}.

(** [SELECT COALESCE(MAX(version), 0) FROM schema_version] *)
Definition currentVersion (s : Schema) : Z :=
  match (schema_version s).*1 with
  | [] => 0
  | v :: vs => foldr Z.max v vs
  end.

(** The transaction of one migration: [up], then the row of the version,
    which the primary key of [schema_version] can refuse. *)
Definition apply_migration (m : migration) (s : Schema) : option Schema :=
  if decide (version m ∈ (schema_version s).*1) then None
  else Some (mkSchema (schema_version s ++ [(version m, description m)])
               (ran s ++ [version m])).

(** The loop over the migrations, against the version read before it.  A
    transaction that fails is rolled back and ends the loop; the ones
    before it are committed. *)
Fixpoint pending (current : Z) (ms : list migration) (s : Schema) : Schema * bool :=
  match ms with
  | [] => (s, true)
  | m :: ms' =>
      if current <? version m then
        match apply_migration m s with
        | Some s' => pending current ms' s'
        | None => (s, false)
        end
      else pending current ms' s
  end.

Definition runMigrations (s : Schema) : Schema * bool :=
  pending (currentVersion s) migrations s.

End Migrations.

(** ** A small catalogue *)

Module Shelf.

(** [trim] on ASCII text: the white space of ECMAScript below code 128. *)
Definition is_space (a : Ascii.ascii) : bool :=
  let n := Ascii.nat_of_ascii a in
  ((9 <=? n)%nat && (n <=? 13)%nat) || (n =? 32)%nat.

Fixpoint trim_start (s : string) : string :=
  match s with
  | String a s' => if is_space a then trim_start s' else s
  | EmptyString => EmptyString
  end.

Definition reverse (s : string) : string :=
  string_of_list_ascii (rev (list_ascii_of_string s)).

Definition strip (s : string) : string :=
  reverse (trim_start (reverse (trim_start s))).

(** A product with a barcode and a threshold of 0. *)
Definition pencil : ProductService.CreateProductInput :=
  ProductService.mkCreateProductInput " Lapiz " (Some (3 # 2)) None (Some 20) (Some 0)
    None (Some "775001") None None.

(** The same barcode under another name. *)
Definition crayon : ProductService.CreateProductInput :=
  ProductService.mkCreateProductInput "Crayon" (Some 1%Q) None None None
    None (Some "775001") None None.

Definition unchanged : ProductService.UpdateProductInput :=
  ProductService.mkUpdateProductInput None None None None None None None None None None.

(** An update of the stock alone. *)
Definition recount (n : Z) : ProductService.UpdateProductInput :=
  ProductService.mkUpdateProductInput None None None (Some n) None None None None None None.

(** An update of the barcode alone. *)
Definition relabel (b : string) : ProductService.UpdateProductInput :=
  ProductService.mkUpdateProductInput None None None None None None (Some b) None None None.

(** The pencil is created, then deleted. *)
Definition stocked := ProductService.create 50 (Demo.ids "p") strip pencil Demo.db0.
Definition retired := delete 60 "p0" (fst stocked).

(** The pencils are counted again; the notebook gets a barcode. *)
Definition recounted := ProductService.update 80 strip "p0" (recount 7) (fst stocked).
Definition relabelled := ProductService.update 80 strip "p1" (relabel " 990 ") (fst stocked).

End Shelf.

(** ** A day of operations *)

Module Sample.

(** A sale of two lines, a restock, the cancellation of the sale and a
    second sale on the next day. *)
Definition busy : list operation :=
  [ CreateSale 100 (Demo.ids "a") (Demo.request [Demo.line "p1" 3; Demo.line "p1" 2]);
    AdjustStock 200 (Demo.ids "b") "p1" 4 "reposicion" "admin-001";
    CancelSale 300 (Demo.ids "c") "a0" "admin-001";
    CreateSale 86500 (Demo.ids "d") (Demo.request [Demo.line "p1" 6]) ].

(** The store [busy] leaves. *)
Definition after_busy : Database :=
  match perform_all busy Demo.db0 with
  | Some db => db
  | None => Demo.db0
  end.

End Sample.

(** ** The operations on the numbers of the code *)

(** The operations above compute with whole numbers.  That is what the
    code computes as long as the stocks and the quantities are whole
    numbers below 2^53 in magnitude.  The numbers of the code are those
    of JavaScript and of SQLite's [REAL]: IEEE 754 binary64.  A quantity is
    a [number] that nothing checks to be whole, and the column type
    [INTEGER] does not make it so.  This module embeds the three
    operations again, on binary64, as [SpecFloat] of the standard library
    specifies it. *)
Module Double.

(** *** Numbers *)

Definition number : Type := spec_float.

Definition zero : number := S754_zero false.

(** [x + y], [x - y] and [x < y] of JavaScript; SQLite computes
    [stock - ?] and [stock + ?] alike once an operand is [REAL], which a
    bound [number] always is. *)
Definition add : number -> number -> number := SFadd 53 1024.
Definition sub : number -> number -> number := SFsub 53 1024.
Definition ltb : number -> number -> bool := SFltb.

Definition is_nan (x : number) : bool :=
  match x with
  | S754_nan => true
  | _ => false
  end.

(** SQLite has no NaN: a NaN bound to a statement, or the NaN of an
    arithmetic result, is stored as [NULL].  In a row the value NaN stands
    for [NULL].  Reading it back gives [null], which the arithmetic and the
    comparisons of JavaScript convert to 0. *)
Definition ToNumber (column : number) : number :=
  if is_nan column then zero else column.

(** A column of type [INTEGER] stores a number that is whole as an
    integer: the number is the same, but for the zero, which loses its
    sign. *)
Definition integer_affinity (x : number) : number :=
  match x with
  | S754_zero _ => zero
  | _ => x
  end.

(** The number a whole number is, rounded to nearest if it has more than
    53 bits, and the number a decimal literal [n / 10 ^ k] is. *)
Definition of_Z (z : Z) : number := binary_normalize 53 1024 z 0 false.


(** The rational a finite number is. *)
Definition value (x : number) : option Q :=
  match x with
  | S754_zero _ => Some 0%Q
  | S754_finite s m e =>
      Some ((if s then inject_Z (Zneg m) else inject_Z (Zpos m)) * Qpower 2 e)%Q
  | S754_infinity _ | S754_nan => None
  end.

(** [z] is the sum of [x] and [y], with nothing rounded. *)
Definition exact_sum (x y z : number) : Prop :=
  match value x, value y, value z with
  | Some a, Some b, Some c => (a + b == c)%Q
  | _, _, _ => False
  end.

(** A whole number by its sign and its magnitude, and the mantissa and the
    exponent of the number a magnitude below 2^53 is: the mantissa has 53
    bits. *)
Definition signed (s : bool) (v : positive) : Z := if s then Zneg v else Zpos v.

Definition mant (v : positive) : positive :=
  Z.to_pos (Zpos v * 2 ^ (53 - Zpos (digits2_pos v))).

Definition expo (v : positive) : Z := Zpos (digits2_pos v) - 53.

(** *** Rows *)

Record Product := mkProduct {
  p_name : string;
  p_price : Q;
  p_cost : Q;
  p_stock : number;
  p_min_stock : Z;
  p_category : option string;
  p_barcode : option string;
  p_description : option string;
  p_image_url : option string;
  p_is_active : bool;
  p_created_at : Z;
  p_updated_at : Z
}.

Record SaleItem := mkSaleItem {
  si_id : string;
  si_sale_id : string;
  si_product_id : string;
  si_product_name : string;
  si_quantity : number;
  si_unit_price : Q;
  si_total_price : Q
}.

Record StockMovement := mkStockMovement {
  sm_id : string;
  sm_product_id : string;
  sm_movement_type : movement_type;
  sm_quantity : number;
  sm_previous_stock : number;
  sm_new_stock : number;
  sm_reference_id : option string;
  sm_notes : option string;
  sm_created_by : option string;
  sm_created_at : Z
}.

Record ItemInput := mkItemInput {
  it_product_id : string;
  it_product_name : string;
  it_quantity : number;
  it_unit_price : Q;
  it_total_price : Q
}.

Record CreateSaleInput := mkCreateSaleInput {
  in_items : list ItemInput;
  in_subtotal : Q;
  in_total : Q;
  in_tax : option Q;
  in_discount : option Q;
  in_payment_method : payment_method;
  in_cashier_id : string;
  in_cashier_name : string;
  in_customer_name : option string;
  in_notes : option string
}.

(** The store, with the sales as before. *)
Record Database := mkDatabase {
  users : gset string;
  products : gmap string Product;
  sales : list Sale;
  sale_items : list SaleItem;
  stock_movements : list StockMovement
}.

(** *** Exceptions *)

(** The exceptions of the three operations, with the numbers of their
    messages, and the constraint errors of the store: on binary64 an
    [INSERT] can also meet [NOT NULL]. *)
Inductive error :=
  | EmptySale
  | NonPositiveTotal
  | SaleProductNotFound (product_name : string)
  | InsufficientStock (product_name : string) (available requested : number)
  | SaleNotFoundOrCancelled
  | ProductNotFound
  | NegativeStock
  | NotNullConstraintFailed (column : string)
  | UniqueConstraintFailed (column : string)
  | ForeignKeyConstraintFailed.

Inductive result (A : Type) :=
  | Ok (a : A)
  | Err (e : error).
Arguments Ok {A} a.
Arguments Err {A} e.

(** *** Computations inside a transaction *)

Record St := mkSt {
  st_db : Database;
  st_ids : nat
}.

Definition M (A : Type) : Type := St -> St * result A.

Definition ret {A} (a : A) : M A := fun s => (s, Ok a).

Definition bind {A B} (m : M A) (f : A -> M B) : M B :=
  fun s =>
    match m s with
    | (s', Ok a) => f a s'
    | (s', Err e) => (s', Err e)
    end.

Definition throw {A} (e : error) : M A := fun s => (s, Err e).

#[local, warnings="-notation-overridden"]
Notation "'do' x <- m ; k" := (bind m (fun x => k))
  (at level 10, x name, m at level 100, k at level 200).
#[local, warnings="-notation-overridden"]
Notation "'run' m ; k" := (bind m (fun _ => k))
  (at level 10, m at level 100, k at level 200).

Definition query {A} (q : Database -> A) : M A := fun s => (s, Ok (q (st_db s))).

Definition write (f : Database -> Database) : M unit :=
  fun s => (mkSt (f (st_db s)) (st_ids s), Ok tt).

Fixpoint for_each {A} (body : A -> M unit) (l : list A) : M unit :=
  match l with
  | [] => ret tt
  | x :: l' => run body x; for_each body l'
  end.

Definition withTransaction {A} (callback : M A) (db : Database) : Database * result A :=
  match callback (mkSt db 0) with
  | (s, Ok a) => (st_db s, Ok a)
  | (_, Err e) => (db, Err e)
  end.

Section Engine.

Variable now : Z.
Variable gen : nat -> string.

Definition generateId : M string :=
  fun s => (mkSt (st_db s) (S (st_ids s)), Ok (gen (st_ids s))).

(** *** Statements *)

Definition set_products (f : gmap string Product -> gmap string Product) (db : Database)
    : Database :=
  mkDatabase (users db) (f (products db)) (sales db) (sale_items db) (stock_movements db).

Definition set_sales (f : list Sale -> list Sale) (db : Database) : Database :=
  mkDatabase (users db) (products db) (f (sales db)) (sale_items db) (stock_movements db).

Definition set_sale_items (f : list SaleItem -> list SaleItem) (db : Database) : Database :=
  mkDatabase (users db) (products db) (sales db) (f (sale_items db)) (stock_movements db).

Definition set_stock_movements (f : list StockMovement -> list StockMovement)
    (db : Database) : Database :=
  mkDatabase (users db) (products db) (sales db) (sale_items db) (f (stock_movements db)).

(** [SELECT stock FROM products WHERE id = ?] *)
Definition getProductStock (id : string) (db : Database) : option number :=
  p_stock <$> products db !! id.

(** [SELECT * FROM products WHERE id = ?] *)
Definition getOne (id : string) (db : Database) : option Product :=
  products db !! id.

(** An [UPDATE] of the stock of one product row: the column has type
    [INTEGER]; the trigger sets [updated_at]. *)
Definition with_stock (f : number -> number) (p : Product) : Product :=
  mkProduct (p_name p) (p_price p) (p_cost p) (integer_affinity (f (p_stock p)))
    (p_min_stock p) (p_category p) (p_barcode p) (p_description p) (p_image_url p)
    (p_is_active p) (p_created_at p) now.

(** [UPDATE products SET stock = stock - ? WHERE id = ?] *)
Definition updateStock_sub (q : number) (id : string) : M unit :=
  write (set_products (alter (with_stock (fun s => sub s q)) id)).

(** [UPDATE products SET stock = stock + ? WHERE id = ?] *)
Definition updateStock_add (q : number) (id : string) : M unit :=
  write (set_products (alter (with_stock (fun s => add s q)) id)).

(** [UPDATE products SET stock = ? WHERE id = ?] *)
Definition updateStock_set (newStock : number) (id : string) : M unit :=
  write (set_products (alter (with_stock (fun _ => newStock)) id)).

(** [INSERT INTO sales (...)], as before. *)
Definition insertSale (id : string) (total subtotal tax discount : Q)
    (pm : payment_method) (cashier_id cashier_name : string)
    (customer_name notes : option string) (daily_number : Z) : M unit :=
  do db <- query (fun db => db);
  if decide (id ∈ s_id <$> sales db) then throw (UniqueConstraintFailed "sales.id")
  else if decide (cashier_id ∈ users db) then
    write (set_sales (fun l => l ++
      [mkSale id total subtotal tax discount pm cashier_id cashier_name
         customer_name notes daily_number true now]))
  else throw ForeignKeyConstraintFailed.

(** [INSERT INTO sale_items (id, sale_id, product_id, product_name,
    quantity, unit_price, total_price)]; [quantity] is [INTEGER NOT
    NULL]. *)
Definition insertItem (id sale_id product_id product_name : string)
    (quantity : number) (unit_price total_price : Q) : M unit :=
  do db <- query (fun db => db);
  if is_nan quantity then throw (NotNullConstraintFailed "sale_items.quantity")
  else if decide (id ∈ si_id <$> sale_items db)
  then throw (UniqueConstraintFailed "sale_items.id")
  else if decide (sale_id ∈ s_id <$> sales db ∧ product_id ∈ dom (products db)) then
    write (set_sale_items (fun l => l ++
      [mkSaleItem id sale_id product_id product_name (integer_affinity quantity)
         unit_price total_price]))
  else throw ForeignKeyConstraintFailed.

(** [INSERT INTO stock_movements (id, product_id, movement_type, quantity,
    previous_stock, new_stock, reference_id, notes, created_by)]; the
    three numbers are [INTEGER NOT NULL]. *)
Definition insertMovement (id product_id : string) (ty : movement_type)
    (quantity previous_stock new_stock : number)
    (reference_id notes : option string) (created_by : string) : M unit :=
  do db <- query (fun db => db);
  if is_nan quantity then throw (NotNullConstraintFailed "stock_movements.quantity")
  else if is_nan previous_stock
  then throw (NotNullConstraintFailed "stock_movements.previous_stock")
  else if is_nan new_stock then throw (NotNullConstraintFailed "stock_movements.new_stock")
  else if decide (id ∈ sm_id <$> stock_movements db)
  then throw (UniqueConstraintFailed "stock_movements.id")
  else if decide (product_id ∈ dom (products db) ∧ created_by ∈ users db) then
    write (set_stock_movements (fun l => l ++
      [mkStockMovement id product_id ty (integer_affinity quantity)
         (integer_affinity previous_stock) (integer_affinity new_stock)
         reference_id notes (Some created_by) now]))
  else throw ForeignKeyConstraintFailed.

(** The greatest daily number of the day, if the day has a sale. *)
Definition lastSaleOfDay (today : Z) (db : Database) : option Z :=
  foldr (fun n acc => Some (match acc with Some m => Z.max n m | None => n end)) None
    (s_daily_number <$> filter (fun s => DATE (s_created_at s) = today) (sales db)).

(** [SELECT * FROM sales WHERE id = ?] *)
Definition getSale (id : string) (db : Database) : option Sale :=
  head (filter (fun s => s_id s = id) (sales db)).

(** [SELECT * FROM sales WHERE id = ? AND is_active = 1] *)
Definition getActiveSale (id : string) (db : Database) : option Sale :=
  head (filter (fun s => s_id s = id ∧ s_is_active s = true) (sales db)).

(** [SELECT * FROM sale_items WHERE sale_id = ?] *)
Definition getSaleItems (id : string) (db : Database) : list SaleItem :=
  filter (fun i => si_sale_id i = id) (sale_items db).

(** [UPDATE sales SET is_active = 0 WHERE id = ?] *)
Definition markCancelled (id : string) : M unit :=
  write (set_sales (fmap (fun s => if decide (s_id s = id) then deactivate s else s))).

(** *** SalesService.create *)

(** The body of the loop over [data.items].  [product.stock] is a number
    or [null]. *)
Definition createItem (saleId cashier_id : string) (item : ItemInput) : M unit :=
  do product <- query (getProductStock (it_product_id item));
  match product with
  | None => throw (SaleProductNotFound (it_product_name item))
  | Some stock =>
      if ltb (ToNumber stock) (it_quantity item) then
        throw (InsufficientStock (it_product_name item) stock (it_quantity item))
      else
        do itemId <- generateId;
        run insertItem itemId saleId (it_product_id item) (it_product_name item)
              (it_quantity item) (it_unit_price item) (it_total_price item);
        let previousStock := stock in
        let newStock := sub (ToNumber previousStock) (it_quantity item) in
        run updateStock_sub (it_quantity item) (it_product_id item);
        do movementId <- generateId;
        insertMovement movementId (it_product_id item) sale (it_quantity item)
          previousStock newStock (Some saleId) None cashier_id
  end.

(** The callback [create] hands to [withTransaction]. *)
Definition createTx (data : CreateSaleInput) : M (option Sale * Z) :=
  let today := DATE now in
  do lastSale <- query (lastSaleOfDay today);
  let dailyNumber := match lastSale with Some n => n + 1 | None => 1 end in
  do saleId <- generateId;
  run insertSale saleId (in_total data) (in_subtotal data)
        (or_zero (in_tax data)) (or_zero (in_discount data))
        (in_payment_method data) (in_cashier_id data) (in_cashier_name data)
        (or_null (in_customer_name data)) (or_null (in_notes data)) dailyNumber;
  run for_each (createItem saleId (in_cashier_id data)) (in_items data);
  do created <- query (getSale saleId);
  ret (created, dailyNumber).

Definition create (data : CreateSaleInput) (db : Database)
    : Database * result (option Sale * Z) :=
  match in_items data with
  | [] => (db, Err EmptySale)
  | _ :: _ =>
      if Qle_bool (in_total data) 0 then (db, Err NonPositiveTotal)
      else withTransaction (createTx data) db
  end.

(** *** SalesService.cancel *)

(** The body of the loop over the items of the cancelled sale. *)
Definition cancelItem (id userId : string) (daily_number : Z) (item : SaleItem) : M unit :=
  do product <- query (getProductStock (si_product_id item));
  match product with
  | Some stock =>
      let previousStock := stock in
      let newStock := add (ToNumber previousStock) (ToNumber (si_quantity item)) in
      run updateStock_add (si_quantity item) (si_product_id item);
      do movementId <- generateId;
      insertMovement movementId (si_product_id item) adjustment (si_quantity item)
        previousStock newStock (Some id) (Some (cancelNotes daily_number)) userId
  | None => ret tt
  end.

(** The callback [cancel] hands to [withTransaction]. *)
Definition cancelTx (id userId : string) : M unit :=
  do found <- query (getActiveSale id);
  match found with
  | None => throw SaleNotFoundOrCancelled
  | Some theSale =>
      do items <- query (getSaleItems id);
      run for_each (cancelItem id userId (s_daily_number theSale)) items;
      markCancelled id
  end.

Definition cancel (id userId : string) (db : Database) : Database * result unit :=
  withTransaction (cancelTx id userId) db.

(** *** ProductService.adjustStock *)

Definition adjustStock (productId : string) (quantity : number) (reason userId : string)
    (db : Database) : Database * result unit :=
  withTransaction (
    do product <- query (getOne productId);
    match product with
    | None => throw ProductNotFound
    | Some product =>
        let previousStock := p_stock product in
        let newStock := add (ToNumber previousStock) quantity in
        if ltb newStock zero then throw NegativeStock
        else
          run updateStock_set newStock productId;
          do id <- generateId;
          insertMovement id productId adjustment quantity previousStock newStock
            None (Some reason) userId
    end) db.

End Engine.

(** *** Vocabulary of the statements *)



(** The [sale_items] rows of a request, for the sale [saleId], when the
    first of them takes the id [gen k]. *)
Fixpoint item_rows (gen : nat -> string) (saleId : string) (k : nat)
    (items : list ItemInput) : list SaleItem :=
  match items with
  | [] => []
  | it :: l =>
      mkSaleItem (gen k) saleId (it_product_id it) (it_product_name it)
        (integer_affinity (it_quantity it)) (it_unit_price it) (it_total_price it)
      :: item_rows gen saleId (S (S k)) l
  end.

(** The state one pass of the loop of [create] leaves, for a line whose
    product row is [p]. *)
Definition item_done (now : Z) (gen : nat -> string) (saleId cashier : string)
    (item : ItemInput) (p : Product) (s : St) : St :=
  mkSt (mkDatabase (users (st_db s))
          (<[it_product_id item := with_stock now (fun st => sub st (it_quantity item)) p]>
             (products (st_db s)))
          (sales (st_db s))
          (sale_items (st_db s) ++
             [mkSaleItem (gen (st_ids s)) saleId (it_product_id item) (it_product_name item)
                (integer_affinity (it_quantity item)) (it_unit_price item)
                (it_total_price item)])
          (stock_movements (st_db s) ++
             [mkStockMovement (gen (S (st_ids s))) (it_product_id item) sale
                (integer_affinity (it_quantity item)) (integer_affinity (p_stock p))
                (integer_affinity (sub (p_stock p) (it_quantity item)))
                (Some saleId) None (Some cashier) now]))
       (S (S (st_ids s))).

(** The state one pass of the loop of [cancel] leaves, for an item whose
    product row is [p]. *)
Definition item_undone (now : Z) (gen : nat -> string) (id userId : string)
    (daily_number : Z) (item : SaleItem) (p : Product) (s : St) : St :=
  mkSt (mkDatabase (users (st_db s))
          (<[si_product_id item := with_stock now (fun st => add st (si_quantity item)) p]>
             (products (st_db s)))
          (sales (st_db s))
          (sale_items (st_db s))
          (stock_movements (st_db s) ++
             [mkStockMovement (gen (st_ids s)) (si_product_id item) adjustment
                (integer_affinity (si_quantity item)) (integer_affinity (p_stock p))
                (integer_affinity (add (p_stock p) (si_quantity item)))
                (Some id) (Some (cancelNotes daily_number)) (Some userId) now]))
       (S (st_ids s)).

(** The [sales] row [create] inserts for a request. *)
Definition header (now : Z) (id : string) (data : CreateSaleInput) (dailyNumber : Z) : Sale :=
  mkSale id (in_total data) (in_subtotal data)
    (or_zero (in_tax data)) (or_zero (in_discount data))
    (in_payment_method data) (in_cashier_id data) (in_cashier_name data)
    (or_null (in_customer_name data)) (or_null (in_notes data)) dailyNumber true now.

(** A [sale_items] row that holds a request line as submitted. *)
Definition holds_line (saleId : string) (it : ItemInput) (r : SaleItem) : Prop :=
  si_sale_id r = saleId /\
  si_product_id r = it_product_id it /\
  si_product_name r = it_product_name it /\
  si_quantity r = integer_affinity (it_quantity it) /\
  si_unit_price r = it_unit_price it /\
  si_total_price r = it_total_price it.

(** A ledger row that compensates one item of the cancelled sale [id]. *)
Definition compensates (id userId : string) (it : SaleItem) (m : StockMovement) : Prop :=
  sm_product_id m = si_product_id it /\
  sm_movement_type m = adjustment /\
  sm_quantity m = integer_affinity (si_quantity it) /\
  sm_new_stock m = integer_affinity (add (sm_previous_stock m) (sm_quantity m)) /\
  sm_reference_id m = Some id /\
  sm_created_by m = Some userId.

(** Every item belongs to a sale: the foreign key of [sale_items.sale_id]. *)
Definition items_reference_sales (db : Database) : Prop :=
  Forall (fun i => si_sale_id i ∈ (s_id <$> sales db)) (sale_items db).

(** The store accepts the ledger row [adjustStock] writes for a product
    whose stock is [current], a change [quantity] and their sum [new]:
    none of the three is stored as [NULL], the generated id is unused and
    the user exists. *)
Definition accepts_adjustment (gen : nat -> string) (userId : string)
    (quantity current new : number) (db : Database) : Prop :=
  is_nan quantity = false /\ is_nan current = false /\ is_nan new = false /\
  (gen 0%nat ∉ (sm_id <$> stock_movements db)) /\ userId ∈ users db.

(** An error of the store, not of the service. *)
Definition constraint_error (e : error) : Prop :=
  match e with
  | NotNullConstraintFailed _ | UniqueConstraintFailed _ | ForeignKeyConstraintFailed => True
  | _ => False
  end.

(** *** A small store *)

Definition book (stock : number) : Product :=
  mkProduct "Cuaderno" (5 # 2) 1 stock 5 None None None None true 0 0.

(** One user and one product, with the stock given. *)
Definition shop (stock : number) : Database :=
  mkDatabase {[ "admin-001" ]} {[ "p1" := book stock ]} [] [] [].

Definition line (pid : string) (q : number) : ItemInput :=
  mkItemInput pid "Cuaderno (oferta)" q 2 2.

Definition request (items : list ItemInput) : CreateSaleInput :=
  mkCreateSaleInput items 10 10 None None cash "admin-001" "Administrador" None None.






End Double.

(** ** The store on whole numbers, read as a store on binary64 *)

(** A whole number that binary64 holds and computes with exactly. *)
Definition safe (z : Z) : Prop := Z.abs z < 2 ^ 53.

Definition product64 (p : Product) : Double.Product :=
  Double.mkProduct (p_name p) (p_price p) (p_cost p) (Double.of_Z (p_stock p))
    (p_min_stock p) (p_category p) (p_barcode p) (p_description p) (p_image_url p)
    (p_is_active p) (p_created_at p) (p_updated_at p).

Definition item64 (i : SaleItem) : Double.SaleItem :=
  Double.mkSaleItem (si_id i) (si_sale_id i) (si_product_id i) (si_product_name i)
    (Double.of_Z (si_quantity i)) (si_unit_price i) (si_total_price i).

Definition movement64 (m : StockMovement) : Double.StockMovement :=
  Double.mkStockMovement (sm_id m) (sm_product_id m) (sm_movement_type m)
    (Double.of_Z (sm_quantity m)) (Double.of_Z (sm_previous_stock m))
    (Double.of_Z (sm_new_stock m)) (sm_reference_id m) (sm_notes m) (sm_created_by m)
    (sm_created_at m).

Definition line64 (it : ItemInput) : Double.ItemInput :=
  Double.mkItemInput (it_product_id it) (it_product_name it) (Double.of_Z (it_quantity it))
    (it_unit_price it) (it_total_price it).

Definition input64 (data : CreateSaleInput) : Double.CreateSaleInput :=
  Double.mkCreateSaleInput (line64 <$> in_items data) (in_subtotal data) (in_total data)
    (in_tax data) (in_discount data) (in_payment_method data) (in_cashier_id data)
    (in_cashier_name data) (in_customer_name data) (in_notes data).

Definition store64 (db : Database) : Double.Database :=
  Double.mkDatabase (users db) (product64 <$> products db) (sales db)
    (item64 <$> sale_items db) (movement64 <$> stock_movements db).

Definition error64 (e : error) : Double.error :=
  match e with
  | EmptySale => Double.EmptySale
  | NonPositiveTotal => Double.NonPositiveTotal
  | SaleProductNotFound n => Double.SaleProductNotFound n
  | InsufficientStock n a r => Double.InsufficientStock n (Double.of_Z a) (Double.of_Z r)
  | SaleNotFoundOrCancelled => Double.SaleNotFoundOrCancelled
  | ProductNotFound => Double.ProductNotFound
  | NegativeStock => Double.NegativeStock
  | UniqueConstraintFailed c => Double.UniqueConstraintFailed c
  | ForeignKeyConstraintFailed => Double.ForeignKeyConstraintFailed
  end.

Definition result64 {A} (r : result A) : Double.result A :=
  match r with
  | Ok a => Double.Ok a
  | Err e => Double.Err (error64 e)
  end.

(** What an operation returns: the store it leaves and its result. *)
Definition outcome64 {A} (x : Database * result A) : Double.Database * Double.result A :=
  (store64 (fst x), result64 (snd x)).

Definition state64 (s : St) : Double.St := Double.mkSt (store64 (st_db s)) (st_ids s).

Definition step64 {A} (x : St * result A) : Double.St * Double.result A :=
  (state64 (fst x), result64 (snd x)).

(** The product and the quantity of a request line, and of an item. *)
Definition line_units (it : ItemInput) : string * Z := (it_product_id it, it_quantity it).

Definition item_units (r : SaleItem) : string * Z := (si_product_id r, si_quantity r).

(** The magnitudes of the quantities that a list asks of product [pid], or
    gives back to it, summed. *)
Fixpoint weight (pid : string) (l : list (string * Z)) : Z :=
  match l with
  | [] => 0
  | (k, q) :: l' => (if decide (k = pid) then Z.abs q else 0) + weight pid l'
  end.

(** Whatever is taken from the stocks of the store or given back to them,
    in whatever order, the stocks stay safe. *)
Definition room (l : list (string * Z)) (db : Database) : Prop :=
  forall pid st, getProductStock pid db = Some st -> Z.abs st + weight pid l < 2 ^ 53.

(** ** Reasoning about computations *)

Section Monad.

Context {A B : Type}.

Lemma bind_ok (m : M A) (f : A -> M B) s s' b :
  bind m f s = (s', Ok b) ->
  exists s1 a, m s = (s1, Ok a) /\ f a s1 = (s', Ok b).
Proof.
  unfold bind. destruct (m s) as [s1 [a|e]]; [eauto | discriminate].
Qed.

Lemma bind_err (m : M A) (f : A -> M B) s s' e :
  bind m f s = (s', Err e) ->
  m s = (s', Err e) \/ exists s1 a, m s = (s1, Ok a) /\ f a s1 = (s', Err e).
Proof.
  unfold bind. destruct (m s) as [s1 [a|e1]]; [eauto | left; congruence].
Qed.




Lemma withTransaction_ok (m : M A) db db' a :
  withTransaction m db = (db', Ok a) ->
  exists s, m (mkSt db 0) = (s, Ok a) /\ db' = st_db s.
Proof.
  unfold withTransaction. destruct (m _) as [s [a1|e1]]; [|discriminate].
  intros [= <- <-]. eauto.
Qed.

End Monad.

(** What each [INSERT] does, by the constraint it meets. *)
Section Statements.

Variable now : Z.

Lemma insertMovement_run id pid ty q prev new ref notes by_ s :
  insertMovement now id pid ty q prev new ref notes by_ s =
  if decide (id ∈ sm_id <$> stock_movements (st_db s))
  then (s, Err (UniqueConstraintFailed "stock_movements.id"))
  else if decide (pid ∈ dom (products (st_db s)) /\ by_ ∈ users (st_db s))
  then (mkSt (set_stock_movements (fun l => l ++
          [mkStockMovement id pid ty q prev new ref notes (Some by_) now]) (st_db s))
          (st_ids s), Ok tt)
  else (s, Err ForeignKeyConstraintFailed).
Proof.
  unfold insertMovement, bind, query. repeat case_decide; reflexivity.
Qed.

Lemma insertItem_run id sid pid name q up tp s :
  insertItem id sid pid name q up tp s =
  if decide (id ∈ si_id <$> sale_items (st_db s))
  then (s, Err (UniqueConstraintFailed "sale_items.id"))
  else if decide (sid ∈ s_id <$> sales (st_db s) /\ pid ∈ dom (products (st_db s)))
  then (mkSt (set_sale_items (fun l => l ++
          [mkSaleItem id sid pid name q up tp]) (st_db s)) (st_ids s), Ok tt)
  else (s, Err ForeignKeyConstraintFailed).
Proof.
  unfold insertItem, bind, query. repeat case_decide; reflexivity.
Qed.

Lemma insertSale_run id total subtotal tax discount pm cid cname cust notes dn s :
  insertSale now id total subtotal tax discount pm cid cname cust notes dn s =
  if decide (id ∈ s_id <$> sales (st_db s))
  then (s, Err (UniqueConstraintFailed "sales.id"))
  else if decide (cid ∈ users (st_db s))
  then (mkSt (set_sales (fun l => l ++
          [mkSale id total subtotal tax discount pm cid cname cust notes dn true now])
          (st_db s)) (st_ids s), Ok tt)
  else (s, Err ForeignKeyConstraintFailed).
Proof.
  unfold insertSale, bind, query. repeat case_decide; reflexivity.
Qed.

End Statements.

(** ** Preconditions of create and cancel *)

(** C6.  A request with no items, or with a total that is not positive, is
    rejected by the validation at the head of [create], before the
    transaction is opened: the store that comes back is the store that went
    in, with no header, item, stock change or ledger row written. *)
Theorem create_validation now gen data db :
  in_items data = [] \/ (in_total data <= 0)%Q ->
  (in_items data = [] /\ create now gen data db = (db, Err EmptySale)) \/
  (in_items data <> [] /\ (in_total data <= 0)%Q /\
     create now gen data db = (db, Err NonPositiveTotal)).
Proof.
  intros H. unfold create. destruct (in_items data) as [|i l] eqn:Hi.
  - left. done.
  - right. destruct H as [?|Hle]; [done|].
    split; [done|]. split; [done|].
    apply Qle_bool_iff in Hle. by rewrite Hle.
Qed.

Lemma create_validation_witness :
  create 100 (Demo.ids "a") (Demo.request []) Demo.db0 = (Demo.db0, Err EmptySale) /\
  create 100 (Demo.ids "a") (Demo.free [Demo.line "p1" 3]) Demo.db0 =
    (Demo.db0, Err NonPositiveTotal).
Proof.
  split.
  - destruct (create_validation 100 (Demo.ids "a") (Demo.request []) Demo.db0) as [[_ H]|[H _]].
    + left. reflexivity.
    + exact H.
    + exfalso. apply H. reflexivity.
  - destruct (create_validation 100 (Demo.ids "a") (Demo.free [Demo.line "p1" 3]) Demo.db0)
      as [[H _]|(_ & _ & H)].
    + right. vm_compute. discriminate.
    + discriminate H.
    + exact H.
Defined.

Lemma getActiveSale_None id db :
  (forall s, s ∈ sales db -> s_id s = id -> s_is_active s = false) ->
  getActiveSale id db = None.
Proof.
  unfold getActiveSale. intros H.
  induction (sales db) as [|s l IH]; [done|].
  rewrite filter_cons. case_decide as Hs.
  - destruct Hs as [Hid Hact].
    specialize (H s (list_elem_of_here _ _) Hid). congruence.
  - apply IH. intros s' Hin. apply H. by apply list_elem_of_further.
Qed.

(** C8.  [cancel] on an id that no sale has, or whose sale is already
    inactive, fails with "Venta no encontrada o ya cancelada" and leaves
    products, sales, items and ledger as they were. *)
Theorem cancel_not_active now gen id userId db :
  (forall s, s ∈ sales db -> s_id s = id -> s_is_active s = false) ->
  cancel now gen id userId db = (db, Err SaleNotFoundOrCancelled).
Proof.
  intros H. unfold cancel, withTransaction, cancelTx, bind, query. simpl.
  by rewrite (getActiveSale_None _ _ H).
Qed.

Lemma cancel_not_active_witness :
  cancel 400 (Demo.ids "d") "a0" "admin-001" (fst Demo.undone) =
    (fst Demo.undone, Err SaleNotFoundOrCancelled) /\
  cancel 400 (Demo.ids "d") "zz" "admin-001" Demo.db0 =
    (Demo.db0, Err SaleNotFoundOrCancelled).
Proof.
  split; apply cancel_not_active.
  - intros s Hin _. vm_compute in Hin. apply list_elem_of_singleton in Hin. by subst.
  - intros s Hin. by apply elem_of_nil in Hin.
Defined.

(** ** The loop of create *)

Section CreateLoop.

Variables (now : Z) (gen : nat -> string) (saleId cashier : string).

Lemma alter_is_insert (m : gmap string Product) k p f :
  m !! k = Some p -> alter f k m = <[k := f p]> m.
Proof.
  intros H. apply map_eq. intros j. destruct (decide (j = k)) as [->|Hne].
  - by rewrite lookup_alter_eq, lookup_insert_eq, H.
  - by rewrite lookup_alter_ne, lookup_insert_ne.
Qed.

(** One pass that does not throw. *)
Lemma createItem_ok item s s1 :
  createItem now gen saleId cashier item s = (s1, Ok tt) ->
  exists p, products (st_db s) !! it_product_id item = Some p /\
    it_quantity item <= p_stock p /\
    s1 = item_done now gen saleId cashier item p s.
Proof.
  unfold createItem, bind, query, generateId, getProductStock.
  destruct (products (st_db s) !! it_product_id item) as [p|] eqn:Hp; simpl; [|discriminate].
  destruct (Z.ltb_spec (p_stock p) (it_quantity item)); [discriminate|].
  rewrite insertItem_run. simpl.
  destruct (decide _); [discriminate|]. destruct (decide _); [|discriminate].
  unfold updateStock_sub, write. simpl.
  rewrite insertMovement_run. simpl.
  destruct (decide _); [discriminate|]. destruct (decide _); [|discriminate].
  intros [= <-]. exists p. repeat split; try done.
  unfold item_done, set_stock_movements, set_products, set_sale_items. simpl.
  by rewrite (alter_is_insert _ _ p).
Qed.

Lemma item_done_stock item p s pid :
  getProductStock pid (st_db (item_done now gen saleId cashier item p s)) =
  if decide (it_product_id item = pid) then Some (p_stock p - it_quantity item)
  else getProductStock pid (st_db s).
Proof.
  unfold getProductStock, item_done. simpl. case_decide as Hk.
  - subst. by rewrite lookup_insert_eq.
  - by rewrite lookup_insert_ne.
Qed.

Lemma item_done_dom item p s :
  products (st_db s) !! it_product_id item = Some p ->
  dom (products (st_db (item_done now gen saleId cashier item p s))) = dom (products (st_db s)).
Proof.
  intros Hp. unfold item_done. simpl. rewrite dom_insert_L.
  apply subseteq_union_1_L, singleton_subseteq_l, elem_of_dom. eauto.
Qed.

(** Every proof about the loop opens the same way: peel the first pass off a
    run that did not throw. *)
Ltac peel_pass H IH :=
  simpl in H; apply bind_ok in H as (?s1 & [] & ?Hhead & ?Htail);
  apply createItem_ok in Hhead as (?p & ?Hp & ?Hle & ->);
  specialize (IH _ _ Htail).

Lemma createItems_frame items s s' :
  for_each (createItem now gen saleId cashier) items s = (s', Ok tt) ->
  st_ids s' = (st_ids s + 2 * length items)%nat /\
  users (st_db s') = users (st_db s) /\
  sales (st_db s') = sales (st_db s) /\
  dom (products (st_db s')) = dom (products (st_db s)) /\
  sale_items (st_db s') = sale_items (st_db s) ++ item_rows gen saleId (st_ids s) items.
Proof.
  revert s s'. induction items as [|item items IH]; intros s s' H.
  - injection H as <-. simpl. by rewrite Nat.add_0_r, app_nil_r.
  - peel_pass H IH. destruct IH as (Hk & Hu & Hs & Hd & Hi).
    rewrite Hk, Hu, Hs, Hd, Hi. simpl. rewrite <- app_assoc.
    repeat split; [lia|by apply item_done_dom].
Qed.

Lemma createItems_ledger items s s' :
  for_each (createItem now gen saleId cashier) items s = (s', Ok tt) ->
  exists ms, stock_movements (st_db s') = stock_movements (st_db s) ++ ms /\
    Forall2 (records_sale saleId cashier) items ms.
Proof.
  revert s s'. induction items as [|item items IH]; intros s s' H.
  - injection H as <-. exists []. by rewrite app_nil_r.
  - peel_pass H IH. destruct IH as (ms & Hm & Hall).
    eexists (_ :: ms). split.
    + rewrite Hm. simpl. by rewrite <- app_assoc.
    + constructor; [|done]. unfold records_sale. simpl. repeat split; lia.
Qed.

(** The stock a run of the loop leaves is the stock it found less the units
    the lines ask for. *)
Lemma createItems_stock items s s' pid :
  for_each (createItem now gen saleId cashier) items s = (s', Ok tt) ->
  getProductStock pid (st_db s') =
  (fun st => st - requested pid items) <$> getProductStock pid (st_db s).
Proof.
  revert s s'. induction items as [|item items IH]; intros s s' H.
  - injection H as <-. simpl. destruct (getProductStock pid (st_db s)); simpl; f_equal; lia.
  - peel_pass H IH. rewrite IH, item_done_stock. simpl. unfold getProductStock.
    case_decide as Hk.
    + subst. rewrite Hp. simpl. f_equal. lia.
    + destruct (products (st_db s) !! pid); simpl; f_equal; lia.
Qed.


End CreateLoop.

(** ** A sale that was created *)

Section Created.

Variables (now : Z) (gen : nat -> string).

Lemma getSale_appended id row db :
  s_id row = id -> id ∉ (s_id <$> sales db) ->
  head (filter (fun s => s_id s = id) (sales db ++ [row])) = Some row.
Proof.
  intros Hid Hfresh. induction (sales db) as [|s l IH]; simpl.
  - rewrite filter_cons, decide_True by done. done.
  - rewrite filter_cons. rewrite fmap_cons, not_elem_of_cons in Hfresh.
    destruct Hfresh as [Hne Hl]. rewrite decide_False by congruence. by apply IH.
Qed.

(** What a successful [create] has done: the validation passed, the store
    took the header under the id [gen 0] and the next daily number, the loop
    ran over the lines without throwing, and the row read back is the
    header. *)
Lemma create_ok data db db' r :
  create now gen data db = (db', Ok r) ->
  let dn := match lastSaleOfDay (DATE now) db with Some n => n + 1 | None => 1 end in
  let row := header now (gen 0%nat) data dn in
  (in_items data <> []) /\ ~ (in_total data <= 0)%Q /\
  (gen 0%nat ∉ (s_id <$> sales db)) /\ in_cashier_id data ∈ users db /\
  r = (Some row, dn) /\
  exists s', for_each (createItem now gen (gen 0%nat) (in_cashier_id data)) (in_items data)
               (mkSt (set_sales (fun l => l ++ [row]) db) 1) = (s', Ok tt) /\
             db' = st_db s'.
Proof.
  intros H dn row. unfold create in H.
  destruct (in_items data) as [|i0 l0] eqn:Hitems; [discriminate|].
  destruct (Qle_bool (in_total data) 0) eqn:Htot; [discriminate|].
  apply withTransaction_ok in H as (s & H & ->).
  unfold createTx in H.
  apply bind_ok in H as (s1 & last & Hq & H). injection Hq as <- <-. simpl in H.
  apply bind_ok in H as (s2 & saleId & Hg & H). injection Hg as <- <-.
  apply bind_ok in H as (s3 & [] & Hins & H).
  rewrite insertSale_run in Hins. simpl in Hins.
  destruct (decide _) as [|Hfresh]; [discriminate|].
  destruct (decide _) as [Hcashier|]; [|discriminate].
  injection Hins as <-.
  apply bind_ok in H as (s4 & [] & Hloop & H).
  apply bind_ok in H as (s5 & created & Hq & H). injection Hq as <- <-.
  injection H as <- <-.
  rewrite Hitems in Hloop.
  split; [done|]. split; [by rewrite <- Qle_bool_iff, Htot|].
  split; [done|]. split; [done|]. split.
  - f_equal. unfold getSale.
    destruct (createItems_frame _ _ _ _ _ _ _ Hloop) as (_ & _ & -> & _). simpl.
    by rewrite getSale_appended.
  - exists s4. split; [|done]. exact Hloop.
Qed.

End Created.

Lemma item_rows_hold gen saleId k items :
  Forall2 (holds_line saleId) items (item_rows gen saleId k items).
Proof.
  revert k. induction items as [|it l IH]; intros k; simpl; constructor; [|apply IH].
  by repeat split.
Qed.

(** C9.  A successful [create] stores what was submitted: the header holds
    the request's total and subtotal, and its tax and discount or 0 when
    they are absent; each item row holds the product name, quantity, unit
    price and total price of its request line, whatever the catalogue says.
    Nothing ties the item totals to the header: there is a sale that is
    accepted although the sum of its items' total_price differs from
    total - tax + discount, and whose item carries a name and a price other
    than the product's. *)
Theorem create_stores_submitted :
  (forall now gen data db db' sl dn,
     create now gen data db = (db', Ok (sl, dn)) ->
     exists row rows,
       sl = Some row /\ sales db' = sales db ++ [row] /\
       sale_items db' = sale_items db ++ rows /\
       s_total row = in_total data /\ s_subtotal row = in_subtotal data /\
       s_tax row = or_zero (in_tax data) /\ s_discount row = or_zero (in_discount data) /\
       Forall2 (holds_line (s_id row)) (in_items data) rows) /\
  (or_zero None = 0%Q /\ forall q, (or_zero (Some q) == q)%Q) /\
  (exists db' row r p,
     create 100 (Demo.ids "a") (Demo.request [Demo.line "p1" 3]) Demo.db0
       = (db', Ok (Some row, 1)) /\
     sale_items db' = [r] /\
     ~ (items_total [r] == s_total row - s_tax row + s_discount row)%Q /\
     products Demo.db0 !! si_product_id r = Some p /\
     si_product_name r <> p_name p /\ ~ (si_unit_price r == p_price p)%Q).
Proof.
  split; [|split].
  - intros now gen data db db' sl dn H.
    apply create_ok in H as (_ & _ & _ & _ & Hr & s' & Hloop & ->).
    injection Hr as -> ->.
    destruct (createItems_frame _ _ _ _ _ _ _ Hloop) as (_ & _ & Hs & _ & Hi).
    eexists _, _. split; [reflexivity|]. split; [exact Hs|]. split; [exact Hi|].
    repeat split; try reflexivity. apply item_rows_hold.
  - split; [reflexivity|]. intros q. simpl.
    destruct (Qeq_bool q 0) eqn:Hq; [|reflexivity].
    apply Qeq_bool_iff in Hq. by symmetry.
  - eexists _, _, _, _. split; [vm_compute; reflexivity|].
    split; [reflexivity|]. split; [|split; [reflexivity|split]].
    + vm_compute. discriminate.
    + vm_compute. discriminate.
    + vm_compute. discriminate.
Qed.

Lemma create_stores_submitted_witness :
  exists row rows,
    sales (fst (create 100 (Demo.ids "a") (Demo.request [Demo.line "p1" 3]) Demo.db0)) = [row] /\
    sale_items (fst (create 100 (Demo.ids "a") (Demo.request [Demo.line "p1" 3]) Demo.db0)) = rows /\
    s_total row = 10%Q /\
    Forall2 (holds_line (s_id row)) [Demo.line "p1" 3] rows.
Proof.
  destruct (proj1 create_stores_submitted 100 (Demo.ids "a")
              (Demo.request [Demo.line "p1" 3]) Demo.db0
              (fst (create 100 (Demo.ids "a") (Demo.request [Demo.line "p1" 3]) Demo.db0))
              (Some (header 100 "a0" (Demo.request [Demo.line "p1" 3]) 1)) 1)
    as (row & rows & _ & Hs & Hi & Ht & _ & _ & _ & Hall).
  - vm_compute. reflexivity.
  - exists row, rows. split; [exact Hs|]. split; [exact Hi|]. split; [exact Ht|exact Hall].
Defined.

(** ** Daily numbers *)

Lemma lastSaleOfDay_spec d db :
  match lastSaleOfDay d db with
  | None => day_numbers d db = []
  | Some m => m ∈ day_numbers d db /\ forall n, n ∈ day_numbers d db -> n <= m
  end.
Proof.
  unfold lastSaleOfDay, day_numbers.
  induction (s_daily_number <$> filter _ (sales db)) as [|x l IH]; simpl; [done|].
  destruct (foldr _ None l) as [m|].
  - destruct IH as [Hin Hmax]. split.
    + destruct (Z.max_spec x m) as [[_ ->]|[_ ->]].
      * by apply list_elem_of_further.
      * apply list_elem_of_here.
    + intros n [->|Hn]%elem_of_cons; [lia|]. specialize (Hmax n Hn). lia.
  - subst l. split; [apply list_elem_of_here|].
    intros n [->|Hn]%elem_of_cons; [lia|]. by apply elem_of_nil in Hn.
Qed.

Lemma day_numbers_appended d db db' row :
  sales db' = sales db ++ [row] ->
  day_numbers d db' =
  day_numbers d db ++ (if decide (DATE (s_created_at row) = d) then [s_daily_number row] else []).
Proof.
  intros Hs. unfold day_numbers. rewrite Hs, filter_app, fmap_app. f_equal.
  rewrite filter_cons, filter_nil. by case_decide.
Qed.

(** The daily number of a created sale, from the numbers of its day. *)
Lemma create_numbers now gen data db db' sl dn :
  create now gen data db = (db', Ok (sl, dn)) ->
  (exists row, sl = Some row /\ s_daily_number row = dn /\ s_created_at row = now /\
     sales db' = sales db ++ [row]) /\
  dn = getLastDailyNumber (DATE now) db + 1 /\
  (day_numbers (DATE now) db = [] -> dn = 1) /\
  (forall m, m ∈ day_numbers (DATE now) db ->
     (forall n, n ∈ day_numbers (DATE now) db -> n <= m) -> dn = m + 1).
Proof.
  intros H. apply create_ok in H as (_ & _ & _ & _ & Hr & s' & Hloop & ->).
  injection Hr as -> ->.
  destruct (createItems_frame _ _ _ _ _ _ _ Hloop) as (_ & _ & Hs & _).
  pose proof (lastSaleOfDay_spec (DATE now) db) as Hlast.
  split; [|split; [|split]].
  - eexists. split; [reflexivity|]. done.
  - unfold getLastDailyNumber. by destruct (lastSaleOfDay (DATE now) db).
  - intros Hnil. destruct (lastSaleOfDay (DATE now) db) as [m|]; [|done].
    destruct Hlast as [Hin _]. rewrite Hnil in Hin. by apply elem_of_nil in Hin.
  - intros m Hm Hmax. destruct (lastSaleOfDay (DATE now) db) as [m'|].
    + destruct Hlast as [Hin' Hmax']. specialize (Hmax _ Hin'). specialize (Hmax' _ Hm). lia.
    + rewrite Hlast in Hm. by apply elem_of_nil in Hm.
Qed.

(** C3.  The daily number [create] assigns, returns and stores is 1 when no
    sale, active or cancelled, was created on the current day, and otherwise
    one more than the greatest daily number among the sales of that day; it
    is [getLastDailyNumber] of the day plus 1.
    Hence, from a store with no sale on a day nor on the next, two sales
    created that day are numbered 1 and 2, and a sale created on the next
    day is numbered 1.  A sale created after the only sale of the day was
    cancelled is numbered 2. *)
Theorem create_daily_number :
  (forall now gen data db db' sl dn,
     create now gen data db = (db', Ok (sl, dn)) ->
     (exists row, sl = Some row /\ s_daily_number row = dn /\ s_created_at row = now /\
        sales db' = sales db ++ [row]) /\
     dn = getLastDailyNumber (DATE now) db + 1 /\
     (day_numbers (DATE now) db = [] -> dn = 1) /\
     (forall m, m ∈ day_numbers (DATE now) db ->
        (forall n, n ∈ day_numbers (DATE now) db -> n <= m) -> dn = m + 1)) /\
  (forall t1 t2 t3 g1 g2 g3 d1 d2 d3 db db1 db2 db3 r1 r2 r3,
     day_numbers (DATE t1) db = [] -> day_numbers (DATE t3) db = [] ->
     DATE t2 = DATE t1 -> DATE t3 = DATE t1 + 1 ->
     create t1 g1 d1 db = (db1, Ok r1) ->
     create t2 g2 d2 db1 = (db2, Ok r2) ->
     create t3 g3 d3 db2 = (db3, Ok r3) ->
     snd r1 = 1 /\ snd r2 = 2 /\ snd r3 = 1) /\
  snd (Demo.returned
         (create 200 (Demo.ids "b") (Demo.request [Demo.line "p1" 2]) (fst Demo.undone))) = 2.
Proof.
  split; [exact create_numbers|]. split; [|vm_compute; reflexivity].
  intros t1 t2 t3 g1 g2 g3 d1 d2 d3 db db1 db2 db3 [s1 n1] [s2 n2] [s3 n3]
    Hday1 Hday3 Ht2 Ht3 H1 H2 H3. simpl.
  apply create_numbers in H1 as ((row1 & _ & Hn1 & Hc1 & Hs1) & _ & Hfirst1 & _).
  apply create_numbers in H2 as ((row2 & _ & Hn2 & Hc2 & Hs2) & _ & _ & Hnext2).
  apply create_numbers in H3 as (_ & _ & Hfirst3 & _).
  specialize (Hfirst1 Hday1). rewrite Hfirst1 in Hn1 |- *.
  assert (Hd1 : day_numbers (DATE t2) db1 = [1]).
  { rewrite (day_numbers_appended _ _ _ _ Hs1), Ht2, Hday1, Hc1, Hn1.
    by rewrite decide_True. }
  assert (n2 = 2) as ->.
  { rewrite (Hnext2 1); [done|rewrite Hd1; apply list_elem_of_here|].
    intros n Hn. rewrite Hd1 in Hn. apply list_elem_of_singleton in Hn. lia. }
  split; [done|]. split; [done|]. apply Hfirst3.
  rewrite (day_numbers_appended _ _ _ _ Hs2), (day_numbers_appended _ _ _ _ Hs1), Hday3.
  rewrite Hc1, Hc2, Ht2. rewrite !decide_False by lia. done.
Qed.

Lemma create_daily_number_witness :
  snd (Demo.returned Demo.day1a) = 1 /\
  snd (Demo.returned Demo.day1b) = 2 /\
  snd (Demo.returned Demo.day2) = 1.
Proof.
  apply (proj1 (proj2 create_daily_number) 100 200 86500
           (Demo.ids "a") (Demo.ids "b") (Demo.ids "c")
           (Demo.request [Demo.line "p1" 3]) (Demo.request [Demo.line "p1" 2])
           (Demo.request [Demo.line "p1" 1])
           Demo.db0 (fst Demo.day1a) (fst Demo.day1b) (fst Demo.day2)).
  - reflexivity.
  - reflexivity.
  - reflexivity.
  - reflexivity.
  - vm_compute. reflexivity.
  - vm_compute. reflexivity.
  - vm_compute. reflexivity.
Defined.

(** ** One product on several lines *)

Lemma requested_absent pid items :
  pid ∉ (it_product_id <$> items) -> requested pid items = 0.
Proof.
  induction items as [|it l IH]; simpl; [done|].
  rewrite not_elem_of_cons. intros [Hne Hl].
  rewrite decide_False by done. rewrite IH by done. done.
Qed.

(** After a run of the loop, a product that some line names has at least
    zero units. *)
Lemma createItems_covered now gen saleId cashier items s s' pid st' :
  for_each (createItem now gen saleId cashier) items s = (s', Ok tt) ->
  pid ∈ (it_product_id <$> items) ->
  getProductStock pid (st_db s') = Some st' -> 0 <= st'.
Proof.
  revert s s'. induction items as [|item items IH]; intros s s' H Hin Hst'.
  - by apply elem_of_nil in Hin.
  - simpl in H. apply bind_ok in H as (s1 & [] & Hhead & Htail).
    destruct (decide (pid ∈ (it_product_id <$> items))) as [Hl|Hl].
    + by apply (IH _ _ Htail).
    + rewrite fmap_cons in Hin. apply elem_of_cons in Hin as [->|]; [|done].
      apply createItem_ok in Hhead as (p & Hp & Hle & ->).
      rewrite (createItems_stock _ _ _ _ _ _ _ _ Htail), item_done_stock in Hst'.
      rewrite decide_True in Hst' by done. injection Hst' as <-.
      rewrite requested_absent by done. lia.
Qed.



(** ** The loop of cancel *)

Section CancelLoop.

Variables (now : Z) (gen : nat -> string) (id userId : string) (daily_number : Z).

(** One pass: an item whose product is gone is passed over; otherwise the
    stock is raised, and the pass throws only if the store refuses the
    ledger row. *)
Lemma cancelItem_run item s :
  cancelItem now gen id userId daily_number item s =
  match products (st_db s) !! si_product_id item with
  | None => (s, Ok tt)
  | Some p =>
      let s1 := mkSt (set_products (alter (with_stock now (fun st => st + si_quantity item))
                        (si_product_id item)) (st_db s)) (S (st_ids s)) in
      if decide (gen (st_ids s) ∈ sm_id <$> stock_movements (st_db s))
      then (s1, Err (UniqueConstraintFailed "stock_movements.id"))
      else if decide (userId ∈ users (st_db s))
      then (item_undone now gen id userId daily_number item p s, Ok tt)
      else (s1, Err ForeignKeyConstraintFailed)
  end.
Proof.
  unfold cancelItem, bind, query, generateId, getProductStock.
  destruct (products (st_db s) !! si_product_id item) as [p|] eqn:Hp; simpl; [|done].
  rewrite insertMovement_run. simpl.
  destruct (decide (gen (st_ids s) ∈ _)); [done|].
  assert (Hdom : si_product_id item ∈
    dom (alter (with_stock now (fun st => st + si_quantity item)) (si_product_id item)
           (products (st_db s)))).
  { apply elem_of_dom. rewrite lookup_alter_eq, Hp. by eexists. }
  destruct (decide (userId ∈ users (st_db s))) as [Hu|Hu].
  - rewrite decide_True by done.
    unfold item_undone, set_stock_movements, set_products. simpl.
    by rewrite (alter_is_insert _ _ p).
  - rewrite decide_False by tauto. done.
Qed.

Lemma cancelItem_ok item s s1 :
  cancelItem now gen id userId daily_number item s = (s1, Ok tt) ->
  match products (st_db s) !! si_product_id item with
  | None => s1 = s
  | Some p => s1 = item_undone now gen id userId daily_number item p s
  end.
Proof.
  rewrite cancelItem_run.
  destruct (products (st_db s) !! si_product_id item) as [p|]; simpl.
  - destruct (decide _); [discriminate|]. destruct (decide _); [|discriminate]. congruence.
  - congruence.
Qed.

Lemma item_undone_stock item p s pid :
  getProductStock pid (st_db (item_undone now gen id userId daily_number item p s)) =
  if decide (si_product_id item = pid) then Some (p_stock p + si_quantity item)
  else getProductStock pid (st_db s).
Proof.
  unfold getProductStock, item_undone. simpl. case_decide as Hk.
  - subst. by rewrite lookup_insert_eq.
  - by rewrite lookup_insert_ne.
Qed.

Lemma item_undone_dom item p s :
  products (st_db s) !! si_product_id item = Some p ->
  dom (products (st_db (item_undone now gen id userId daily_number item p s))) =
  dom (products (st_db s)).
Proof.
  intros Hp. unfold item_undone. simpl. rewrite dom_insert_L.
  apply subseteq_union_1_L, singleton_subseteq_l, elem_of_dom. eauto.
Qed.

Lemma cancelItems_frame items s s' :
  for_each (cancelItem now gen id userId daily_number) items s = (s', Ok tt) ->
  users (st_db s') = users (st_db s) /\
  sales (st_db s') = sales (st_db s) /\
  sale_items (st_db s') = sale_items (st_db s) /\
  dom (products (st_db s')) = dom (products (st_db s)).
Proof.
  revert s s'. induction items as [|item items IH]; intros s s' H.
  - by injection H as <-.
  - simpl in H. apply bind_ok in H as (s1 & [] & Hhead & Htail).
    apply cancelItem_ok in Hhead. specialize (IH _ _ Htail).
    destruct (products (st_db s) !! si_product_id item) as [p|] eqn:Hp; subst s1; [|done].
    destruct IH as (-> & -> & -> & ->). repeat split. by apply item_undone_dom.
Qed.

(** The stock a run of the loop leaves is the stock it found plus the units
    of the items; a product that is not a row stays absent. *)
Lemma cancelItems_stock items s s' pid :
  for_each (cancelItem now gen id userId daily_number) items s = (s', Ok tt) ->
  getProductStock pid (st_db s') =
  (fun st => st + sold pid items) <$> getProductStock pid (st_db s).
Proof.
  revert s s'. induction items as [|item items IH]; intros s s' H.
  - injection H as <-. simpl. destruct (getProductStock pid (st_db s)); simpl; f_equal; lia.
  - simpl in H. apply bind_ok in H as (s1 & [] & Hhead & Htail).
    apply cancelItem_ok in Hhead. rewrite (IH _ _ Htail). simpl.
    destruct (products (st_db s) !! si_product_id item) as [p|] eqn:Hp; subst s1.
    + rewrite item_undone_stock. unfold getProductStock. case_decide as Hk.
      * subst. rewrite Hp. simpl. f_equal. lia.
      * destruct (products (st_db s) !! pid); simpl; f_equal; lia.
    + unfold getProductStock. case_decide as Hk.
      * subst. by rewrite Hp.
      * destruct (products (st_db s) !! pid); simpl; f_equal; lia.
Qed.

(** The ledger gains one compensating row for each item whose product is a
    row, in the order of the items, and none for the others. *)
Lemma cancelItems_ledger items s s' :
  for_each (cancelItem now gen id userId daily_number) items s = (s', Ok tt) ->
  exists ms, stock_movements (st_db s') = stock_movements (st_db s) ++ ms /\
    Forall2 (compensates id userId) (with_product (st_db s) items) ms.
Proof.
  revert s s'. induction items as [|item items IH]; intros s s' H.
  - injection H as <-. exists []. rewrite app_nil_r. split; [done|constructor].
  - simpl in H. apply bind_ok in H as (s1 & [] & Hhead & Htail).
    apply cancelItem_ok in Hhead. destruct (IH _ _ Htail) as (ms & Hm & Hall).
    unfold with_product in *. rewrite filter_cons.
    destruct (products (st_db s) !! si_product_id item) as [p|] eqn:Hp; subst s1.
    + rewrite decide_True by (apply elem_of_dom; eauto).
      rewrite item_undone_dom in Hall by done.
      eexists (_ :: ms). split.
      * rewrite Hm. simpl. by rewrite <- app_assoc.
      * constructor; [|done]. by repeat split.
    + rewrite decide_False by (by rewrite not_elem_of_dom).
      exists ms. done.
Qed.

End CancelLoop.

(** ** Generated ids *)




(** ** A sale that was cancelled *)

Section Cancelled.

Variables (now : Z) (gen : nat -> string) (id userId : string).

(** What a successful [cancel] has done. *)
Lemma cancel_ok db db' :
  cancel now gen id userId db = (db', Ok tt) ->
  exists theSale s',
    getActiveSale id db = Some theSale /\
    for_each (cancelItem now gen id userId (s_daily_number theSale)) (getSaleItems id db)
      (mkSt db 0) = (s', Ok tt) /\
    db' = set_sales (fmap (fun s => if decide (s_id s = id) then deactivate s else s)) (st_db s').
Proof.
  intros H. apply withTransaction_ok in H as (s & H & ->). unfold cancelTx in H.
  apply bind_ok in H as (s1 & found & Hq & H). injection Hq as <- <-. simpl in H.
  destruct (getActiveSale id db) as [theSale|]; [|discriminate].
  apply bind_ok in H as (s2 & items & Hq & H). injection Hq as <- <-.
  apply bind_ok in H as (s3 & [] & Hloop & H). injection H as <-.
  exists theSale, s3. done.
Qed.


End Cancelled.

Lemma markCancelled_inactive id (l : list Sale) s :
  s ∈ (fun s => if decide (s_id s = id) then deactivate s else s) <$> l ->
  s_id s = id -> s_is_active s = false.
Proof.
  intros (s0 & -> & _)%list_elem_of_fmap. by case_decide.
Qed.




(** ** Cancelling a sale that was just created *)

Lemma filter_keep_all {T} (P : T -> Prop) `{forall x, Decision (P x)} (l : list T) :
  Forall P l -> filter P l = l.
Proof.
  induction 1 as [|x l Hx _ IH]; [done|]. by rewrite filter_cons_True, IH.
Qed.

Lemma filter_drop_all {T} (P : T -> Prop) `{forall x, Decision (P x)} (l : list T) :
  Forall (fun x => ~ P x) l -> filter P l = [].
Proof.
  induction 1 as [|x l Hx _ IH]; [done|]. by rewrite filter_cons_False, IH.
Qed.

Lemma item_rows_sale gen saleId k items :
  Forall (fun r => si_sale_id r = saleId) (item_rows gen saleId k items).
Proof.
  revert k. induction items as [|it l IH]; intros k; simpl; constructor; [done|apply IH].
Qed.



(** ** A line that asks for more than there is *)

Section Refused.

Variables (now : Z) (gen : nat -> string) (saleId cashier : string).




End Refused.





(** ** Stock across operations *)

(** C1, at a failing sequence.  On a store with 10 units of "p1", three
    calls that each succeed leave -5 units: a sale with a line of -5 units
    passes the stock check and raises the stock to 15, a write-off of 15
    brings it to 0, and the cancellation of the sale adds the line's -5
    without the check that [adjustStock] makes. *)
Theorem stock_negative_after_cancel :
  Demo.stock_of "p1" Demo.db0 = Some 10 /\
  exists db1 db2 db3,
    perform (CreateSale 100 (Demo.ids "a") (Demo.request [Demo.line "p1" (-5)])) Demo.db0
      = Some db1 /\
    Demo.stock_of "p1" db1 = Some 15 /\
    perform (AdjustStock 200 (Demo.ids "b") "p1" (-15) "merma" "admin-001") db1 = Some db2 /\
    Demo.stock_of "p1" db2 = Some 0 /\
    perform (CancelSale 300 (Demo.ids "c") "a0" "admin-001") db2 = Some db3 /\
    Demo.stock_of "p1" db3 = Some (-5) /\
    perform_all Demo.returns_then_cancel Demo.db0 = Some db3.
Proof.
  split; [reflexivity|]. eexists _, _, _.
  split; [vm_compute; reflexivity|]. split; [vm_compute; reflexivity|].
  split; [vm_compute; reflexivity|]. split; [vm_compute; reflexivity|].
  split; [vm_compute; reflexivity|]. split; [vm_compute; reflexivity|].
  vm_compute. reflexivity.
Qed.

(** The sequence above needs a line with a negative quantity: when no line
    and no stored item has one, every call that succeeds keeps the stock of
    every product at zero or more. *)
Lemma sold_nonneg pid rows :
  Forall (fun r => 0 <= si_quantity r) rows -> 0 <= sold pid rows.
Proof.
  induction 1 as [|r l Hr _ IH]; simpl; [done|]. case_decide; lia.
Qed.

Lemma item_rows_quantities gen saleId k items (P : Z -> Prop) :
  Forall (fun it => P (it_quantity it)) items ->
  Forall (fun r => P (si_quantity r)) (item_rows gen saleId k items).
Proof.
  intros H. revert k. induction H as [|it l Hit _ IH]; intros k; simpl; constructor;
    [done|apply IH].
Qed.

Lemma create_keeps_stock now gen data db db' r :
  create now gen data db = (db', Ok r) ->
  stock_nonneg db -> stock_nonneg db'.
Proof.
  intros H Hstock pid st' Hst'.
  apply create_ok in H as (_ & _ & _ & _ & _ & s' & Hloop & ->).
  destruct (decide (pid ∈ (it_product_id <$> in_items data))) as [Hin|Hout].
  - by apply (createItems_covered _ _ _ _ _ _ _ _ _ Hloop Hin).
  - rewrite (createItems_stock _ _ _ _ _ _ _ pid Hloop) in Hst'.
    rewrite requested_absent in Hst' by done.
    change (getProductStock pid (st_db (mkSt (set_sales _ db) 1)))
      with (getProductStock pid db) in Hst'.
    destruct (getProductStock pid db) as [st|] eqn:Hst; [|discriminate].
    injection Hst' as <-. specialize (Hstock pid st Hst). lia.
Qed.

Lemma create_keeps_items now gen data db db' r :
  create now gen data db = (db', Ok r) ->
  Forall (fun it => 0 <= it_quantity it) (in_items data) ->
  items_nonneg db -> items_nonneg db'.
Proof.
  intros H Hlines Hitems.
  apply create_ok in H as (_ & _ & _ & _ & _ & s' & Hloop & ->).
  destruct (createItems_frame _ _ _ _ _ _ _ Hloop) as (_ & _ & _ & _ & Hi).
  unfold items_nonneg. rewrite Hi. apply Forall_app. split; [done|].
  by apply (item_rows_quantities _ _ _ _ (fun q => 0 <= q)).
Qed.

Lemma cancel_keeps_stock now gen id userId db db' :
  cancel now gen id userId db = (db', Ok tt) ->
  items_nonneg db -> stock_nonneg db -> stock_nonneg db' /\ items_nonneg db'.
Proof.
  intros H Hitems Hstock.
  apply cancel_ok in H as (theSale & s' & _ & Hloop & ->). split.
  - intros pid st' Hst'.
    change (getProductStock pid (set_sales _ (st_db s')))
      with (getProductStock pid (st_db s')) in Hst'.
    rewrite (cancelItems_stock _ _ _ _ _ _ _ _ pid Hloop) in Hst'. simpl in Hst'.
    destruct (getProductStock pid db) as [st|] eqn:Hst; [|discriminate].
    injection Hst' as <-. specialize (Hstock pid st Hst).
    assert (0 <= sold pid (getSaleItems id db)); [|lia].
    apply sold_nonneg. unfold getSaleItems. apply Forall_forall.
    intros r [_ Hr]%list_elem_of_filter. revert r Hr. by apply Forall_forall.
  - destruct (cancelItems_frame _ _ _ _ _ _ _ _ Hloop) as (_ & _ & Hi & _).
    unfold items_nonneg. simpl. by rewrite Hi.
Qed.

Lemma adjustStock_keeps_stock now gen productId quantity reason userId db db' :
  adjustStock now gen productId quantity reason userId db = (db', Ok tt) ->
  stock_nonneg db -> items_nonneg db -> stock_nonneg db' /\ items_nonneg db'.
Proof.
  intros H Hstock Hitems.
  apply withTransaction_ok in H as (s & H & ->).
  apply bind_ok in H as (s1 & found & Hq & H). injection Hq as <- <-.
  unfold getOne in H. simpl in H.
  destruct (products db !! productId) as [p|] eqn:Hp; [|discriminate].
  destruct (Z.ltb_spec (p_stock p + quantity) 0) as [|Hpos]; [discriminate|].
  apply bind_ok in H as (s2 & [] & Hw & H). injection Hw as <-.
  apply bind_ok in H as (s3 & mid & Hg & H). injection Hg as <- <-.
  rewrite insertMovement_run in H. simpl in H.
  destruct (decide _); [discriminate|]. destruct (decide _); [|discriminate].
  injection H as <-. simpl. split; [|done].
  intros pid st'. unfold getProductStock. simpl.
  destruct (decide (pid = productId)) as [->|Hne].
  - rewrite lookup_alter_eq, Hp. simpl. intros [= <-]. done.
  - rewrite lookup_alter_ne by done. apply Hstock.
Qed.

Lemma perform_keeps_stock op db db' :
  lines_nonneg op -> perform op db = Some db' ->
  stock_nonneg db /\ items_nonneg db -> stock_nonneg db' /\ items_nonneg db'.
Proof.
  intros Hlines H [Hstock Hitems]. destruct op as [now gen data|now gen id u|now gen pid q reason u];
    simpl in H, Hlines.
  - destruct (create now gen data db) as [db1 [r|e]] eqn:Hrun; [|discriminate].
    injection H as ->. split.
    + by apply (create_keeps_stock _ _ _ _ _ _ Hrun).
    + by apply (create_keeps_items _ _ _ _ _ _ Hrun).
  - destruct (cancel now gen id u db) as [db1 [[]|e]] eqn:Hrun; [|discriminate].
    injection H as ->. by apply (cancel_keeps_stock _ _ _ _ _ _ Hrun).
  - destruct (adjustStock now gen pid q reason u db) as [db1 [[]|e]] eqn:Hrun; [|discriminate].
    injection H as ->. by apply (adjustStock_keeps_stock _ _ _ _ _ _ _ _ Hrun).
Qed.

Lemma stock_nonneg_preserved ops db db' :
  Forall lines_nonneg ops -> perform_all ops db = Some db' ->
  stock_nonneg db -> items_nonneg db -> stock_nonneg db'.
Proof.
  intros Hall. revert db. induction Hall as [|op ops Hop _ IH]; intros db H Hstock Hitems.
  - by injection H as <-.
  - simpl in H. destruct (perform op db) as [db1|] eqn:Hperf; [|discriminate].
    destruct (perform_keeps_stock _ _ _ Hop Hperf (conj Hstock Hitems)) as [Hs1 Hi1].
    by apply (IH db1).
Qed.

(** ** The foreign key from items to sales *)

(** The empty store respects it, and every call that succeeds keeps it: it
    holds of every store these operations can reach. *)
Lemma create_keeps_references now gen data db db' r :
  create now gen data db = (db', Ok r) ->
  items_reference_sales db -> items_reference_sales db'.
Proof.
  intros H Hfk.
  apply create_ok in H as (_ & _ & _ & _ & _ & s' & Hloop & ->).
  destruct (createItems_frame _ _ _ _ _ _ _ Hloop) as (_ & _ & Hs & _ & Hi).
  unfold items_reference_sales. rewrite Hi, Hs. simpl. rewrite fmap_app.
  apply Forall_app. split.
  - eapply Forall_impl; [exact Hfk|]. simpl. intros i Hin. apply elem_of_app. by left.
  - eapply Forall_impl; [apply item_rows_sale|]. simpl. intros i ->.
    apply elem_of_app. right. apply list_elem_of_here.
Qed.

Lemma cancel_keeps_references now gen id userId db db' :
  cancel now gen id userId db = (db', Ok tt) ->
  items_reference_sales db -> items_reference_sales db'.
Proof.
  intros H Hfk.
  apply cancel_ok in H as (theSale & s' & _ & Hloop & ->).
  destruct (cancelItems_frame _ _ _ _ _ _ _ _ Hloop) as (_ & Hs & Hi & _).
  unfold items_reference_sales. simpl. rewrite Hi, Hs. simpl.
  rewrite <- list_fmap_compose.
  rewrite (list_fmap_ext _ s_id); [done|].
  intros _ s _. simpl. by case_decide.
Qed.

Lemma adjustStock_keeps_references now gen productId quantity reason userId db db' :
  adjustStock now gen productId quantity reason userId db = (db', Ok tt) ->
  items_reference_sales db -> items_reference_sales db'.
Proof.
  intros H Hfk.
  apply withTransaction_ok in H as (s & H & ->).
  apply bind_ok in H as (s1 & found & Hq & H). injection Hq as <- <-.
  unfold getOne in H. simpl in H.
  destruct (products db !! productId) as [p|]; [|discriminate].
  destruct (p_stock p + quantity <? 0); [discriminate|].
  apply bind_ok in H as (s2 & [] & Hw & H). injection Hw as <-.
  apply bind_ok in H as (s3 & mid & Hg & H). injection Hg as <- <-.
  rewrite insertMovement_run in H. simpl in H.
  destruct (decide _); [discriminate|]. destruct (decide _); [|discriminate].
  by injection H as <-.
Qed.

Lemma perform_all_keeps_references ops db db' :
  perform_all ops db = Some db' ->
  items_reference_sales db -> items_reference_sales db'.
Proof.
  revert db. induction ops as [|op ops IH]; intros db H Hfk.
  - by injection H as <-.
  - simpl in H. destruct (perform op db) as [db1|] eqn:Hperf; [|discriminate].
    apply (IH db1 H).
    destruct op as [now gen data|now gen id u|now gen pid q reason u]; simpl in Hperf.
    + destruct (create now gen data db) as [db2 [r|e]] eqn:Hrun; [|discriminate].
      injection Hperf as ->. by apply (create_keeps_references _ _ _ _ _ _ Hrun).
    + destruct (cancel now gen id u db) as [db2 [[]|e]] eqn:Hrun; [|discriminate].
      injection Hperf as ->. by apply (cancel_keeps_references _ _ _ _ _ _ Hrun).
    + destruct (adjustStock now gen pid q reason u db) as [db2 [[]|e]] eqn:Hrun; [|discriminate].
      injection Hperf as ->. by apply (adjustStock_keeps_references _ _ _ _ _ _ _ _ Hrun).
Qed.

(** ** The example of the specification *)

(** With 10 units: a sale of 3 leaves 7 and records (sale, 3, 10, 7); a sale
    of 8 is then refused, with the message that 7 are available and 8 asked
    for, and 7 remain; cancelling the first sale leaves 10 and records
    (adjustment, 3, 7, 10). *)
Example sale_refusal_cancellation :
  let db1 := fst Demo.day1a in
  let second := create 200 (Demo.ids "b") (Demo.request [Demo.line "p1" 8]) db1 in
  let db3 := fst Demo.undone in
  Demo.stock_of "p1" db1 = Some 7 /\
  (fun m => (sm_movement_type m, sm_quantity m, sm_previous_stock m, sm_new_stock m))
    <$> stock_movements db1 = [(sale, 3, 10, 7)] /\
  fst second = db1 /\
  (match snd second with Err e => message e | Ok _ => "" end) =
    "Stock insuficiente para " +:+ quoted "Cuaderno (oferta)" +:+
    ". Disponible: 7, Solicitado: 8" /\
  Demo.stock_of "p1" db3 = Some 10 /\
  (fun m => (sm_movement_type m, sm_quantity m, sm_previous_stock m, sm_new_stock m))
    <$> stock_movements db3 = [(sale, 3, 10, 7); (adjustment, 3, 7, 10)].
Proof.
  vm_compute. auto 10.
Qed.

(** ** Reading a sale back *)

Lemma getSale_fmap_flag id id' (l : list Sale) :
  head (filter (fun s => s_id s = id')
          ((fun s => if decide (s_id s = id) then deactivate s else s) <$> l)) =
  (fun s => if decide (id' = id) then deactivate s else s) <$>
    head (filter (fun s => s_id s = id') l).
Proof.
  induction l as [|s l IH]; [done|]. rewrite fmap_cons, !filter_cons.
  assert (Hid : s_id (if decide (s_id s = id) then deactivate s else s) = s_id s)
    by (destruct (decide (s_id s = id)); reflexivity).
  rewrite Hid. destruct (decide (s_id s = id')) as [Hs|Hs]; [|exact IH].
  simpl. f_equal. by subst id'.
Qed.



(** X2.  After a cancellation [getById] still finds the sale, with the
    items it had; the header differs in [is_active] alone.  No other sale
    reads differently. *)
Theorem getById_cancelled now gen id userId db db' :
  cancel now gen id userId db = (db', Ok tt) ->
  (exists theSale rows, getById id db = Some (theSale, rows) /\
     getById id db' = Some (deactivate theSale, rows)) /\
  (forall id', id' <> id -> getById id' db' = getById id' db).
Proof.
  intros H. apply cancel_ok in H as (theSale & s' & Hact & Hloop & ->).
  destruct (cancelItems_frame _ _ _ _ _ _ _ _ Hloop) as (_ & Hs & Hi & _).
  simpl in Hs, Hi.
  assert (Hget : forall id', getById id' (set_sales
             (fmap (fun s => if decide (s_id s = id) then deactivate s else s)) (st_db s')) =
           (fun x => (if decide (id' = id) then deactivate x.1 else x.1, x.2)) <$> getById id' db).
  { intros id'. unfold getById, getSale, getSaleItems. simpl. rewrite Hs, Hi.
    rewrite getSale_fmap_flag. by destruct (head _). }
  split.
  - unfold getActiveSale in Hact.
    destruct (getById id db) as [[s0 rows]|] eqn:Hb.
    + exists s0, rows. split; [done|].
      rewrite Hget, Hb. simpl. by rewrite decide_True.
    + exfalso. unfold getById, getSale in Hb.
      destruct (head (filter (fun s => s_id s = id) (sales db))) eqn:Hh; [done|].
      apply head_None in Hh.
      assert (Hsub : filter (fun s => s_id s = id /\ s_is_active s = true) (sales db) = []).
      { apply filter_drop_all. apply Forall_forall. intros s Hin [Hid _].
        assert (s ∈ filter (fun s => s_id s = id) (sales db))
          by (apply list_elem_of_filter; done).
        rewrite Hh in H. by apply elem_of_nil in H. }
      by rewrite Hsub in Hact.
  - intros id' Hne. rewrite Hget.
    destruct (getById id' db) as [[]|]; simpl; [|done]. by rewrite decide_False.
Qed.

Lemma getById_cancelled_witness :
  exists theSale rows,
    getById "a0" (fst Demo.day1a) = Some (theSale, rows) /\
    getById "a0" (fst Demo.undone) = Some (deactivate theSale, rows).
Proof.
  destruct (getById_cancelled 300 (Demo.ids "c") "a0" "admin-001" (fst Demo.day1a)
              (fst Demo.undone)) as [H _].
  - vm_compute. reflexivity.
  - exact H.
Defined.

(** ** Cancelling twice *)

(** X3.  A sale is cancelled at most once: after a cancellation that
    succeeded, cancelling the same id again, at any time and by anyone, is
    refused and changes nothing, so the stock is not given back twice. *)
Theorem cancel_once now gen id userId db db' now' gen' userId' :
  cancel now gen id userId db = (db', Ok tt) ->
  cancel now' gen' id userId' db' = (db', Err SaleNotFoundOrCancelled).
Proof.
  intros H. apply cancel_ok in H as (theSale & s' & _ & _ & ->).
  unfold cancel, withTransaction, cancelTx, bind, query. simpl.
  rewrite getActiveSale_None; [done|]. simpl.
  intros s Hin Hid. exact (markCancelled_inactive id _ s Hin Hid).
Qed.

Lemma cancel_once_witness :
  cancel 400 (Demo.ids "d") "a0" "admin-001" (fst Demo.undone) =
  (fst Demo.undone, Err SaleNotFoundOrCancelled).
Proof.
  apply (cancel_once 300 (Demo.ids "c") "a0" "admin-001" (fst Demo.day1a)).
  vm_compute. reflexivity.
Defined.

Lemma deactivate_again id (l : list Sale) :
  (fun s => if decide (s_id s = id) then deactivate s else s) <$>
    ((fun s => if decide (s_id s = id) then deactivate s else s) <$> l) =
  (fun s => if decide (s_id s = id) then deactivate s else s) <$> l.
Proof.
  rewrite <- list_fmap_compose. apply list_fmap_ext. intros _ s _. simpl.
  destruct (decide (s_id s = id)) as [Hs|Hs]; simpl.
  - by rewrite decide_True.
  - by rewrite decide_False.
Qed.

Lemma flag_keeps_ids id (l : list Sale) :
  s_id <$> ((fun s => if decide (s_id s = id) then deactivate s else s) <$> l) = s_id <$> l.
Proof.
  rewrite <- list_fmap_compose. apply list_fmap_ext. intros _ s _. simpl.
  by destruct (decide (s_id s = id)).
Qed.

(** X4.  [cancelSale] of SaleModel is the header part of the service's
    [cancel]: on a sale the service cancels, it reports a changed row and
    leaves the same [sales] table.  It touches neither stock nor ledger,
    and running it twice is running it once. *)
Theorem cancelSale_and_cancel :
  (forall now gen id userId db db',
     cancel now gen id userId db = (db', Ok tt) ->
     sales db' = sales (fst (cancelSale id db)) /\ snd (cancelSale id db) = true) /\
  (forall id db,
     cancelSale id (fst (cancelSale id db)) = cancelSale id db /\
     products (fst (cancelSale id db)) = products db /\
     stock_movements (fst (cancelSale id db)) = stock_movements db).
Proof.
  split.
  - intros now gen id userId db db' H.
    apply cancel_ok in H as (theSale & s' & Hact & Hloop & ->).
    destruct (cancelItems_frame _ _ _ _ _ _ _ _ Hloop) as (_ & Hs & _).
    simpl in Hs. simpl. rewrite Hs. split; [done|].
    apply bool_decide_eq_true. unfold getActiveSale in Hact.
    destruct (filter _ (sales db)) as [|s0 l0] eqn:Hf; [done|]. injection Hact as ->.
    assert (Hin : theSale ∈ filter (fun s => s_id s = id /\ s_is_active s = true) (sales db))
      by (rewrite Hf; apply list_elem_of_here).
    apply list_elem_of_filter in Hin as [[<- _] Hin].
    apply list_elem_of_fmap. by exists theSale.
  - intros id db. split; [|done]. unfold cancelSale. simpl. f_equal.
    + unfold set_sales. simpl. by rewrite deactivate_again.
    + by rewrite flag_keeps_ids.
Qed.

Lemma cancelSale_and_cancel_witness :
  sales (fst Demo.undone) = sales (fst (cancelSale "a0" (fst Demo.day1a))) /\
  snd (cancelSale "a0" (fst Demo.day1a)) = true.
Proof.
  apply (proj1 cancelSale_and_cancel 300 (Demo.ids "c") "a0" "admin-001").
  vm_compute. reflexivity.
Defined.

(** ** What every operation keeps *)

(** What a successful [adjustStock] has done. *)
Lemma adjustStock_ok now gen productId quantity reason userId db db' :
  adjustStock now gen productId quantity reason userId db = (db', Ok tt) ->
  exists p, products db !! productId = Some p /\
    0 <= p_stock p + quantity /\
    (gen 0%nat ∉ (sm_id <$> stock_movements db)) /\
    db' = mkDatabase (users db)
            (alter (with_stock now (fun _ => p_stock p + quantity)) productId (products db))
            (sales db) (sale_items db)
            (stock_movements db ++
               [mkStockMovement (gen 0%nat) productId adjustment quantity (p_stock p)
                  (p_stock p + quantity) None (Some reason) (Some userId) now]).
Proof.
  intros H.
  apply withTransaction_ok in H as (s & H & ->).
  apply bind_ok in H as (s1 & found & Hq & H). injection Hq as <- <-.
  unfold getOne in H. simpl in H.
  destruct (products db !! productId) as [p|] eqn:Hp; [|discriminate].
  destruct (Z.ltb_spec (p_stock p + quantity) 0) as [|Hpos]; [discriminate|].
  apply bind_ok in H as (s2 & [] & Hw & H). injection Hw as <-.
  apply bind_ok in H as (s3 & mid & Hg & H). injection Hg as <- <-.
  rewrite insertMovement_run in H. simpl in H.
  destruct (decide _) as [|Hfresh]; [discriminate|]. destruct (decide _); [|discriminate].
  injection H as <-. exists p. done.
Qed.

Section Passes.

Variables (now : Z) (gen : nat -> string).

(** The ids a pass of the loop of [create] has drawn were unused. *)
Lemma createItem_fresh saleId cashier item s s1 :
  createItem now gen saleId cashier item s = (s1, Ok tt) ->
  (gen (st_ids s) ∉ (si_id <$> sale_items (st_db s))) /\
  (gen (S (st_ids s)) ∉ (sm_id <$> stock_movements (st_db s))).
Proof.
  unfold createItem, bind, query, generateId, getProductStock.
  destruct (products (st_db s) !! it_product_id item) as [p|] eqn:Hp; simpl; [|discriminate].
  destruct (Z.ltb_spec (p_stock p) (it_quantity item)); [discriminate|].
  rewrite insertItem_run. simpl.
  destruct (decide _) as [|Hi]; [discriminate|]. destruct (decide _); [|discriminate].
  unfold updateStock_sub, write. simpl.
  rewrite insertMovement_run. simpl.
  destruct (decide _) as [|Hm]; [discriminate|]. done.
Qed.

Lemma createItems_keys saleId cashier items s s' :
  for_each (createItem now gen saleId cashier) items s = (s', Ok tt) ->
  NoDup (si_id <$> sale_items (st_db s)) ->
  NoDup (sm_id <$> stock_movements (st_db s)) ->
  NoDup (si_id <$> sale_items (st_db s')) /\
  NoDup (sm_id <$> stock_movements (st_db s')).
Proof.
  revert s s'. induction items as [|item items IH]; intros s s' H Hi Hm.
  - by injection H as <-.
  - simpl in H. apply bind_ok in H as (s1 & [] & Hhead & Htail).
    destruct (createItem_fresh _ _ _ _ _ Hhead) as [Hfi Hfm].
    apply createItem_ok in Hhead as (p & Hp & Hle & ->).
    apply (IH _ _ Htail); simpl; rewrite fmap_app; apply NoDup_app; simpl.
    + split; [done|]. split; [|apply NoDup_singleton].
      intros x Hx ->%list_elem_of_singleton. done.
    + split; [done|]. split; [|apply NoDup_singleton].
      intros x Hx ->%list_elem_of_singleton. done.
Qed.

Lemma cancelItems_keys id userId dn items s s' :
  for_each (cancelItem now gen id userId dn) items s = (s', Ok tt) ->
  NoDup (sm_id <$> stock_movements (st_db s)) ->
  NoDup (sm_id <$> stock_movements (st_db s')).
Proof.
  revert s s'. induction items as [|item items IH]; intros s s' H Hm.
  - by injection H as <-.
  - simpl in H. apply bind_ok in H as (s1 & [] & Hhead & Htail).
    rewrite cancelItem_run in Hhead.
    destruct (products (st_db s) !! si_product_id item) as [p|]; simpl in Hhead.
    + destruct (decide _) as [|Hf]; [discriminate|]. destruct (decide _); [|discriminate].
      injection Hhead as <-. apply (IH _ _ Htail). simpl. rewrite fmap_app.
      apply NoDup_app. split; [done|]. split; [|apply NoDup_singleton].
      intros x Hx ->%list_elem_of_singleton. done.
    + injection Hhead as <-. by apply (IH _ _ Htail).
Qed.

End Passes.

Lemma perform_keeps_keys op db db' :
  perform op db = Some db' -> keys_unique db -> keys_unique db'.
Proof.
  intros H (Hs & Hi & Hm).
  destruct op as [now gen data|now gen id u|now gen pid q reason u]; simpl in H.
  - destruct (create now gen data db) as [db1 [r|e]] eqn:Hrun; [|discriminate].
    injection H as ->.
    apply create_ok in Hrun as (_ & _ & Hfresh & _ & _ & s' & Hloop & ->).
    destruct (createItems_frame _ _ _ _ _ _ _ Hloop) as (_ & _ & Hs' & _).
    destruct (createItems_keys _ _ _ _ _ _ _ Hloop Hi Hm) as [Hi' Hm'].
    split; [|done]. rewrite Hs'. simpl. rewrite fmap_app. apply NoDup_app.
    split; [done|]. split; [|apply NoDup_singleton].
    intros x Hx ->%list_elem_of_singleton. done.
  - destruct (cancel now gen id u db) as [db1 [[]|e]] eqn:Hrun; [|discriminate].
    injection H as ->.
    apply cancel_ok in Hrun as (theSale & s' & _ & Hloop & ->).
    destruct (cancelItems_frame _ _ _ _ _ _ _ _ Hloop) as (_ & Hs' & Hi' & _).
    pose proof (cancelItems_keys _ _ _ _ _ _ _ _ Hloop Hm) as Hm'.
    split; [|split; [|done]]; simpl.
    + rewrite Hs'. simpl. rewrite <- list_fmap_compose.
      rewrite (list_fmap_ext _ s_id); [done|]. intros _ s _. simpl. by case_decide.
    + by rewrite Hi'.
  - destruct (adjustStock now gen pid q reason u db) as [db1 [[]|e]] eqn:Hrun; [|discriminate].
    injection H as ->.
    apply adjustStock_ok in Hrun as (p & _ & _ & Hfresh & ->). simpl.
    split; [done|]. split; [done|]. simpl. rewrite fmap_app.
    apply NoDup_app. split; [done|]. split; [|apply NoDup_singleton].
    intros x Hx ->%list_elem_of_singleton. done.
Qed.

Lemma perform_grows op db db' :
  perform op db = Some db' -> grows db db'.
Proof.
  intros H.
  destruct op as [now gen data|now gen id u|now gen pid q reason u]; simpl in H.
  - destruct (create now gen data db) as [db1 [r|e]] eqn:Hrun; [|discriminate].
    injection H as ->.
    apply create_ok in Hrun as (_ & _ & _ & _ & _ & s' & Hloop & ->).
    destruct (createItems_frame _ _ _ _ _ _ _ Hloop) as (_ & Hu & Hs & Hd & Hi).
    destruct (createItems_ledger _ _ _ _ _ _ _ Hloop) as (ms & Hm & _).
    simpl in Hu, Hs, Hd, Hi, Hm. unfold grows. rewrite Hm, Hi, Hs, Hd, Hu, fmap_app.
    repeat split; by apply prefix_app_r.
  - destruct (cancel now gen id u db) as [db1 [[]|e]] eqn:Hrun; [|discriminate].
    injection H as ->.
    apply cancel_ok in Hrun as (theSale & s' & _ & Hloop & ->).
    destruct (cancelItems_frame _ _ _ _ _ _ _ _ Hloop) as (Hu & Hs & Hi & Hd).
    destruct (cancelItems_ledger _ _ _ _ _ _ _ _ Hloop) as (ms & Hm & _).
    simpl in Hu, Hs, Hd, Hi, Hm. unfold grows. simpl. rewrite Hm, Hi, Hs, Hd, Hu.
    rewrite <- list_fmap_compose.
    rewrite (list_fmap_ext (s_id ∘ _) s_id); [|intros _ s _; simpl; by case_decide].
    repeat split; try done. by apply prefix_app_r.
  - destruct (adjustStock now gen pid q reason u db) as [db1 [[]|e]] eqn:Hrun; [|discriminate].
    injection H as ->.
    apply adjustStock_ok in Hrun as (p & Hp & _ & _ & ->). simpl.
    repeat split; simpl; try done.
    + by apply prefix_app_r.
    + apply set_eq. intros k. rewrite !elem_of_dom.
      destruct (decide (k = pid)) as [->|Hne].
      * rewrite lookup_alter_eq, Hp. simpl. split; by eexists.
      * by rewrite lookup_alter_ne.
Qed.

(** ** The ledger and the stock *)

Lemma last_movement_snoc pid u ps sl si ms m :
  last_movement pid (mkDatabase u ps sl si (ms ++ [m])) =
  if decide (sm_product_id m = pid) then Some m
  else last_movement pid (mkDatabase u ps sl si ms).
Proof.
  unfold last_movement. simpl. rewrite filter_app, filter_cons, filter_nil.
  destruct (decide (sm_product_id m = pid)).
  - by rewrite last_snoc.
  - by rewrite app_nil_r.
Qed.

Section Reconciled.

Variables (now : Z) (gen : nat -> string).

Lemma item_done_reconciled saleId cashier item p s :
  products (st_db s) !! it_product_id item = Some p ->
  reconciled (st_db s) ->
  reconciled (st_db (item_done now gen saleId cashier item p s)).
Proof.
  intros Hp Hrec pid m. rewrite item_done_stock. unfold item_done. simpl.
  rewrite last_movement_snoc. simpl. destruct (decide (it_product_id item = pid)) as [Hk|Hk].
  - by intros [= <-].
  - intros Hlast. apply Hrec. by destruct (st_db s).
Qed.

Lemma item_undone_reconciled id userId dn item p s :
  products (st_db s) !! si_product_id item = Some p ->
  reconciled (st_db s) ->
  reconciled (st_db (item_undone now gen id userId dn item p s)).
Proof.
  intros Hp Hrec pid m. rewrite item_undone_stock. unfold item_undone. simpl.
  rewrite last_movement_snoc. simpl. destruct (decide (si_product_id item = pid)) as [Hk|Hk].
  - by intros [= <-].
  - intros Hlast. apply Hrec. by destruct (st_db s).
Qed.

Lemma createItems_reconciled saleId cashier items s s' :
  for_each (createItem now gen saleId cashier) items s = (s', Ok tt) ->
  reconciled (st_db s) -> reconciled (st_db s').
Proof.
  revert s s'. induction items as [|item items IH]; intros s s' H Hrec.
  - by injection H as <-.
  - simpl in H. apply bind_ok in H as (s1 & [] & Hhead & Htail).
    apply createItem_ok in Hhead as (p & Hp & Hle & ->).
    apply (IH _ _ Htail). by apply item_done_reconciled.
Qed.

Lemma cancelItems_reconciled id userId dn items s s' :
  for_each (cancelItem now gen id userId dn) items s = (s', Ok tt) ->
  reconciled (st_db s) -> reconciled (st_db s').
Proof.
  revert s s'. induction items as [|item items IH]; intros s s' H Hrec.
  - by injection H as <-.
  - simpl in H. apply bind_ok in H as (s1 & [] & Hhead & Htail).
    apply cancelItem_ok in Hhead.
    destruct (products (st_db s) !! si_product_id item) as [p|] eqn:Hp; subst s1.
    + apply (IH _ _ Htail). by apply item_undone_reconciled.
    + by apply (IH _ _ Htail).
Qed.

End Reconciled.

Lemma perform_keeps_reconciled op db db' :
  perform op db = Some db' -> reconciled db -> reconciled db'.
Proof.
  intros H Hrec.
  destruct op as [now gen data|now gen id u|now gen pid q reason u]; simpl in H.
  - destruct (create now gen data db) as [db1 [r|e]] eqn:Hrun; [|discriminate].
    injection H as ->.
    apply create_ok in Hrun as (_ & _ & _ & _ & _ & s' & Hloop & ->).
    by apply (createItems_reconciled _ _ _ _ _ _ _ Hloop).
  - destruct (cancel now gen id u db) as [db1 [[]|e]] eqn:Hrun; [|discriminate].
    injection H as ->.
    apply cancel_ok in Hrun as (theSale & s' & _ & Hloop & ->).
    pose proof (cancelItems_reconciled _ _ _ _ _ _ _ _ Hloop Hrec) as Hrec'.
    intros pid m Hlast. by apply Hrec'.
  - destruct (adjustStock now gen pid q reason u db) as [db1 [[]|e]] eqn:Hrun; [|discriminate].
    injection H as ->.
    apply adjustStock_ok in Hrun as (p & Hp & _ & _ & ->).
    intros k m. rewrite last_movement_snoc. unfold getProductStock. simpl.
    destruct (decide (pid = k)) as [<-|Hk].
    + intros [= <-]. by rewrite lookup_alter_eq, Hp.
    + rewrite lookup_alter_ne by done. intros Hlast. apply Hrec. by destruct db.
Qed.

(** ** Every store the operations reach *)

Lemma grows_refl db : grows db db.
Proof. by repeat split. Qed.

Lemma grows_trans a b c : grows a b -> grows b c -> grows a c.
Proof.
  intros (H1 & H2 & H3 & H4 & H5) (G1 & G2 & G3 & G4 & G5).
  repeat split; etrans; eassumption.
Qed.

(** X5.  The primary keys of [sales], [sale_items] and [stock_movements] and
    the foreign key from items to sales hold of every store that sales,
    cancellations and stock adjustments lead to. *)
Theorem engine_keeps_constraints ops db db' :
  perform_all ops db = Some db' ->
  keys_unique db -> items_reference_sales db ->
  keys_unique db' /\ items_reference_sales db'.
Proof.
  intros H Hk Hfk. split; [|by apply (perform_all_keeps_references ops db)].
  revert db H Hk Hfk. induction ops as [|op ops IH]; intros db H Hk Hfk.
  - by injection H as <-.
  - simpl in H. destruct (perform op db) as [db1|] eqn:Hperf; [|discriminate].
    apply (IH db1 H).
    + by apply (perform_keeps_keys op db).
    + by apply (perform_all_keeps_references [op] db); [simpl; rewrite Hperf|].
Qed.

Lemma engine_keeps_constraints_witness :
  keys_unique Sample.after_busy /\ items_reference_sales Sample.after_busy.
Proof.
  apply (engine_keeps_constraints Sample.busy Demo.db0).
  - vm_compute. reflexivity.
  - repeat split; constructor.
  - constructor.
Defined.

(** X6.  Sales, cancellations and stock adjustments remove nothing: the
    ledger and the items only grow at the end, every sale keeps its id and
    its place, and the products and the users are the same. *)
Theorem engine_appends_only ops db db' :
  perform_all ops db = Some db' -> grows db db'.
Proof.
  revert db. induction ops as [|op ops IH]; intros db H.
  - injection H as <-. apply grows_refl.
  - simpl in H. destruct (perform op db) as [db1|] eqn:Hperf; [|discriminate].
    apply (grows_trans db db1); [by apply (perform_grows op)|by apply IH].
Qed.

Lemma engine_appends_only_witness : grows Demo.db0 Sample.after_busy.
Proof.
  apply (engine_appends_only Sample.busy). vm_compute. reflexivity.
Defined.

(** X7.  The ledger follows the stock: when the last ledger row of each
    product carries the stock the product has, the same is true after any
    sequence of sales, cancellations and stock adjustments. *)
Theorem engine_keeps_reconciled ops db db' :
  perform_all ops db = Some db' -> reconciled db -> reconciled db'.
Proof.
  revert db. induction ops as [|op ops IH]; intros db H Hrec.
  - by injection H as <-.
  - simpl in H. destruct (perform op db) as [db1|] eqn:Hperf; [|discriminate].
    apply (IH db1 H). by apply (perform_keeps_reconciled op db).
Qed.

Lemma engine_keeps_reconciled_witness :
  last_movement "p1" Sample.after_busy <> None /\ reconciled Sample.after_busy.
Proof.
  split; [vm_compute; discriminate|].
  apply (engine_keeps_reconciled Sample.busy Demo.db0).
  - vm_compute. reflexivity.
  - intros pid m. vm_compute. discriminate.
Defined.

(** X8.  When no line of a request and no stored item has a negative
    quantity, no sequence of sales, cancellations and stock adjustments
    makes a stock negative or stores an item of negative quantity. *)
Theorem engine_keeps_stock ops db db' :
  Forall lines_nonneg ops -> perform_all ops db = Some db' ->
  stock_nonneg db /\ items_nonneg db -> stock_nonneg db' /\ items_nonneg db'.
Proof.
  intros Hall. revert db. induction Hall as [|op ops Hop _ IH]; intros db H Hinv.
  - by injection H as <-.
  - simpl in H. destruct (perform op db) as [db1|] eqn:Hperf; [|discriminate].
    apply (IH db1 H). by apply (perform_keeps_stock op db).
Qed.

Lemma engine_keeps_stock_witness :
  stock_nonneg Sample.after_busy /\ items_nonneg Sample.after_busy.
Proof.
  apply (engine_keeps_stock Sample.busy Demo.db0).
  - repeat constructor; vm_compute; discriminate.
  - vm_compute. reflexivity.
  - split; [|constructor].
    intros pid st. unfold getProductStock, Demo.db0. simpl.
    destruct (decide (pid = "p1")) as [->|Hne].
    + rewrite lookup_singleton_eq. intros [= <-]. done.
    + rewrite lookup_singleton_ne by done. discriminate.
Defined.

(** ** Metrics *)

Lemma active_or_cancelled (rows : list Sale) :
  (length (filter (fun s => s_is_active s = true) rows) +
   length (filter (fun s => s_is_active s = false) rows))%nat = length rows.
Proof.
  induction rows as [|s rows IH]; [done|]. rewrite !filter_cons.
  destruct (s_is_active s); simpl; lia.
Qed.

(** X9.  The counts of [getMetrics] agree with the sales of the period:
    tickets and cancelled sales count every sale of the period once, and
    there is no ticket exactly when every sale of the period is
    cancelled.  With no ticket the average is 0, however [AVG] rounds, and
    the total is 0 if the [SUM] of zeros is 0, as it is in SQLite. *)
Theorem metrics_consistent SUM AVG from to db :
  let m := getMetrics SUM AVG from to db in
  totalTickets m + cancelledSales m =
    Z.of_nat (length (filter (in_period from to) (sales db))) /\
  0 <= totalTickets m /\ 0 <= cancelledSales m /\
  (totalTickets m = 0 <->
   Forall (fun s => s_is_active s = false) (filter (in_period from to) (sales db))) /\
  (totalTickets m = 0 -> averageTicket m = 0%Q) /\
  ((forall l, Forall (fun v => v = 0%Q) l -> SUM l = 0%Q) ->
   totalTickets m = 0 -> totalSales m = 0%Q).
Proof.
  unfold getMetrics. simpl. set (rows := filter (in_period from to) (sales db)).
  assert (Hnone : Z.of_nat (length (filter (fun s => s_is_active s = true) rows)) = 0 ->
                  Forall (fun s => s_is_active s = false) rows).
  { intros H0. apply Forall_forall. intros s Hs.
    destruct (s_is_active s) eqn:Ha; [|done]. exfalso.
    assert (Hin : s ∈ filter (fun s => s_is_active s = true) rows)
      by (by apply list_elem_of_filter).
    destruct (filter _ rows) as [|s0 l]; [by apply elem_of_nil in Hin|simpl in H0; lia]. }
  split; [|split; [|split; [|split; [|split]]]].
  - rewrite <- (active_or_cancelled rows). lia.
  - lia.
  - lia.
  - split; [exact Hnone|].
    intros Hall. rewrite filter_drop_all; [done|].
    eapply Forall_impl; [exact Hall|]. simpl. congruence.
  - intros H0. destruct (filter _ rows) as [|s l]; [done|simpl in H0; lia].
  - intros Hsum H0. destruct rows as [|r rows'] eqn:Hrows; [done|].
    apply Hsum. apply Forall_fmap. eapply Forall_impl; [exact (Hnone H0)|].
    simpl. by intros s ->.
Qed.

Lemma sumQ_zeros l : Forall (fun v => v = 0%Q) l -> sumQ l = 0%Q.
Proof.
  induction 1 as [|v l -> _ IH]; [done|]. simpl. by rewrite IH.
Qed.

Lemma metrics_consistent_witness :
  totalTickets (getMetrics sumQ meanQ None None Sample.after_busy) = 1 /\
  cancelledSales (getMetrics sumQ meanQ None None Sample.after_busy) = 1 /\
  averageTicket (getMetrics sumQ meanQ (Some 5) None Sample.after_busy) = 0%Q /\
  totalSales (getMetrics sumQ meanQ (Some 5) None Sample.after_busy) = 0%Q.
Proof.
  split; [reflexivity|]. split; [reflexivity|].
  destruct (metrics_consistent sumQ meanQ (Some 5) None Sample.after_busy)
    as (_ & _ & _ & _ & Havg & Hsum).
  split; [by apply Havg|]. apply Hsum; [exact sumQ_zeros|reflexivity].
Defined.

(** X10.  A sale that was created counts in the periods that contain its
    day: there it is one ticket more and no cancelled sale more, and the
    values totalled are those of before followed by the total of the
    request.  The metrics of any other period are unchanged. *)
Theorem metrics_after_create SUM AVG now gen data db db' theSale dn from to :
  create now gen data db = (db', Ok (Some theSale, dn)) ->
  let m := getMetrics SUM AVG from to db in
  let m' := getMetrics SUM AVG from to db' in
  (in_period from to theSale ->
     totalTickets m' = totalTickets m + 1 /\
     cancelledSales m' = cancelledSales m /\
     totalSales m' =
       SUM (((fun s => if s_is_active s then s_total s else 0%Q) <$>
               filter (in_period from to) (sales db)) ++ [in_total data])) /\
  (~ in_period from to theSale -> m' = m).
Proof.
  intros H. apply create_ok in H as (_ & _ & _ & _ & Hr & s' & Hloop & ->).
  injection Hr as -> ->.
  destruct (createItems_frame _ _ _ _ _ _ _ Hloop) as (_ & _ & Hs & _).
  simpl in Hs. set (row := header now (gen 0%nat) data _) in *.
  unfold getMetrics. rewrite Hs, filter_app, filter_cons, filter_nil. split.
  - intros Hin. rewrite decide_True by done. simpl.
    rewrite !filter_app, !filter_cons, !filter_nil. simpl.
    rewrite !length_app. simpl. rewrite ?app_nil_r.
    split; [lia|]. split; [lia|]. rewrite fmap_app. simpl.
    by destruct (filter (in_period from to) (sales db)).
  - intros Hout. rewrite decide_False by done. by rewrite app_nil_r.
Qed.

Lemma metrics_after_create_witness :
  totalTickets (getMetrics sumQ meanQ (Some 0) (Some 0) (fst Demo.day1a)) =
    totalTickets (getMetrics sumQ meanQ (Some 0) (Some 0) Demo.db0) + 1 /\
  getMetrics sumQ meanQ (Some 1) None (fst Demo.day1a) =
    getMetrics sumQ meanQ (Some 1) None Demo.db0.
Proof.
  split.
  - apply (metrics_after_create sumQ meanQ 100 (Demo.ids "a")
             (Demo.request [Demo.line "p1" 3]) Demo.db0
             (fst Demo.day1a) (header 100 "a0" (Demo.request [Demo.line "p1" 3]) 1) 1
             (Some 0) (Some 0)).
    + vm_compute. reflexivity.
    + vm_compute. split; discriminate.
  - apply (metrics_after_create sumQ meanQ 100 (Demo.ids "a")
             (Demo.request [Demo.line "p1" 3]) Demo.db0
             (fst Demo.day1a) (header 100 "a0" (Demo.request [Demo.line "p1" 3]) 1) 1
             (Some 1) None).
    + vm_compute. reflexivity.
    + vm_compute. intros [H _]. by apply H.
Defined.

Lemma head_filter_Some {T} (P : T -> Prop) `{forall x, Decision (P x)} (l : list T) x :
  head (filter P l) = Some x -> x ∈ l /\ P x.
Proof.
  intros Hh. assert (Hin : x ∈ filter P l).
  { destruct (filter P l); [done|]. injection Hh as ->. apply list_elem_of_here. }
  apply list_elem_of_filter in Hin. tauto.
Qed.

Lemma flag_one id (l : list Sale) s :
  NoDup (s_id <$> l) -> s ∈ l -> s_id s = id ->
  exists l1 l2, l = l1 ++ s :: l2 /\
    (fun x => if decide (s_id x = id) then deactivate x else x) <$> l =
    l1 ++ deactivate s :: l2.
Proof.
  intros Hnd Hin Hid. apply list_elem_of_split in Hin as (l1 & l2 & ->).
  exists l1, l2. split; [done|].
  rewrite fmap_app, fmap_cons in Hnd. apply NoDup_app in Hnd as (_ & Hdisj & Hnd2).
  apply NoDup_cons in Hnd2 as [Hnotin _].
  assert (Hkeep : forall l' : list Sale, id ∉ (s_id <$> l') ->
    (fun x => if decide (s_id x = id) then deactivate x else x) <$> l' = l').
  { intros l' Hl'. rewrite <- (list_fmap_id l') at 2. apply list_fmap_ext.
    intros _ x Hx%list_elem_of_lookup_2. simpl. rewrite decide_False; [done|].
    intros Heq. apply Hl'. apply list_elem_of_fmap. by exists x. }
  rewrite fmap_app, fmap_cons. rewrite decide_True by done.
  rewrite !Hkeep; [done| |].
  - by rewrite <- Hid.
  - intros Hl1. apply (Hdisj id Hl1). rewrite <- Hid. apply list_elem_of_here.
Qed.

(** X11.  A cancellation moves the sale from the tickets to the cancelled
    sales of the periods that contain its day, and in the values totalled
    there its total gives way to 0; the metrics of any other period are
    unchanged. *)
Theorem metrics_after_cancel SUM AVG now gen id userId db db' from to :
  NoDup (s_id <$> sales db) ->
  cancel now gen id userId db = (db', Ok tt) ->
  let m := getMetrics SUM AVG from to db in
  let m' := getMetrics SUM AVG from to db' in
  let amount := fun s => if s_is_active s then s_total s else 0%Q in
  exists theSale, getActiveSale id db = Some theSale /\
    (in_period from to theSale ->
       totalTickets m' = totalTickets m - 1 /\
       cancelledSales m' = cancelledSales m + 1 /\
       exists before after,
         filter (in_period from to) (sales db) = before ++ theSale :: after /\
         totalSales m = SUM ((amount <$> before) ++ s_total theSale :: (amount <$> after)) /\
         totalSales m' = SUM ((amount <$> before) ++ 0%Q :: (amount <$> after))) /\
    (~ in_period from to theSale -> m' = m).
Proof.
  intros Hnd H. apply cancel_ok in H as (theSale & s' & Hact & Hloop & ->).
  destruct (cancelItems_frame _ _ _ _ _ _ _ _ Hloop) as (_ & Hs & _).
  simpl in Hs. exists theSale. split; [done|].
  apply head_filter_Some in Hact as (Hin & Hid & Ha).
  destruct (flag_one id _ _ Hnd Hin Hid) as (l1 & l2 & Hsplit & Hflag).
  unfold getMetrics. simpl. rewrite Hs, Hflag, Hsplit.
  rewrite !filter_app, !(filter_cons _ theSale), !(filter_cons _ (deactivate theSale)).
  assert (Hper : in_period from to (deactivate theSale) <-> in_period from to theSale) by done.
  split.
  - intros Hp. rewrite !decide_True by tauto.
    split; [|split].
    + rewrite ?filter_app, !(filter_cons _ theSale), !(filter_cons _ (deactivate theSale)).
      rewrite Ha. simpl. rewrite ?length_app. simpl. rewrite ?length_app. lia.
    + rewrite ?filter_app, !(filter_cons _ theSale), !(filter_cons _ (deactivate theSale)).
      rewrite Ha. simpl. rewrite ?length_app. simpl. rewrite ?length_app. lia.
    + exists (filter (in_period from to) l1), (filter (in_period from to) l2).
      split; [done|]. rewrite !fmap_app, !fmap_cons, Ha. simpl.
      split; by destruct (filter (in_period from to) l1).
  - intros Hp. by rewrite !decide_False by tauto.
Qed.

Lemma metrics_after_cancel_witness :
  exists theSale, getActiveSale "a0" (fst Demo.day1a) = Some theSale /\
    totalTickets (getMetrics sumQ meanQ None None (fst Demo.undone)) =
      totalTickets (getMetrics sumQ meanQ None None (fst Demo.day1a)) - 1 /\
    cancelledSales (getMetrics sumQ meanQ None None (fst Demo.undone)) =
      cancelledSales (getMetrics sumQ meanQ None None (fst Demo.day1a)) + 1.
Proof.
  destruct (metrics_after_cancel sumQ meanQ 300 (Demo.ids "c") "a0" "admin-001"
              (fst Demo.day1a) (fst Demo.undone) None None) as (theSale & Hact & Hin & _).
  - vm_compute. repeat constructor. intros H. by apply elem_of_nil in H.
  - vm_compute. reflexivity.
  - exists theSale. split; [exact Hact|]. destruct Hin as (Ht & Hc & _); done.
Defined.

(** ** Listings *)

#[local] Instance newest_first_total : Total newest_first.
Proof. intros a b. unfold newest_first. lia. Qed.

#[local] Instance newest_first_trans : Transitive newest_first.
Proof. intros a b c. unfold newest_first. lia. Qed.

Lemma getAll_nothing f db :
  (forall s, s ∈ sales db -> ~ matches f s) -> getAll f db = [].
Proof.
  intros Hno. unfold getAll. rewrite filter_drop_all; [done|].
  by apply Forall_forall.
Qed.

(** X12.  The filters of [getAll] combine by intersection: a sale is
    listed under several filters exactly when it is listed under each of
    them alone, and every sale listed is a stored sale.  A payment method
    or a cashier given as the empty string filters nothing.  A period that
    ends before it starts lists nothing, and so does a payment method that
    is none of the three the schema allows.  The listing is ordered, the
    newest first. *)
Theorem getAll_filters f db :
  let only_period := mkSaleFilters (f_from f) (f_to f) None None None in
  let only_payment := mkSaleFilters None None (f_payment_method f) None None in
  let only_cashier := mkSaleFilters None None None (f_cashier f) None in
  let only_status := mkSaleFilters None None None None (f_status f) in
  (forall s, s ∈ getAll f db <->
     s ∈ getAll only_period db /\ s ∈ getAll only_payment db /\
     s ∈ getAll only_cashier db /\ s ∈ getAll only_status db) /\
  (forall s, s ∈ getAll f db -> s ∈ sales db) /\
  getAll (mkSaleFilters (f_from f) (f_to f) (Some "") (Some "") (f_status f)) db =
    getAll (mkSaleFilters (f_from f) (f_to f) None None (f_status f)) db /\
  (forall a b, f_from f = Some a -> f_to f = Some b -> b < a -> getAll f db = []) /\
  (forall pm, f_payment_method f = Some pm ->
     pm <> "" -> pm <> "cash" -> pm <> "card" -> pm <> "transfer" -> getAll f db = []) /\
  StronglySorted newest_first (getAll f db).
Proof.
  cbv zeta. split; [|split; [|split; [|split; [|split]]]].
  - intros s. unfold getAll. rewrite !merge_sort_Permutation.
    rewrite !list_elem_of_filter. unfold matches, in_period. simpl.
    destruct (or_null (f_payment_method f)), (or_null (f_cashier f)), (f_status f) as [[]|];
      tauto.
  - intros s. unfold getAll. rewrite merge_sort_Permutation, list_elem_of_filter. tauto.
  - reflexivity.
  - intros a b Ha Hb Hlt. apply getAll_nothing. intros s _ ([H1 H2] & _).
    rewrite Ha in H1. rewrite Hb in H2. lia.
  - intros pm Hpm H0 H1 H2 H3. apply getAll_nothing. intros s _ (_ & Hp & _).
    rewrite Hpm in Hp. simpl in Hp. rewrite decide_False in Hp by done.
    destruct (s_payment_method s); simpl in Hp; congruence.
  - apply StronglySorted_merge_sort; apply _.
Qed.

Lemma getAll_filters_witness :
  getAll (mkSaleFilters None None (Some "efectivo") None None) Sample.after_busy = [] /\
  getAll (mkSaleFilters (Some 1) (Some 0) None None None) Sample.after_busy = [].
Proof.
  split.
  - destruct (getAll_filters (mkSaleFilters None None (Some "efectivo") None None)
                Sample.after_busy) as (_ & _ & _ & _ & H & _).
    by apply (H "efectivo").
  - destruct (getAll_filters (mkSaleFilters (Some 1) (Some 0) None None None)
                Sample.after_busy) as (_ & _ & _ & H & _).
    by apply (H 1 0).
Defined.

Lemma filter_by_status from to pm c (l : list Sale) :
  filter (matches (mkSaleFilters from to pm c None)) l ≡ₚ
  filter (matches (mkSaleFilters from to pm c (Some active_sales))) l ++
  filter (matches (mkSaleFilters from to pm c (Some cancelled_sales))) l.
Proof.
  induction l as [|s l IH]; [done|]. rewrite !filter_cons.
  destruct (decide (matches (mkSaleFilters from to pm c None) s)) as [Hm|Hm].
  - destruct Hm as (H1 & H2 & H3 & _). simpl in H1, H2, H3.
    destruct (s_is_active s) eqn:Ha.
    + rewrite decide_True by (unfold matches; simpl; tauto).
      rewrite decide_False by (unfold matches; simpl; rewrite Ha; intros (_ & _ & _ & ?); done).
      simpl. by rewrite IH.
    + rewrite decide_False by (unfold matches; simpl; rewrite Ha; intros (_ & _ & _ & ?); done).
      rewrite decide_True by (unfold matches; simpl; tauto).
      rewrite <- Permutation_middle. by rewrite IH.
  - rewrite !decide_False; [done| |].
    + intros (H1 & H2 & H3 & _). apply Hm. unfold matches. simpl. tauto.
    + intros (H1 & H2 & H3 & _). apply Hm. unfold matches. simpl. tauto.
Qed.

(** X13.  The listing without a status filter is the listing of the active
    sales together with the listing of the cancelled ones, and no sale is
    in both. *)
Theorem getAll_by_status from to pm c db :
  getAll (mkSaleFilters from to pm c None) db ≡ₚ
    getAll (mkSaleFilters from to pm c (Some active_sales)) db ++
    getAll (mkSaleFilters from to pm c (Some cancelled_sales)) db /\
  (forall s, s ∈ getAll (mkSaleFilters from to pm c (Some active_sales)) db ->
             s ∉ getAll (mkSaleFilters from to pm c (Some cancelled_sales)) db).
Proof.
  unfold getAll. split.
  - rewrite !merge_sort_Permutation. apply filter_by_status.
  - intros s. rewrite !merge_sort_Permutation, !list_elem_of_filter.
    intros [(_ & _ & _ & Ha) _] [(_ & _ & _ & Hc) _]. simpl in Ha, Hc. congruence.
Qed.

Lemma getAll_by_status_witness :
  header 100 "a0" (Demo.request [Demo.line "p1" 3]) 1 ∉
    getAll (mkSaleFilters None None None None (Some cancelled_sales)) (fst Demo.day1a).
Proof.
  apply (proj2 (getAll_by_status None None None None (fst Demo.day1a))).
  vm_compute. apply list_elem_of_here.
Defined.

(** X14.  [getToday] is [getAll] restricted to the day of the clock, and
    a sale is in the listing of the day as soon as it is created. *)
Theorem getToday_spec :
  (forall now db,
     getToday now db ≡ₚ
       getAll (mkSaleFilters (Some (DATE now)) (Some (DATE now)) None None None) db /\
     StronglySorted newest_first (getToday now db)) /\
  (forall now gen data db db' theSale dn,
     create now gen data db = (db', Ok (Some theSale, dn)) ->
     theSale ∈ getToday now db' /\
     length (getToday now db') = S (length (getToday now db))).
Proof.
  split.
  - intros now db. unfold getToday, getAll. split.
    + rewrite !merge_sort_Permutation.
      erewrite (list_filter_iff _ (matches _)); [done|].
      intros s. unfold matches, in_period. simpl. split; [intros ->; lia|lia].
    + apply StronglySorted_merge_sort; apply _.
  - intros now gen data db db' theSale dn H.
    apply create_ok in H as (_ & _ & _ & _ & Hr & s' & Hloop & ->).
    injection Hr as -> ->.
    destruct (createItems_frame _ _ _ _ _ _ _ Hloop) as (_ & _ & Hs & _).
    simpl in Hs. unfold getToday. rewrite !merge_sort_Permutation, Hs, filter_app.
    rewrite filter_cons, filter_nil. simpl. rewrite decide_True by done. split.
    + apply elem_of_app. right. apply list_elem_of_here.
    + rewrite length_app. simpl. lia.
Qed.

Lemma getToday_spec_witness :
  header 100 "a0" (Demo.request [Demo.line "p1" 3]) 1 ∈ getToday 100 (fst Demo.day1a) /\
  length (getToday 100 (fst Demo.day1a)) = S (length (getToday 100 Demo.db0)).
Proof.
  apply (proj2 getToday_spec 100 (Demo.ids "a") (Demo.request [Demo.line "p1" 3]) Demo.db0
           (fst Demo.day1a) _ 1).
  vm_compute. reflexivity.
Defined.

(** ** The catalogue under sales *)

Lemma with_stock_described now f p : described (with_stock now f p) = described p.
Proof. reflexivity. Qed.

Section Described.

Variables (now : Z) (gen : nat -> string).

Lemma createItems_described saleId cashier items s s' pid :
  for_each (createItem now gen saleId cashier) items s = (s', Ok tt) ->
  described <$> products (st_db s') !! pid = described <$> products (st_db s) !! pid.
Proof.
  revert s s'. induction items as [|item items IH]; intros s s' H.
  - by injection H as <-.
  - simpl in H. apply bind_ok in H as (s1 & [] & Hhead & Htail).
    apply createItem_ok in Hhead as (p & Hp & _ & ->).
    rewrite (IH _ _ Htail). unfold item_done. simpl.
    destruct (decide (it_product_id item = pid)) as [<-|Hne].
    + by rewrite lookup_insert_eq, Hp.
    + by rewrite lookup_insert_ne.
Qed.

Lemma cancelItems_described id userId dn items s s' pid :
  for_each (cancelItem now gen id userId dn) items s = (s', Ok tt) ->
  described <$> products (st_db s') !! pid = described <$> products (st_db s) !! pid.
Proof.
  revert s s'. induction items as [|item items IH]; intros s s' H.
  - by injection H as <-.
  - simpl in H. apply bind_ok in H as (s1 & [] & Hhead & Htail).
    apply cancelItem_ok in Hhead. rewrite (IH _ _ Htail).
    destruct (products (st_db s) !! si_product_id item) as [p|] eqn:Hp; subst s1; [|done].
    unfold item_undone. simpl.
    destruct (decide (si_product_id item = pid)) as [<-|Hne].
    + by rewrite lookup_insert_eq, Hp.
    + by rewrite lookup_insert_ne.
Qed.

End Described.

Lemma perform_described op db db' pid :
  perform op db = Some db' ->
  described <$> products db' !! pid = described <$> products db !! pid.
Proof.
  intros H.
  destruct op as [now gen data|now gen id u|now gen k q reason u]; simpl in H.
  - destruct (create now gen data db) as [db1 [r|e]] eqn:Hrun; [|discriminate].
    injection H as ->.
    apply create_ok in Hrun as (_ & _ & _ & _ & _ & s' & Hloop & ->).
    by rewrite (createItems_described _ _ _ _ _ _ _ pid Hloop).
  - destruct (cancel now gen id u db) as [db1 [[]|e]] eqn:Hrun; [|discriminate].
    injection H as ->.
    apply cancel_ok in Hrun as (theSale & s' & _ & Hloop & ->). simpl.
    by rewrite (cancelItems_described _ _ _ _ _ _ _ _ pid Hloop).
  - destruct (adjustStock now gen k q reason u db) as [db1 [[]|e]] eqn:Hrun; [|discriminate].
    injection H as ->.
    apply adjustStock_ok in Hrun as (p & Hp & _ & _ & ->). simpl.
    destruct (decide (k = pid)) as [<-|Hne].
    + by rewrite lookup_alter_eq, Hp.
    + by rewrite lookup_alter_ne.
Qed.

(** X15.  Sales, cancellations and stock adjustments write two columns of a
    product, the stock and the time of the last update: the name, the
    prices, the threshold, the category, the barcode, the description, the
    image and the active flag of every product are as they were, and no
    product appears or disappears. *)
Theorem engine_touches_stock_only ops db db' :
  perform_all ops db = Some db' ->
  forall pid, described <$> products db' !! pid = described <$> products db !! pid.
Proof.
  revert db. induction ops as [|op ops IH]; intros db H pid.
  - by injection H as <-.
  - simpl in H. destruct (perform op db) as [db1|] eqn:Hperf; [|discriminate].
    rewrite (IH db1 H). by apply (perform_described op).
Qed.

Lemma engine_touches_stock_only_witness :
  described <$> products Sample.after_busy !! "p1" = Some (described Demo.book) /\
  p_stock <$> products Sample.after_busy !! "p1" <> Some (p_stock Demo.book).
Proof.
  split; [|vm_compute; discriminate].
  rewrite (engine_touches_stock_only Sample.busy Demo.db0); [reflexivity|].
  vm_compute. reflexivity.
Defined.

(** ** Rounding in binary64 *)

(** [binary_round] on a mantissa and an exponent that need no rounding: it
    brings the mantissa to 53 bits and leaves the value as it is.  The
    number of bits of a mantissa is its binary logarithm plus one; a shift
    to the left multiplies by a power of 2, and a shift to the right of a
    multiple of that power loses nothing. *)

Lemma digits2_pos_size p : digits2_pos p = Pos.size p.
Proof. induction p; simpl; congruence. Qed.

Lemma digits2_log2 p : Zpos (digits2_pos p) = Z.log2 (Zpos p) + 1.
Proof. rewrite digits2_pos_size. destruct p; simpl; rewrite ?Pos2Z.inj_succ; lia. Qed.

Lemma iter_xO p d : Zpos (Pos.iter xO p d) = Zpos p * 2 ^ Zpos d.
Proof.
  induction d as [|d IH] using Pos.peano_ind.
  - simpl. lia.
  - rewrite Pos.iter_succ, Pos2Z.inj_succ, Z.pow_succ_r by lia.
    rewrite Pos2Z.inj_xO, IH. lia.
Qed.

Lemma iter_pos_iter {A} (f : A -> A) (n : positive) (x : A) :
  SpecFloat.iter_pos f n x = Pos.iter f x n.
Proof.
  revert x. induction n as [n IH|n IH|]; intros x; simpl.
  - rewrite !IH, <- !Pos.iter_swap. reflexivity.
  - rewrite !IH. reflexivity.
  - reflexivity.
Qed.

Lemma shr_exact n q :
  SpecFloat.iter_pos shr_1 n
    {| shr_m := Zpos (Pos.iter xO q n); shr_r := false; shr_s := false |} =
  {| shr_m := Zpos q; shr_r := false; shr_s := false |}.
Proof.
  rewrite iter_pos_iter. revert q. induction n as [|n IH] using Pos.peano_ind; intros q.
  - reflexivity.
  - rewrite (Pos.iter_succ_r n _ xO), Pos.iter_succ, IH. reflexivity.
Qed.

Lemma fexp_53 D : -1021 <= D -> fexp 53 1024 D = D - 53.
Proof. unfold fexp, emin. intros H. change IntDef.Z.max with Z.max. lia. Qed.

(** A mantissa of 53 bits is left as it is. *)
Lemma binary_round_aux_fixed s M E :
  Zpos (digits2_pos M) = 53 -> -1074 <= E <= 971 ->
  binary_round_aux 53 1024 s (Zpos M) E loc_Exact = S754_finite s M E.
Proof.
  intros Hd HE. unfold binary_round_aux, shr_fexp. cbn [Zdigits2 shr_record_of_loc].
  rewrite Hd, fexp_53 by lia. replace (53 + E - 53 - E) with 0 by lia.
  cbn [shr shr_m loc_of_shr_record round_nearest_even shr_record_of_loc Zdigits2].
  rewrite Hd, fexp_53 by lia. replace (53 + E - 53 - E) with 0 by lia.
  cbn [shr shr_m]. destruct (Z.leb_spec E (1024 - 53)); [reflexivity|lia].
Qed.

Lemma binary_round_exact s m e M E :
  E = Zpos (digits2_pos m) + e - 53 ->
  -1074 <= E <= 971 ->
  Zpos M * 2 ^ (E - Z.min E e) = Zpos m * 2 ^ (e - Z.min E e) ->
  binary_round 53 1024 s m e = S754_finite s M E.
Proof.
  intros HE Hr Hv. unfold binary_round. rewrite fexp_53 by lia. rewrite <- HE.
  assert (HdM : Zpos (digits2_pos M) = 53).
  { rewrite digits2_log2. rewrite digits2_log2 in HE.
    assert (Z.log2 (Zpos M * 2 ^ (E - Z.min E e)) = Z.log2 (Zpos m * 2 ^ (e - Z.min E e)))
      as Hl by (by rewrite Hv).
    rewrite !Z.log2_mul_pow2 in Hl by lia. lia. }
  unfold shl_align. destruct (E - e) as [|d|d] eqn:Hd.
  - assert (E = e) as -> by lia. rewrite Z.min_id, Z.sub_diag, Z.pow_0_r, !Z.mul_1_r in Hv.
    injection Hv as ->. by apply binary_round_aux_fixed.
  - rewrite Z.min_r, Z.sub_diag, Z.pow_0_r, Z.mul_1_r in Hv by lia.
    rewrite Hd in Hv. rewrite <- iter_xO in Hv. injection Hv as <-.
    unfold binary_round_aux, shr_fexp. cbn [Zdigits2 shr_record_of_loc].
    rewrite fexp_53 by lia. rewrite <- HE, Hd. cbn [shr]. rewrite shr_exact.
    cbn [shr_m loc_of_shr_record round_nearest_even shr_record_of_loc Zdigits2].
    rewrite HdM, fexp_53 by lia. replace (53 + (e + Zpos d) - 53 - (e + Zpos d)) with 0 by lia.
    cbn [shr shr_m]. replace (e + Zpos d) with E by lia.
    destruct (Z.leb_spec E (1024 - 53)); [reflexivity|lia].
  - rewrite Z.min_l, Z.sub_diag, Z.pow_0_r, Z.mul_1_r in Hv by lia.
    replace (e - E) with (Zpos d) in Hv by lia. rewrite <- iter_xO in Hv. injection Hv as ->.
    apply binary_round_aux_fixed; [|lia]. rewrite <- HdM. reflexivity.
Qed.

(** ** Whole numbers in binary64 *)

Section Binary64.

Import Double.

Lemma digits_safe v : Zpos v < 2 ^ 53 -> 1 <= Zpos (digits2_pos v) <= 53.
Proof.
  intros H. rewrite digits2_log2. pose proof (Z.log2_nonneg (Zpos v)).
  apply Z.log2_lt_pow2 in H; lia.
Qed.

Lemma mant_spec v : Zpos v < 2 ^ 53 -> Zpos (mant v) = Zpos v * 2 ^ (- expo v).
Proof.
  intros H. pose proof (digits_safe v H). unfold mant, expo.
  replace (- (Zpos (digits2_pos v) - 53)) with (53 - Zpos (digits2_pos v)) by lia.
  rewrite Z2Pos.id; [done|]. apply Z.mul_pos_pos; [done|]. apply Z.pow_pos_nonneg; lia.
Qed.

Lemma round_scaled s v k p :
  Zpos v < 2 ^ 53 -> 0 <= k -> Zpos p = Zpos v * 2 ^ k ->
  binary_round 53 1024 s p (- k) = S754_finite s (mant v) (expo v).
Proof.
  intros Hv Hk Hp. pose proof (digits_safe v Hv) as Hd. pose proof (mant_spec v Hv) as Hm.
  assert (Hdp : Zpos (digits2_pos p) = Zpos (digits2_pos v) + k).
  { rewrite !digits2_log2, Hp, Z.log2_mul_pow2 by lia. lia. }
  apply binary_round_exact.
  - unfold expo. lia.
  - unfold expo. lia.
  - rewrite Hm, Hp. unfold expo in *.
    destruct (Z.le_ge_cases (Zpos (digits2_pos v) - 53) (- k)).
    + rewrite Z.min_l by lia. rewrite Z.sub_diag, Z.pow_0_r, Z.mul_1_r.
      rewrite <- Z.mul_assoc, <- Z.pow_add_r by lia. do 2 f_equal. lia.
    + rewrite Z.min_r by lia. rewrite Z.sub_diag, Z.pow_0_r, Z.mul_1_r.
      rewrite <- Z.mul_assoc, <- Z.pow_add_r by lia. do 2 f_equal. lia.
Qed.

(** The number a whole number below 2^53 is. *)
Lemma of_Z_safe z :
  Z.abs z < 2 ^ 53 ->
  of_Z z = match z with
           | 0 => S754_zero false
           | Zpos v => S754_finite false (mant v) (expo v)
           | Zneg v => S754_finite true (mant v) (expo v)
           end.
Proof.
  intros H. destruct z as [|v|v]; [done| |]; unfold of_Z, binary_normalize.
  - apply (round_scaled false v 0 v); [done|done|lia].
  - apply (round_scaled true v 0 v); [done|done|lia].
Qed.

Lemma normalize_scaled z k :
  Z.abs z < 2 ^ 53 -> 0 <= k -> binary_normalize 53 1024 (z * 2 ^ k) (- k) false = of_Z z.
Proof.
  intros H Hk. rewrite (of_Z_safe z H). pose proof (Z.pow_pos_nonneg 2 k).
  destruct z as [|v|v]; [done| |].
  - destruct (Zpos v * 2 ^ k) as [|p|p] eqn:Hp; [lia| |lia].
    apply round_scaled; [done|done|lia].
  - destruct (Zneg v * 2 ^ k) as [|p|p] eqn:Hp; [lia|lia|].
    apply round_scaled; [done|done|lia].
Qed.

Lemma shl_align_fst m e e' :
  e' <= e -> Zpos (fst (shl_align m e e')) = Zpos m * 2 ^ (e - e').
Proof.
  intros H. unfold shl_align. destruct (e' - e) as [|d|d] eqn:Hd; [|lia|].
  - replace (e - e') with 0 by lia. simpl. lia.
  - simpl. rewrite iter_xO. do 2 f_equal. lia.
Qed.

(** A whole number below 2^53, as the operands of [add] and [sub] align
    it. *)
Lemma aligned s v ez :
  Zpos v < 2 ^ 53 -> ez <= expo v -> ez <= 0 ->
  cond_Zopp s (Zpos (fst (shl_align (mant v) (expo v) ez))) = signed s v * 2 ^ (- ez).
Proof.
  intros Hv He H0. rewrite shl_align_fst, mant_spec by done.
  pose proof (digits_safe v Hv). unfold expo in *.
  rewrite <- Z.mul_assoc, <- Z.pow_add_r by lia.
  replace (- (Zpos (digits2_pos v) - 53) + (Zpos (digits2_pos v) - 53 - ez)) with (- ez) by lia.
  destruct s; simpl; lia.
Qed.

Lemma expo_nonpos v : Zpos v < 2 ^ 53 -> expo v <= 0.
Proof. intros H. pose proof (digits_safe v H). unfold expo. lia. Qed.

Lemma add_signed sa va sb vb :
  Zpos va < 2 ^ 53 -> Zpos vb < 2 ^ 53 -> Z.abs (signed sa va + signed sb vb) < 2 ^ 53 ->
  add (S754_finite sa (mant va) (expo va)) (S754_finite sb (mant vb) (expo vb)) =
  of_Z (signed sa va + signed sb vb).
Proof.
  intros Ha Hb Hab. unfold add, SFadd. cbv zeta. change IntDef.Z.min with Z.min.
  pose proof (expo_nonpos va Ha). pose proof (expo_nonpos vb Hb).
  rewrite !aligned by lia. rewrite <- Z.mul_add_distr_r.
  rewrite <- (Z.opp_involutive (Z.min (expo va) (expo vb))) at 2.
  apply normalize_scaled; lia.
Qed.

Lemma sub_signed sa va sb vb :
  Zpos va < 2 ^ 53 -> Zpos vb < 2 ^ 53 -> Z.abs (signed sa va - signed sb vb) < 2 ^ 53 ->
  sub (S754_finite sa (mant va) (expo va)) (S754_finite sb (mant vb) (expo vb)) =
  of_Z (signed sa va - signed sb vb).
Proof.
  intros Ha Hb Hab. unfold sub, SFsub. cbv zeta. change IntDef.Z.min with Z.min.
  pose proof (expo_nonpos va Ha). pose proof (expo_nonpos vb Hb).
  rewrite !aligned by lia. rewrite <- Z.mul_sub_distr_r.
  rewrite <- (Z.opp_involutive (Z.min (expo va) (expo vb))) at 2.
  apply normalize_scaled; lia.
Qed.

(** On whole numbers below 2^53 whose sum is below 2^53, [add] is the
    sum. *)
Lemma add_of_Z a b :
  Z.abs a < 2 ^ 53 -> Z.abs b < 2 ^ 53 -> Z.abs (a + b) < 2 ^ 53 ->
  add (of_Z a) (of_Z b) = of_Z (a + b).
Proof.
  intros Ha Hb Hab. destruct a as [|va|va], b as [|vb|vb].
  - done.
  - rewrite Z.add_0_l, (of_Z_safe (Zpos vb)) by done. reflexivity.
  - rewrite Z.add_0_l, (of_Z_safe (Zneg vb)) by done. reflexivity.
  - rewrite Z.add_0_r, (of_Z_safe (Zpos va)) by done. reflexivity.
  - rewrite (of_Z_safe (Zpos va)), (of_Z_safe (Zpos vb)) by done.
    by apply (add_signed false va false vb).
  - rewrite (of_Z_safe (Zpos va)), (of_Z_safe (Zneg vb)) by done.
    by apply (add_signed false va true vb).
  - rewrite Z.add_0_r, (of_Z_safe (Zneg va)) by done. reflexivity.
  - rewrite (of_Z_safe (Zneg va)), (of_Z_safe (Zpos vb)) by done.
    by apply (add_signed true va false vb).
  - rewrite (of_Z_safe (Zneg va)), (of_Z_safe (Zneg vb)) by done.
    by apply (add_signed true va true vb).
Qed.

(** On whole numbers below 2^53 whose difference is below 2^53, [sub] is
    the difference. *)
Lemma sub_of_Z a b :
  Z.abs a < 2 ^ 53 -> Z.abs b < 2 ^ 53 -> Z.abs (a - b) < 2 ^ 53 ->
  sub (of_Z a) (of_Z b) = of_Z (a - b).
Proof.
  intros Ha Hb Hab. destruct a as [|va|va], b as [|vb|vb].
  - done.
  - rewrite Z.sub_0_l. change (- Zpos vb) with (Zneg vb).
    rewrite (of_Z_safe (Zpos vb)), (of_Z_safe (Zneg vb)) by done. reflexivity.
  - rewrite Z.sub_0_l. change (- Zneg vb) with (Zpos vb).
    rewrite (of_Z_safe (Zpos vb)), (of_Z_safe (Zneg vb)) by done. reflexivity.
  - rewrite Z.sub_0_r, (of_Z_safe (Zpos va)) by done. reflexivity.
  - rewrite (of_Z_safe (Zpos va)), (of_Z_safe (Zpos vb)) by done.
    by apply (sub_signed false va false vb).
  - rewrite (of_Z_safe (Zpos va)), (of_Z_safe (Zneg vb)) by done.
    by apply (sub_signed false va true vb).
  - rewrite Z.sub_0_r, (of_Z_safe (Zneg va)) by done. reflexivity.
  - rewrite (of_Z_safe (Zneg va)), (of_Z_safe (Zpos vb)) by done.
    by apply (sub_signed true va false vb).
  - rewrite (of_Z_safe (Zneg va)), (of_Z_safe (Zneg vb)) by done.
    by apply (sub_signed true va true vb).
Qed.

Lemma mant_compare va vb :
  Zpos va < 2 ^ 53 -> Zpos vb < 2 ^ 53 ->
  match expo va ?= expo vb with
  | Eq => Pos.compare_cont Eq (mant va) (mant vb)
  | Lt => Lt
  | Gt => Gt
  end = (Zpos va ?= Zpos vb).
Proof.
  intros Ha Hb. pose proof (mant_spec va Ha) as Hma. pose proof (mant_spec vb Hb) as Hmb.
  pose proof (digits_safe va Ha) as Hda. pose proof (digits_safe vb Hb) as Hdb.
  assert (Hla := Z.log2_spec (Zpos va) eq_refl). assert (Hlb := Z.log2_spec (Zpos vb) eq_refl).
  destruct (Z.compare_spec (expo va) (expo vb)) as [He|He|He].
  - change (Pos.compare_cont Eq (mant va) (mant vb)) with (Zpos (mant va) ?= Zpos (mant vb)).
    rewrite Hma, Hmb, He. symmetry. apply Zmult_compare_compat_r.
    pose proof (expo_nonpos vb Hb). apply Z.lt_gt, Z.pow_pos_nonneg; lia.
  - symmetry. apply Z.compare_lt_iff. unfold expo in He. rewrite !digits2_log2 in He.
    assert (2 ^ Z.succ (Z.log2 (Zpos va)) <= 2 ^ Z.log2 (Zpos vb))
      by (apply Z.pow_le_mono_r; lia). lia.
  - symmetry. apply Z.compare_gt_iff. unfold expo in He. rewrite !digits2_log2 in He.
    assert (2 ^ Z.succ (Z.log2 (Zpos vb)) <= 2 ^ Z.log2 (Zpos va))
      by (apply Z.pow_le_mono_r; lia). lia.
Qed.

(** On whole numbers below 2^53 the order of the numbers is their order. *)
Lemma compare_of_Z a b :
  Z.abs a < 2 ^ 53 -> Z.abs b < 2 ^ 53 -> SFcompare (of_Z a) (of_Z b) = Some (a ?= b).
Proof.
  intros Ha Hb. rewrite (of_Z_safe a Ha), (of_Z_safe b Hb).
  destruct a as [|va|va], b as [|vb|vb]; try done.
  - unfold SFcompare. change IntDef.Z.compare with Z.compare.
    by rewrite mant_compare by lia.
  - unfold SFcompare. change IntDef.Z.compare with Z.compare.
    assert (Hc := mant_compare va vb).
    change (Zneg va ?= Zneg vb) with (CompOpp (Zpos va ?= Zpos vb)).
    rewrite <- Hc by lia. by destruct (expo va ?= expo vb).
Qed.

Lemma ltb_of_Z a b :
  Z.abs a < 2 ^ 53 -> Z.abs b < 2 ^ 53 -> ltb (of_Z a) (of_Z b) = (a <? b).
Proof.
  intros Ha Hb. unfold ltb, SFltb, Z.ltb. by rewrite compare_of_Z.
Qed.







(** ** The operations on binary64 *)

Section Monad64.

Context {A B : Type}.


Lemma bind_step64 (m : M A) (f : A -> M B) s s1 a :
  m s = (s1, Ok a) -> bind m f s = f a s1.
Proof. unfold bind. by intros ->. Qed.


End Monad64.

(** What each [INSERT] does, by the constraint it meets. *)
Lemma insertMovement_run64 now id pid ty q prev new ref notes by_ s :
  insertMovement now id pid ty q prev new ref notes by_ s =
  if is_nan q then (s, Err (NotNullConstraintFailed "stock_movements.quantity"))
  else if is_nan prev then (s, Err (NotNullConstraintFailed "stock_movements.previous_stock"))
  else if is_nan new then (s, Err (NotNullConstraintFailed "stock_movements.new_stock"))
  else if decide (id ∈ sm_id <$> stock_movements (st_db s))
  then (s, Err (UniqueConstraintFailed "stock_movements.id"))
  else if decide (pid ∈ dom (products (st_db s)) /\ by_ ∈ users (st_db s))
  then (mkSt (set_stock_movements (fun l => l ++
          [mkStockMovement id pid ty (integer_affinity q) (integer_affinity prev)
             (integer_affinity new) ref notes (Some by_) now]) (st_db s))
          (st_ids s), Ok tt)
  else (s, Err ForeignKeyConstraintFailed).
Proof.
  unfold insertMovement, bind, query. simpl.
  destruct (is_nan q), (is_nan prev), (is_nan new); try reflexivity.
  repeat case_decide; reflexivity.
Qed.

Lemma insertItem_run64 id sid pid name q up tp s :
  insertItem id sid pid name q up tp s =
  if is_nan q then (s, Err (NotNullConstraintFailed "sale_items.quantity"))
  else if decide (id ∈ si_id <$> sale_items (st_db s))
  then (s, Err (UniqueConstraintFailed "sale_items.id"))
  else if decide (sid ∈ s_id <$> sales (st_db s) /\ pid ∈ dom (products (st_db s)))
  then (mkSt (set_sale_items (fun l => l ++
          [mkSaleItem id sid pid name (integer_affinity q) up tp]) (st_db s)) (st_ids s), Ok tt)
  else (s, Err ForeignKeyConstraintFailed).
Proof.
  unfold insertItem, bind, query. simpl. destruct (is_nan q); [reflexivity|].
  repeat case_decide; reflexivity.
Qed.

Lemma insertSale_run64 now id total subtotal tax discount pm cid cname cust notes dn s :
  insertSale now id total subtotal tax discount pm cid cname cust notes dn s =
  if decide (id ∈ s_id <$> sales (st_db s))
  then (s, Err (UniqueConstraintFailed "sales.id"))
  else if decide (cid ∈ users (st_db s))
  then (mkSt (set_sales (fun l => l ++
          [mkSale id total subtotal tax discount pm cid cname cust notes dn true now])
          (st_db s)) (st_ids s), Ok tt)
  else (s, Err ForeignKeyConstraintFailed).
Proof.
  unfold insertSale, bind, query. repeat case_decide; reflexivity.
Qed.

Lemma alter_is_insert64 (m : gmap string Product) k p f :
  m !! k = Some p -> alter f k m = <[k := f p]> m.
Proof.
  intros H. apply map_eq. intros j. destruct (decide (j = k)) as [->|Hne].
  - by rewrite lookup_alter_eq, lookup_insert_eq, H.
  - by rewrite lookup_alter_ne, lookup_insert_ne.
Qed.

Lemma ToNumber_id x : is_nan x = false -> ToNumber x = x.
Proof. unfold ToNumber. by intros ->. Qed.


(** *** adjustStock *)

(** What [adjustStock] does on a product that is a row, by the sign of the
    new stock. *)
Lemma adjustStock_run64 now gen productId quantity reason userId db p :
  getOne productId db = Some p ->
  adjustStock now gen productId quantity reason userId db =
  if ltb (add (ToNumber (p_stock p)) quantity) zero then (db, Err NegativeStock)
  else withTransaction (fun s =>
         insertMovement now (gen 0%nat) productId adjustment quantity (p_stock p)
           (add (ToNumber (p_stock p)) quantity) None (Some reason) userId
           (mkSt (set_products (alter (with_stock now
              (fun _ => add (ToNumber (p_stock p)) quantity)) productId) db) 1)) db.
Proof.
  intros Hp. unfold adjustStock, withTransaction, bind, query. simpl. rewrite Hp.
  destruct (ltb _ zero); reflexivity.
Qed.

(** C7 (amended).  [adjustStock] on a product that does not exist fails with
    "Producto no encontrado".  On an existing product, with [current] the
    stock as JavaScript reads it (0 when the column is [NULL]) and
    [new = current + quantity] as JavaScript adds two numbers, in binary64:
    if [new < 0] it fails with "El stock no puede ser negativo" and the
    store is unchanged; if not, and the store accepts the ledger row (none
    of the quantity, the stock and their sum is stored as [NULL], the
    generated id is unused and the user exists, as [created_by] references
    [users]), it sets the stock to [new] and appends exactly one movement of
    type adjustment with the previous and the new stock, a zero stored
    without its sign; if the store rejects the ledger row the call fails
    with the constraint error and the store is unchanged.  When the stock,
    the quantity and their sum are whole numbers below 2^53 in magnitude,
    [new] is their sum. *)
Theorem adjustStock_binary64 now gen productId quantity reason userId db :
  (getOne productId db = None ->
     adjustStock now gen productId quantity reason userId db = (db, Err ProductNotFound)) /\
  (forall p, getOne productId db = Some p ->
     let current := ToNumber (p_stock p) in
     let new := add current quantity in
     (ltb new zero = true ->
        adjustStock now gen productId quantity reason userId db = (db, Err NegativeStock)) /\
     (ltb new zero = false ->
      accepts_adjustment gen userId quantity (p_stock p) new db ->
        adjustStock now gen productId quantity reason userId db =
        (mkDatabase (users db)
           (<[productId := with_stock now (fun _ => new) p]> (products db))
           (sales db) (sale_items db)
           (stock_movements db ++
              [mkStockMovement (gen 0%nat) productId adjustment
                 (integer_affinity quantity) (integer_affinity current)
                 (integer_affinity new) None (Some reason) (Some userId) now]),
         Ok tt)) /\
     (ltb new zero = false ->
      ~ accepts_adjustment gen userId quantity (p_stock p) new db ->
        exists e, constraint_error e /\
          adjustStock now gen productId quantity reason userId db = (db, Err e)) /\
     (forall s d, p_stock p = of_Z s -> quantity = of_Z d ->
        Z.abs s < 2 ^ 53 -> Z.abs d < 2 ^ 53 -> Z.abs (s + d) < 2 ^ 53 ->
        new = of_Z (s + d) /\ ltb new zero = (s + d <? 0))).
Proof.
  split.
  - intros Hnone. unfold adjustStock, withTransaction, bind, query. simpl.
    by rewrite Hnone.
  - intros p Hp current new.
    rewrite (adjustStock_run64 _ _ _ _ _ _ _ p Hp). fold current. fold new.
    assert (Hdom : productId ∈
      dom (alter (with_stock now (fun _ => new)) productId (products db))).
    { apply elem_of_dom. unfold getOne in Hp. rewrite lookup_alter_eq, Hp. by eexists. }
    split; [|split; [|split]].
    + by intros ->.
    + intros -> (Hq & Hc & Hn & Hfresh & Huser).
      unfold withTransaction. rewrite insertMovement_run64. simpl.
      rewrite Hq, Hc, Hn. rewrite decide_False by done. rewrite decide_True by done.
      simpl. unfold set_stock_movements, set_products, current. simpl.
      rewrite (ToNumber_id _ Hc). do 2 f_equal.
      by apply alter_is_insert64.
    + intros -> Hrej. unfold withTransaction. rewrite insertMovement_run64. simpl.
      destruct (is_nan quantity) eqn:Hq; [eexists; split; [|reflexivity]; exact I|].
      destruct (is_nan (p_stock p)) eqn:Hc; [eexists; split; [|reflexivity]; exact I|].
      destruct (is_nan new) eqn:Hn; [eexists; split; [|reflexivity]; exact I|].
      destruct (decide (gen 0%nat ∈ sm_id <$> stock_movements db)) as [Hin|Hnin];
        [eexists; split; [|reflexivity]; exact I|].
      rewrite decide_False by (intros [_ Hu]; by apply Hrej).
      eexists; split; [|reflexivity]; exact I.
    + intros s d Hs Hd Hbs Hbd Hbsd. subst new current. rewrite Hs, Hd.
      rewrite ToNumber_id by (by rewrite of_Z_safe by done; destruct s).
      rewrite add_of_Z by done. split; [done|].
      change zero with (of_Z 0). by apply ltb_of_Z.
Qed.

Lemma adjustStock_binary64_witness :
  adjustStock 5 (Demo.ids "d") "p9" (of_Z (-4)) "merma" "admin-001" (shop (of_Z 10)) =
    (shop (of_Z 10), Err ProductNotFound) /\
  adjustStock 5 (Demo.ids "d") "p1" (of_Z (-11)) "merma" "admin-001" (shop (of_Z 10)) =
    (shop (of_Z 10), Err NegativeStock) /\
  exists db',
    adjustStock 5 (Demo.ids "d") "p1" (of_Z (-4)) "merma" "admin-001" (shop (of_Z 10)) =
      (db', Ok tt) /\
    getProductStock "p1" db' = Some (of_Z 6) /\
    (sm_previous_stock <$> stock_movements db') = [of_Z 10] /\
    (sm_new_stock <$> stock_movements db') = [of_Z 6].
Proof.
  split; [|split].
  - apply (proj1 (adjustStock_binary64 5 (Demo.ids "d") "p9" (of_Z (-4)) "merma" "admin-001"
                    (shop (of_Z 10)))).
    reflexivity.
  - apply (proj2 (adjustStock_binary64 5 (Demo.ids "d") "p1" (of_Z (-11)) "merma" "admin-001"
                    (shop (of_Z 10))) (book (of_Z 10))).
    + reflexivity.
    + vm_compute. reflexivity.
  - eexists. split.
    + apply (proj2 (adjustStock_binary64 5 (Demo.ids "d") "p1" (of_Z (-4)) "merma" "admin-001"
                      (shop (of_Z 10))) (book (of_Z 10))).
      * reflexivity.
      * vm_compute. reflexivity.
      * repeat split; try (vm_compute; reflexivity). vm_compute. apply not_elem_of_nil.
    + vm_compute. auto.
Defined.

(** C7, as stated, fails in two ways.  When the user is unknown, the
    product exists and the new stock is not negative, yet the store rejects
    the ledger row ([created_by] references [users]) and nothing is
    written.  And the stock the call sets is the sum as JavaScript rounds
    it: on a stock of 2^53 a change of 1 is accepted and leaves the stock,
    and the new stock of the ledger row, at 2^53. *)
Lemma adjustStock_unknown_user_or_rounded :
  (getOne "p1" (shop (of_Z 10)) = Some (book (of_Z 10)) /\
   ltb (add (of_Z 10) (of_Z (-4))) zero = false /\
   adjustStock 5 (Demo.ids "d") "p1" (of_Z (-4)) "merma" "ghost" (shop (of_Z 10)) =
     (shop (of_Z 10), Err ForeignKeyConstraintFailed)) /\
  (exists db',
     adjustStock 5 (Demo.ids "d") "p1" (of_Z 1) "recuento" "admin-001" (shop (of_Z (2 ^ 53))) =
       (db', Ok tt) /\
     getProductStock "p1" db' = Some (of_Z (2 ^ 53)) /\
     (sm_quantity <$> stock_movements db') = [of_Z 1] /\
     (sm_previous_stock <$> stock_movements db') = [of_Z (2 ^ 53)] /\
     (sm_new_stock <$> stock_movements db') = [of_Z (2 ^ 53)] /\
     ~ exact_sum (of_Z (2 ^ 53)) (of_Z 1) (of_Z (2 ^ 53))).
Proof.
  split.
  - split; [reflexivity|]. split; vm_compute; reflexivity.
  - eexists. split; [vm_compute; reflexivity|].
    split; [vm_compute; reflexivity|]. split; [vm_compute; reflexivity|].
    split; [vm_compute; reflexivity|]. split; [vm_compute; reflexivity|].
    vm_compute. discriminate.
Qed.

(** *** The loop of create *)

Section CreateLoop64.

Variables (now : Z) (gen : nat -> string) (saleId cashier : string).








End CreateLoop64.

(** *** A sale that was created *)








(** *** The loop of cancel *)

Section CancelLoop64.

Variables (now : Z) (gen : nat -> string) (id userId : string) (daily_number : Z).






End CancelLoop64.

(** *** A sale that was cancelled *)


(** *** Cancelling a sale that was just created *)

Lemma affinity_of_Z z : Z.abs z < 2 ^ 53 -> integer_affinity (of_Z z) = of_Z z.
Proof. intros H. rewrite of_Z_safe by done. by destruct z. Qed.







End Binary64.

(** ** The two embeddings on whole numbers *)

(** A store on whole numbers is read as a store on binary64 by [store64].
    While the stocks leave room for what an operation takes or gives back,
    the operation of the code on binary64 leaves the reading of the store
    that the operation on whole numbers leaves, and returns or throws the
    reading of what that one returns or throws. *)

Lemma of_Z_not_nan z : safe z -> Double.is_nan (Double.of_Z z) = false.
Proof. intros H. rewrite of_Z_safe by done. by destruct z. Qed.

Lemma ToNumber_of_Z z : safe z -> Double.ToNumber (Double.of_Z z) = Double.of_Z z.
Proof. intros H. by apply ToNumber_id, of_Z_not_nan. Qed.

Lemma stock64 pid db :
  Double.getProductStock pid (store64 db) = Double.of_Z <$> getProductStock pid db.
Proof.
  unfold Double.getProductStock, getProductStock, store64. simpl.
  rewrite lookup_fmap. by destruct (products db !! pid).
Qed.

Lemma item_ids64 (l : list SaleItem) : Double.si_id <$> (item64 <$> l) = si_id <$> l.
Proof. rewrite <- list_fmap_compose. by apply list_fmap_ext. Qed.

Lemma movement_ids64 (l : list StockMovement) :
  Double.sm_id <$> (movement64 <$> l) = sm_id <$> l.
Proof. rewrite <- list_fmap_compose. by apply list_fmap_ext. Qed.

(** An [UPDATE] of one stock that rounds nothing. *)
Lemma alter64 now (f : Z -> Z) (g : Double.number -> Double.number) k
    (m : gmap string Product) :
  (forall p, m !! k = Some p ->
     Double.integer_affinity (g (Double.of_Z (p_stock p))) = Double.of_Z (f (p_stock p))) ->
  alter (Double.with_stock now g) k (product64 <$> m) =
  product64 <$> alter (with_stock now f) k m.
Proof.
  intros H. apply map_eq. intros j. destruct (decide (j = k)) as [->|Hne].
  - rewrite lookup_alter_eq, !lookup_fmap, lookup_alter_eq.
    destruct (m !! k) as [p|] eqn:Hp; [|done]. simpl. f_equal.
    unfold Double.with_stock, product64, with_stock. simpl. by rewrite (H p).
  - by rewrite lookup_alter_ne, !lookup_fmap, lookup_alter_ne.
Qed.

Lemma insertItem_agrees id sid pid name q up tp s :
  safe q ->
  Double.insertItem id sid pid name (Double.of_Z q) up tp (state64 s) =
  step64 (insertItem id sid pid name q up tp s).
Proof.
  intros Hq. rewrite insertItem_run64, insertItem_run. simpl.
  rewrite (of_Z_not_nan _ Hq), item_ids64, dom_fmap_L.
  destruct (decide _); [done|]. destruct (decide _); [|done].
  unfold step64, state64, store64. simpl. rewrite fmap_app. simpl.
  by rewrite affinity_of_Z.
Qed.

Lemma insertMovement_agrees now id pid ty q prev new ref notes by_ s :
  safe q -> safe prev -> safe new ->
  Double.insertMovement now id pid ty (Double.of_Z q) (Double.of_Z prev) (Double.of_Z new)
    ref notes by_ (state64 s) =
  step64 (insertMovement now id pid ty q prev new ref notes by_ s).
Proof.
  intros Hq Hp Hn. rewrite insertMovement_run64, insertMovement_run. simpl.
  rewrite (of_Z_not_nan _ Hq), (of_Z_not_nan _ Hp), (of_Z_not_nan _ Hn).
  rewrite movement_ids64, dom_fmap_L.
  destruct (decide _); [done|]. destruct (decide _); [|done].
  unfold step64, state64, store64. simpl. rewrite fmap_app. simpl.
  by rewrite !affinity_of_Z.
Qed.

Lemma insertSale_agrees now id total subtotal tax discount pm cid cname cust notes dn s :
  Double.insertSale now id total subtotal tax discount pm cid cname cust notes dn (state64 s) =
  step64 (insertSale now id total subtotal tax discount pm cid cname cust notes dn s).
Proof.
  rewrite insertSale_run64, insertSale_run. simpl.
  destruct (decide _); [done|]. destruct (decide _); done.
Qed.

Lemma set_stock64 now (f : Z -> Z) (g : Double.number -> Double.number) k db :
  (forall st, getProductStock k db = Some st ->
     Double.integer_affinity (g (Double.of_Z st)) = Double.of_Z (f st)) ->
  Double.set_products (alter (Double.with_stock now g) k) (store64 db) =
  store64 (set_products (alter (with_stock now f) k) db).
Proof.
  intros H. unfold Double.set_products, store64, set_products. simpl. f_equal.
  apply alter64. intros p Hp. apply H. unfold getProductStock. by rewrite Hp.
Qed.

Lemma weight_nonneg pid l : 0 <= weight pid l.
Proof. induction l as [|[k q] l IH]; simpl; [done|]. case_decide; lia. Qed.

(** There is room when each product row has room. *)
Lemma room_check l db :
  map_Forall (fun pid p => Z.abs (p_stock p) + weight pid l < 2 ^ 53) (products db) ->
  room l db.
Proof.
  intros H pid st Hst. unfold getProductStock in Hst.
  destruct (products db !! pid) as [p|] eqn:Hp; [|done]. injection Hst as <-.
  exact (H pid p Hp).
Qed.

(** One pass of the loop of [create]. *)
Lemma createItem_agrees now gen saleId cashier item s :
  (forall st, getProductStock (it_product_id item) (st_db s) = Some st ->
     Z.abs st + Z.abs (it_quantity item) < 2 ^ 53) ->
  Double.createItem now gen saleId cashier (line64 item) (state64 s) =
  step64 (createItem now gen saleId cashier item s).
Proof.
  intros Hroom.
  unfold Double.createItem, createItem, Double.bind, bind, Double.query, query. simpl.
  rewrite stock64.
  destruct (getProductStock (it_product_id item) (st_db s)) as [st|] eqn:Hst; simpl; [|done].
  specialize (Hroom st eq_refl).
  assert (Hst' : safe st) by (unfold safe; lia).
  assert (Hq : safe (it_quantity item)) by (unfold safe; lia).
  assert (Hnew : safe (st - it_quantity item)) by (unfold safe; lia).
  rewrite ToNumber_of_Z, ltb_of_Z by done.
  destruct (st <? it_quantity item); [done|].
  change (Double.st_ids (state64 s)) with (st_ids s).
  change (Double.mkSt (Double.st_db (state64 s)) (S (st_ids s)))
    with (state64 (mkSt (st_db s) (S (st_ids s)))).
  rewrite insertItem_agrees by done.
  rewrite insertItem_run. simpl.
  destruct (decide _); [done|]. destruct (decide _); [|done]. simpl.
  unfold Double.updateStock_sub, Double.write. simpl.
  erewrite (set_stock64 now (fun s0 => s0 - it_quantity item)); cycle 1.
  { simpl. intros st0 Hst0.
    change (getProductStock (it_product_id item) (set_sale_items _ (st_db s)))
      with (getProductStock (it_product_id item) (st_db s)) in Hst0.
    rewrite Hst in Hst0. injection Hst0 as <-.
    by rewrite sub_of_Z, affinity_of_Z. }
  rewrite sub_of_Z by done.
  match goal with |- context [Double.mkSt (store64 ?d) ?k] =>
    change (Double.mkSt (store64 d) k) with (state64 (mkSt d k)) end.
  by apply insertMovement_agrees.
Qed.

(** A pass that does not throw leaves room for the other lines. *)
Lemma createItem_room now gen saleId cashier item items s s1 :
  room (line_units <$> item :: items) (st_db s) ->
  createItem now gen saleId cashier item s = (s1, Ok tt) ->
  room (line_units <$> items) (st_db s1).
Proof.
  intros Hroom H. apply createItem_ok in H as (p & Hp & Hle & ->).
  intros pid st Hst. rewrite item_done_stock in Hst.
  assert (Hfound : forall pid0 st0, getProductStock pid0 (st_db s) = Some st0 ->
            Z.abs st0 + ((if decide (it_product_id item = pid0)
                          then Z.abs (it_quantity item) else 0) +
                         weight pid0 (line_units <$> items)) < 2 ^ 53).
  { intros pid0 st0 H0. exact (Hroom pid0 st0 H0). }
  case_decide as Hk.
  - injection Hst as <-. subst pid.
    specialize (Hfound (it_product_id item) (p_stock p)).
    rewrite decide_True in Hfound by done.
    unfold getProductStock in Hfound. rewrite Hp in Hfound. specialize (Hfound eq_refl). lia.
  - specialize (Hfound pid st Hst). rewrite decide_False in Hfound by done. lia.
Qed.

(** The loop of [create]. *)
Lemma createItems_agree now gen saleId cashier items : forall s,
  room (line_units <$> items) (st_db s) ->
  Double.for_each (Double.createItem now gen saleId cashier) (line64 <$> items) (state64 s) =
  step64 (for_each (createItem now gen saleId cashier) items s).
Proof.
  induction items as [|item items IH]; intros s Hroom; [done|]. simpl.
  unfold Double.bind, bind. rewrite createItem_agrees; cycle 1.
  { intros st Hst.
    assert (Z.abs st + ((if decide (it_product_id item = it_product_id item)
                         then Z.abs (it_quantity item) else 0) +
                        weight (it_product_id item) (line_units <$> items)) < 2 ^ 53)
      as Hfound by exact (Hroom _ _ Hst).
    rewrite decide_True in Hfound by done.
    pose proof (weight_nonneg (it_product_id item) (line_units <$> items)). lia. }
  destruct (createItem now gen saleId cashier item s) as [s1 [[]|e]] eqn:Hpass; simpl.
  - apply IH. by eapply createItem_room.
  - done.
Qed.

(** X28.  [create] on whole numbers: when the magnitude of each stock and
    those of the quantities its lines ask together stay below 2^53, the
    code on binary64 rounds nothing, and the store it leaves and what it
    returns or throws are those computed on whole numbers. *)
Theorem create_agrees now gen data db :
  room (line_units <$> in_items data) db ->
  Double.create now gen (input64 data) (store64 db) = outcome64 (create now gen data db).
Proof.
  intros Hroom. unfold Double.create, create. simpl.
  destruct (in_items data) as [|i0 l0] eqn:Hitems; [done|]. simpl.
  destruct (Qle_bool (in_total data) 0); [done|].
  unfold Double.withTransaction, withTransaction, Double.createTx, createTx.
  unfold Double.bind, bind, Double.query, query, Double.generateId, generateId. simpl.
  change (Double.lastSaleOfDay (DATE now) (store64 db)) with (lastSaleOfDay (DATE now) db).
  set (dn := match lastSaleOfDay (DATE now) db with Some n => n + 1 | None => 1 end).
  change (Double.mkSt (store64 db) 1) with (state64 (mkSt db 1)).
  rewrite insertSale_agrees.
  destruct (insertSale _ _ _ _ _ _ _ _ _ _ _ _ _) as [s1 [[]|e]] eqn:Hins; simpl; [|done].
  assert (Hroom1 : room (line_units <$> in_items data) (st_db s1)).
  { rewrite insertSale_run in Hins. simpl in Hins.
    destruct (decide _); [discriminate|]. destruct (decide _); [|discriminate].
    injection Hins as <-. by rewrite Hitems. }
  rewrite createItems_agree by done.
  destruct (for_each _ (in_items data) s1) as [s2 [[]|e]]; done.
Qed.

Lemma create_agrees_witness :
  Double.create 100 (Demo.ids "a") (input64 (Demo.request [Demo.line "p1" 3]))
    (store64 Demo.db0) = outcome64 Demo.day1a.
Proof.
  apply create_agrees, room_check. apply (bool_decide_unpack _). vm_compute. exact I.
Defined.

(** One pass of the loop of [cancel]. *)
Lemma cancelItem_agrees now gen id userId dn item s :
  (forall st, getProductStock (si_product_id item) (st_db s) = Some st ->
     Z.abs st + Z.abs (si_quantity item) < 2 ^ 53) ->
  Double.cancelItem now gen id userId dn (item64 item) (state64 s) =
  step64 (cancelItem now gen id userId dn item s).
Proof.
  intros Hroom.
  unfold Double.cancelItem, cancelItem, Double.bind, bind, Double.query, query. simpl.
  rewrite stock64.
  destruct (getProductStock (si_product_id item) (st_db s)) as [st|] eqn:Hst; simpl; [|done].
  specialize (Hroom st eq_refl).
  assert (Hst' : safe st) by (unfold safe; lia).
  assert (Hq : safe (si_quantity item)) by (unfold safe; lia).
  assert (Hnew : safe (st + si_quantity item)) by (unfold safe; lia).
  rewrite !ToNumber_of_Z by done.
  unfold Double.updateStock_add, Double.write. simpl.
  erewrite (set_stock64 now (fun s0 => s0 + si_quantity item)); cycle 1.
  { intros st0 Hst0. rewrite Hst in Hst0. injection Hst0 as <-.
    by rewrite add_of_Z, affinity_of_Z. }
  rewrite add_of_Z by done.
  match goal with |- context [Double.mkSt (store64 ?d) ?k] =>
    change (Double.mkSt (store64 d) k) with (state64 (mkSt d k)) end.
  by apply insertMovement_agrees.
Qed.

(** A pass that does not throw leaves room for the other items. *)
Lemma cancelItem_room now gen id userId dn item rows s s1 :
  room (item_units <$> item :: rows) (st_db s) ->
  cancelItem now gen id userId dn item s = (s1, Ok tt) ->
  room (item_units <$> rows) (st_db s1).
Proof.
  intros Hroom H. apply cancelItem_ok in H.
  assert (Hfound : forall pid0 st0, getProductStock pid0 (st_db s) = Some st0 ->
            Z.abs st0 + ((if decide (si_product_id item = pid0)
                          then Z.abs (si_quantity item) else 0) +
                         weight pid0 (item_units <$> rows)) < 2 ^ 53).
  { intros pid0 st0 H0. exact (Hroom pid0 st0 H0). }
  destruct (products (st_db s) !! si_product_id item) as [p|] eqn:Hp; subst s1.
  - intros pid st Hst. rewrite item_undone_stock in Hst. case_decide as Hk.
    + injection Hst as <-. subst pid.
      specialize (Hfound (si_product_id item) (p_stock p)).
      rewrite decide_True in Hfound by done.
      unfold getProductStock in Hfound. rewrite Hp in Hfound. specialize (Hfound eq_refl). lia.
    + specialize (Hfound pid st Hst). rewrite decide_False in Hfound by done. lia.
  - intros pid st Hst. specialize (Hfound pid st Hst). case_decide; lia.
Qed.

(** The loop of [cancel]. *)
Lemma cancelItems_agree now gen id userId dn rows : forall s,
  room (item_units <$> rows) (st_db s) ->
  Double.for_each (Double.cancelItem now gen id userId dn) (item64 <$> rows) (state64 s) =
  step64 (for_each (cancelItem now gen id userId dn) rows s).
Proof.
  induction rows as [|item rows IH]; intros s Hroom; [done|]. simpl.
  unfold Double.bind, bind. rewrite cancelItem_agrees; cycle 1.
  { intros st Hst.
    assert (Z.abs st + ((if decide (si_product_id item = si_product_id item)
                         then Z.abs (si_quantity item) else 0) +
                        weight (si_product_id item) (item_units <$> rows)) < 2 ^ 53)
      as Hfound by exact (Hroom _ _ Hst).
    rewrite decide_True in Hfound by done.
    pose proof (weight_nonneg (si_product_id item) (item_units <$> rows)). lia. }
  destruct (cancelItem now gen id userId dn item s) as [s1 [[]|e]] eqn:Hpass; simpl.
  - apply IH. by eapply cancelItem_room.
  - done.
Qed.

Lemma getSaleItems64 id db :
  Double.getSaleItems id (store64 db) = item64 <$> getSaleItems id db.
Proof.
  unfold Double.getSaleItems, getSaleItems, store64. simpl.
  induction (sale_items db) as [|i l IH]; [done|].
  rewrite fmap_cons, !filter_cons. simpl. case_decide; by rewrite IH.
Qed.

(** X29.  [cancel] on whole numbers: when the magnitude of each stock and
    those of the quantities of the items given back to it together stay
    below 2^53, the code on binary64 rounds nothing, and the store it
    leaves and what it throws are those computed on whole numbers. *)
Theorem cancel_agrees now gen id userId db :
  room (item_units <$> getSaleItems id db) db ->
  Double.cancel now gen id userId (store64 db) = outcome64 (cancel now gen id userId db).
Proof.
  intros Hroom.
  unfold Double.cancel, cancel, Double.withTransaction, withTransaction,
    Double.cancelTx, cancelTx, Double.bind, bind, Double.query, query.
  cbn [Double.st_db st_db].
  change (Double.getActiveSale id (store64 db)) with (getActiveSale id db).
  destruct (getActiveSale id db) as [theSale|]; [|done].
  change (Double.st_db (Double.mkSt (store64 db) 0)) with (store64 db).
  change (st_db (mkSt db 0)) with db.
  rewrite getSaleItems64.
  change (Double.mkSt (store64 db) 0) with (state64 (mkSt db 0)).
  rewrite cancelItems_agree by done.
  destruct (for_each _ (getSaleItems id db) _) as [s2 [[]|e]]; done.
Qed.

Lemma cancel_agrees_witness :
  Double.cancel 300 (Demo.ids "c") "a0" "admin-001" (store64 (fst Demo.day1a)) =
  outcome64 Demo.undone.
Proof.
  apply cancel_agrees, room_check. apply (bool_decide_unpack _). vm_compute. exact I.
Defined.

(** X30.  [adjustStock] on whole numbers: when the magnitudes of the stock
    of the product and of the change together stay below 2^53, the code on
    binary64 rounds nothing, and the store it leaves and what it throws are
    those computed on whole numbers. *)
Theorem adjustStock_agrees now gen productId quantity reason userId db :
  room [(productId, quantity)] db ->
  Double.adjustStock now gen productId (Double.of_Z quantity) reason userId (store64 db) =
  outcome64 (adjustStock now gen productId quantity reason userId db).
Proof.
  intros Hroom.
  unfold Double.adjustStock, adjustStock, Double.withTransaction, withTransaction,
    Double.bind, bind, Double.query, query, Double.getOne, getOne. simpl.
  rewrite lookup_fmap.
  destruct (products db !! productId) as [p|] eqn:Hp; simpl; [|done].
  assert (Z.abs (p_stock p) + ((if decide (productId = productId)
                                then Z.abs quantity else 0) + 0) < 2 ^ 53) as Hfound.
  { apply (Hroom productId (p_stock p)). unfold getProductStock. by rewrite Hp. }
  rewrite decide_True in Hfound by done.
  assert (Hs : safe (p_stock p)) by (unfold safe; lia).
  assert (Hq : safe quantity) by (unfold safe; lia).
  assert (Hnew : safe (p_stock p + quantity)) by (unfold safe; lia).
  rewrite ToNumber_of_Z, add_of_Z by done.
  change Double.zero with (Double.of_Z 0). rewrite ltb_of_Z by done.
  destruct (p_stock p + quantity <? 0); [done|].
  unfold Double.updateStock_set, Double.write, Double.generateId. simpl.
  erewrite (set_stock64 now (fun _ => p_stock p + quantity)); cycle 1.
  { intros st0 _. by apply affinity_of_Z. }
  match goal with |- context [Double.mkSt (store64 ?d) ?k] =>
    change (Double.mkSt (store64 d) k) with (state64 (mkSt d k)) end.
  rewrite insertMovement_agrees by done.
  destruct (insertMovement _ _ _ _ _ _ _ _ _ _ _) as [s2 [[]|e]]; done.
Qed.

Lemma adjustStock_agrees_witness :
  Double.adjustStock 5 (Demo.ids "d") "p1" (Double.of_Z (-4)) "merma" "admin-001"
    (store64 Demo.db0) =
  outcome64 (adjustStock 5 (Demo.ids "d") "p1" (-4) "merma" "admin-001" Demo.db0).
Proof.
  apply adjustStock_agrees, room_check. apply (bool_decide_unpack _). vm_compute. exact I.
Defined.

(** The three calls that leave a negative stock, on binary64: a sale of -5
    of the 10 in stock, a write-off of 15 and the cancellation of the sale
    are accepted, and the stock is -5. *)
Example negative_stock_on_binary64 :
  exists db1 db2 db3 theSale,
    Double.create 100 (Demo.ids "a") (input64 (Demo.request [Demo.line "p1" (-5)]))
      (store64 Demo.db0) = (db1, Double.Ok (Some theSale, 1)) /\
    Double.adjustStock 200 (Demo.ids "b") "p1" (Double.of_Z (-15)) "merma" "admin-001" db1 =
      (db2, Double.Ok tt) /\
    Double.cancel 300 (Demo.ids "c") (s_id theSale) "admin-001" db2 = (db3, Double.Ok tt) /\
    Double.getProductStock "p1" db3 = Some (Double.of_Z (-5)).
Proof.
  eexists _, _, _, _. split; [vm_compute; reflexivity|].
  split; [vm_compute; reflexivity|]. split; vm_compute; reflexivity.
Qed.

Import ProductService.

(** ** Barcodes *)

Lemma barcode_in_use_spec self b ps :
  barcode_in_use self (Some b) ps <->
  exists k p, ps !! k = Some p /\ Some k <> self /\ p_barcode p = Some b.
Proof. unfold barcode_in_use, map_Exists. naive_solver. Qed.

Lemma getByBarcode_Some b db p :
  getByBarcode b db = Some p ->
  exists k, products db !! k = Some p /\ p_barcode p = Some b /\ p_is_active p = true.
Proof.
  unfold getByBarcode. intros H.
  destruct (head _) as [[k p']|] eqn:Hh; [|discriminate]. injection H as ->.
  apply head_filter_Some in Hh as (Hin & Hb & Ha).
  exists k. split; [by apply elem_of_map_to_list|done].
Qed.

Lemma getByBarcode_row b db k p :
  barcodes_unique db -> products db !! k = Some p -> p_barcode p = Some b ->
  getByBarcode b db = if p_is_active p then Some p else None.
Proof.
  intros Hu Hk Hb.
  destruct (getByBarcode b db) as [p'|] eqn:Hget.
  - apply getByBarcode_Some in Hget as (k' & Hk' & Hb' & Ha').
    assert (k' = k) as -> by (eapply Hu; eassumption).
    rewrite Hk in Hk'. injection Hk' as <-. by rewrite Ha'.
  - destruct (p_is_active p) eqn:Ha; [|done]. exfalso.
    unfold getByBarcode in Hget.
    destruct (head _) as [|] eqn:Hh; [discriminate|]. apply head_None in Hh.
    assert (Hin : (k, p) ∈ filter (fun kp : string * Product =>
              p_barcode kp.2 = Some b /\ p_is_active kp.2 = true) (map_to_list (products db))).
    { apply list_elem_of_filter. split; [done|]. by apply elem_of_map_to_list. }
    rewrite Hh in Hin. by apply elem_of_nil in Hin.
Qed.

(** X16.  [getByBarcode] returns a row of [products] that is active and has
    the barcode.  While no two products share a barcode, it returns the
    product that has the barcode when that product is active, and nothing
    when it was deleted. *)
Theorem getByBarcode_spec b db :
  (forall p, getByBarcode b db = Some p ->
     exists k, getOne k db = Some p /\ p_barcode p = Some b /\ p_is_active p = true) /\
  (barcodes_unique db ->
   forall k p, getOne k db = Some p -> p_barcode p = Some b ->
     getByBarcode b db = if p_is_active p then Some p else None).
Proof.
  split.
  - apply getByBarcode_Some.
  - intros Hu k p. by apply getByBarcode_row.
Qed.

Lemma getByBarcode_spec_witness :
  getByBarcode "775001" (fst Shelf.stocked) =
  Some (new_product 50 Shelf.strip Shelf.pencil (3 # 2)).
Proof.
  assert (Hu : barcodes_unique (fst Shelf.stocked)).
  { intros k1 k2 p1 p2 b H1 H2 Hb1 Hb2.
    assert (Hk : forall k p, products (fst Shelf.stocked) !! k = Some p ->
              p_barcode p = Some b -> k = "p0").
    { intros k p Hk Hb. apply elem_of_map_to_list in Hk. vm_compute in Hk.
      apply elem_of_cons in Hk as [Hk|Hk]; [injection Hk as -> ->; discriminate|].
      apply list_elem_of_singleton in Hk. by injection Hk as -> ->. }
    by rewrite (Hk k1 p1), (Hk k2 p2). }
  rewrite (proj2 (getByBarcode_spec "775001" (fst Shelf.stocked)) Hu "p0"
             (new_product 50 Shelf.strip Shelf.pencil (3 # 2))).
  - reflexivity.
  - vm_compute. reflexivity.
  - reflexivity.
Defined.

(** ** ProductService.create *)

Section CatalogueFacts.

Variables (now : Z) (gen : nat -> string) (trim : string -> string).

Lemma product_create_done data db db' p :
  ProductService.create now gen trim data db = (db', Done p) ->
  exists price, cp_price data = Some price /\ negative price = false /\
    cp_name data <> "" /\ trim (cp_name data) <> "" /\
    products db !! gen 0%nat = None /\
    ~ barcode_in_use None (p_barcode p) (products db) /\
    p = new_product now trim data price /\
    db' = set_products (insert (gen 0%nat) p) db.
Proof.
  unfold ProductService.create. destruct (decide _) as [|Hname]; [discriminate|].
  destruct (cp_price data) as [price|]; [|discriminate].
  destruct (negative price) eqn:Hneg; [discriminate|].
  destruct (match or_null (cp_barcode data) with Some _ => _ | None => _ end); [discriminate|].
  destruct (decide _) as [|Hid]; [discriminate|].
  destruct (decide _) as [|Hbar]; [discriminate|].
  unfold getOne. simpl. rewrite lookup_insert_eq. intros [= <- <-].
  exists price. repeat split; try done.
  - intros ?. apply Hname. by left.
  - intros ?. apply Hname. by right.
  - by apply not_elem_of_dom.
Qed.

Lemma product_create_refused data db db' e :
  ProductService.create now gen trim data db = (db', Refused e) -> db' = db /\ e <> CreateFailed.
Proof.
  unfold ProductService.create. destruct (decide _); [by intros [= <- <-]|].
  destruct (cp_price data) as [price|]; [|by intros [= <- <-]].
  destruct (negative price); [by intros [= <- <-]|].
  destruct (match or_null (cp_barcode data) with Some _ => _ | None => _ end);
    [by intros [= <- <-]|].
  destruct (decide _); [by intros [= <- <-]|].
  destruct (decide _); [by intros [= <- <-]|].
  unfold getOne. simpl. by rewrite lookup_insert_eq.
Qed.

Lemma negative_false q : negative q = false -> (0 <= q)%Q.
Proof. unfold negative. intros H%negb_false_iff. by apply Qle_bool_iff. Qed.

Lemma or_null_nonempty x : or_null x <> Some "".
Proof. destruct x as [s|]; simpl; [|done]. destruct (decide (s = "")); congruence. Qed.

End CatalogueFacts.

(** X17.  A product that [ProductService.create] returns is a new row under
    the generated id, and the only change to the store.  Its name is the
    trimmed name of the input and is not empty, its price is the price of
    the input and is not negative, it is active, and its barcode is not the
    empty string.  Its stock is the stock of the input, 0 when none is
    given.  A threshold that is not given or is 0 becomes 5.  When the call
    fails the store is unchanged, and the failure is never the one reported
    when the new row cannot be read back. *)
Theorem product_create_spec now gen trim data db db' r :
  ProductService.create now gen trim data db = (db', r) ->
  match r with
  | Done p =>
      getOne (gen 0%nat) db = None /\
      db' = set_products (insert (gen 0%nat) p) db /\
      getOne (gen 0%nat) db' = Some p /\
      p_name p = trim (cp_name data) /\ p_name p <> "" /\
      cp_price data = Some (p_price p) /\ (0 <= p_price p)%Q /\
      p_stock p = default 0 (cp_stock data) /\
      p_min_stock p = (if decide (default 0 (cp_min_stock data) = 0) then 5
                       else default 0 (cp_min_stock data)) /\
      p_is_active p = true /\ p_created_at p = now /\
      p_barcode p <> Some ""
  | Refused e => db' = db /\ e <> CreateFailed
  end.
Proof.
  intros H. destruct r as [p|e]; [|by apply (product_create_refused now gen trim data)].
  apply product_create_done in H as (price & Hprice & Hneg & _ & Hname & Hid & _ & -> & ->).
  split; [done|]. split; [done|].
  split; [unfold getOne; simpl; by rewrite lookup_insert_eq|].
  split; [done|]. split; [done|]. split; [done|].
  split; [by apply negative_false|].
  split; [|split; [|split; [done|split; [done|apply or_null_nonempty]]]]; simpl.
  - destruct (cp_stock data) as [z|]; simpl; [|done]. by destruct (decide (z = 0)).
  - by destruct (cp_min_stock data).
Qed.

Lemma product_create_spec_witness :
  exists p, snd Shelf.stocked = Done p /\
    getOne "p0" (fst Shelf.stocked) = Some p /\
    p_name p = "Lapiz" /\ p_min_stock p = 5.
Proof.
  pose proof (product_create_spec 50 (Demo.ids "p") Shelf.strip Shelf.pencil Demo.db0
                (fst Shelf.stocked) (snd Shelf.stocked)) as H.
  destruct (snd Shelf.stocked) as [p|e] eqn:Hr; [|vm_compute in Hr; discriminate].
  destruct H as (_ & _ & Hget & Hname & _ & _ & _ & _ & Hmin & _).
  - change Shelf.stocked
      with (ProductService.create 50 (Demo.ids "p") Shelf.strip Shelf.pencil Demo.db0) in *.
    rewrite <- Hr. by destruct (ProductService.create _ _ _ _ _).
  - exists p. split; [reflexivity|]. split; [exact Hget|]. split; [exact Hname|exact Hmin].
Defined.

Lemma barcodes_unique_insert db id row :
  barcodes_unique db ->
  ~ barcode_in_use (Some id) (p_barcode row) (products db) ->
  barcodes_unique (set_products (insert id row) db).
Proof.
  intros Hu Hfree k1 k2 p1 p2 b. simpl.
  destruct (decide (k1 = id)) as [->|H1], (decide (k2 = id)) as [->|H2];
    rewrite ?lookup_insert_eq, ?lookup_insert_ne by done.
  - done.
  - intros [= <-] Hk2 Hb1 Hb2. exfalso. apply Hfree. rewrite Hb1.
    apply barcode_in_use_spec. exists k2, p2. split; [done|]. split; [congruence|done].
  - intros Hk1 [= <-] Hb1 Hb2. exfalso. apply Hfree. rewrite Hb2.
    apply barcode_in_use_spec. exists k1, p1. split; [done|]. split; [congruence|done].
  - apply Hu.
Qed.

Lemma barcode_in_use_mono self b ps :
  barcode_in_use (Some self) b ps -> ps !! self = None -> barcode_in_use None b ps.
Proof.
  destruct b as [b|]; [|done]. rewrite !barcode_in_use_spec.
  intros (k & p & Hk & _ & Hb) _. exists k, p. done.
Qed.

Lemma barcodes_unique_same db db' :
  (forall pid, p_barcode <$> products db' !! pid = p_barcode <$> products db !! pid) ->
  barcodes_unique db -> barcodes_unique db'.
Proof.
  intros Hsame Hu k1 k2 p1 p2 b H1 H2 Hb1 Hb2.
  pose proof (Hsame k1) as E1. pose proof (Hsame k2) as E2.
  rewrite H1 in E1. rewrite H2 in E2. simpl in E1, E2.
  destruct (products db !! k1) as [q1|] eqn:G1; [|discriminate].
  destruct (products db !! k2) as [q2|] eqn:G2; [|discriminate].
  simpl in E1, E2. apply (Hu k1 k2 q1 q2 b G1 G2); congruence.
Qed.

(** X18.  A product that was created with a barcode is found by that
    barcode, and it shares the barcode with no other product. *)
Theorem product_created_is_found now gen trim data db db' p :
  barcodes_unique db -> ProductService.create now gen trim data db = (db', Done p) ->
  barcodes_unique db' /\
  forall b, p_barcode p = Some b -> getByBarcode b db' = Some p.
Proof.
  intros Hu H.
  apply product_create_done in H as (price & _ & _ & _ & _ & Hid & Hfree & Hp & ->).
  assert (Hu' : barcodes_unique (set_products (insert (gen 0%nat) p) db)).
  { apply barcodes_unique_insert; [done|]. intros Huse. apply Hfree.
    by apply (barcode_in_use_mono (gen 0%nat)). }
  split; [done|]. intros b Hb.
  rewrite (getByBarcode_row b _ (gen 0%nat) p Hu'); [|simpl; by rewrite lookup_insert_eq|done].
  by rewrite Hp.
Qed.

Lemma product_created_is_found_witness :
  exists p, snd Shelf.stocked = Done p /\
    getByBarcode "775001" (fst Shelf.stocked) = Some p.
Proof.
  destruct (snd Shelf.stocked) as [p|e] eqn:Hr; [|vm_compute in Hr; discriminate].
  exists p. split; [reflexivity|].
  apply (product_created_is_found 50 (Demo.ids "p") Shelf.strip Shelf.pencil Demo.db0).
  - intros k1 k2 p1 p2 b. unfold Demo.db0. simpl.
    destruct (decide (k1 = "p1")) as [->|H1];
      [rewrite lookup_singleton_eq|rewrite lookup_singleton_ne by done; discriminate].
    intros [= <-]. discriminate.
  - change Shelf.stocked
      with (ProductService.create 50 (Demo.ids "p") Shelf.strip Shelf.pencil Demo.db0) in *.
    rewrite <- Hr. by destruct (ProductService.create _ _ _ _ _).
  - vm_compute in Hr. injection Hr as <-. reflexivity.
Defined.

(** ** ProductService.update *)

Section Update.

Variables (now : Z) (trim : string -> string).

Lemma product_update_done id data db db' :
  ProductService.update now trim id data db = (db', Done true) ->
  exists p, products db !! id = Some p /\
    (forall n, up_name data = Some n -> trim n <> "") /\
    (forall q, up_price data = Some q -> negative q = false) /\
    (forall s, up_stock data = Some s -> 0 <= s) /\
    ~ nothing_to_update data /\
    (up_barcode data <> None ->
       ~ barcode_in_use (Some id) (p_barcode (updated now trim data p)) (products db)) /\
    db' = set_products (insert id (updated now trim data p)) db.
Proof.
  unfold ProductService.update, getOne.
  destruct (products db !! id) as [p|]; [|discriminate].
  destruct (match up_name data with Some _ => _ | None => _ end) eqn:Hn; [discriminate|].
  destruct (match up_price data with Some _ => _ | None => _ end) eqn:Hq; [discriminate|].
  destruct (match up_stock data with Some _ => _ | None => _ end) eqn:Hs; [discriminate|].
  destruct (decide _); [discriminate|].
  destruct (decide _) as [|Hsome]; [discriminate|].
  destruct (match up_barcode data with Some _ => _ | None => _ end) eqn:Hb; [discriminate|].
  intros [= <-]. exists p. split; [done|].
  split; [|split; [|split; [|split; [done|split; [|done]]]]].
  - intros n' E. rewrite E in Hn. by apply bool_decide_eq_false in Hn.
  - intros q E. by rewrite E in Hq.
  - intros s E. rewrite E in Hs. lia.
  - intros E. destruct (up_barcode data); [|done]. by apply bool_decide_eq_false in Hb.
Qed.

Lemma product_update_other id data db db' r :
  ProductService.update now trim id data db = (db', r) -> r <> Done true ->
  db' = db /\
  match r with
  | Done _ => nothing_to_update data /\ is_Some (products db !! id)
  | Refused e => products db !! id = None -> e = Thrown ProductNotFound
  end.
Proof.
  unfold ProductService.update, getOne.
  destruct (products db !! id) as [p|]; [|by intros [= <- <-]].
  destruct (match up_name data with Some _ => _ | None => _ end); [by intros [= <- <-]|].
  destruct (match up_price data with Some _ => _ | None => _ end); [by intros [= <- <-]|].
  destruct (match up_stock data with Some _ => _ | None => _ end); [by intros [= <- <-]|].
  destruct (decide _); [by intros [= <- <-]|].
  destruct (decide _) as [Hnone|]; [by intros [= <- <-]|].
  destruct (match up_barcode data with Some _ => _ | None => _ end); [by intros [= <- <-]|].
  by intros [= <- <-].
Qed.

End Update.

(** X19.  [ProductService.update] writes one product row and nothing else:
    the sales, the items, the ledger and the other products are as they
    were.  When it returns [true] the row holds the columns the input names
    and keeps the others; a name it stores is not empty, a price and a
    stock it stores are not negative.  It returns [false], with the store
    unchanged, exactly when the product exists and the input names no
    column: it returns [false] only then, and then it does.  On a product
    that does not exist it fails with "Producto no encontrado"; when it
    fails the store is unchanged.  No stock becomes negative by it. *)
Theorem product_update_spec now trim id data db db' r :
  ProductService.update now trim id data db = (db', r) ->
  users db' = users db /\ sales db' = sales db /\ sale_items db' = sale_items db /\
  stock_movements db' = stock_movements db /\
  (forall k, k <> id -> getOne k db' = getOne k db) /\
  (stock_nonneg db -> stock_nonneg db') /\
  match r with
  | Done true =>
      exists p, getOne id db = Some p /\ getOne id db' = Some (updated now trim data p) /\
        ~ nothing_to_update data /\
        (forall n, up_name data = Some n -> trim n <> "") /\
        (forall q, up_price data = Some q -> (0 <= q)%Q) /\
        (forall s, up_stock data = Some s -> 0 <= s)
  | Done false => db' = db /\ nothing_to_update data /\ is_Some (getOne id db)
  | Refused e => db' = db /\ (getOne id db = None -> e = Thrown ProductNotFound)
  end /\
  (is_Some (getOne id db) -> nothing_to_update data -> r = Done false) /\
  (getOne id db = None -> r = Refused (Thrown ProductNotFound)).
Proof.
  intros H.
  assert (Hconv : (is_Some (getOne id db) -> nothing_to_update data -> r = Done false) /\
                  (getOne id db = None -> r = Refused (Thrown ProductNotFound))).
  { unfold ProductService.update in H. split.
    - intros [p Hp] Hnone. rewrite Hp in H.
      pose proof Hnone as (Hn & Hq & _ & Hs & _ & _ & Hb & _).
      destruct (match up_name data with Some _ => _ | None => _ end) eqn:E1;
        [by rewrite Hn in E1|].
      destruct (match up_price data with Some _ => _ | None => _ end) eqn:E2;
        [by rewrite Hq in E2|].
      destruct (match up_stock data with Some _ => _ | None => _ end) eqn:E3;
        [by rewrite Hs in E3|].
      destruct (decide _) as [Huse|_]; [by rewrite Hb in Huse|].
      destruct (decide _); [|done]. by injection H as _ <-.
    - intros Hnone. rewrite Hnone in H. by injection H as _ <-. }
  cut (users db' = users db /\ sales db' = sales db /\ sale_items db' = sale_items db /\
       stock_movements db' = stock_movements db /\
       (forall k, k <> id -> getOne k db' = getOne k db) /\
       (stock_nonneg db -> stock_nonneg db') /\
       match r with
       | Done true =>
           exists p, getOne id db = Some p /\
             getOne id db' = Some (updated now trim data p) /\
             ~ nothing_to_update data /\
             (forall n, up_name data = Some n -> trim n <> "") /\
             (forall q, up_price data = Some q -> (0 <= q)%Q) /\
             (forall s, up_stock data = Some s -> 0 <= s)
       | Done false => db' = db /\ nothing_to_update data /\ is_Some (getOne id db)
       | Refused e => db' = db /\ (getOne id db = None -> e = Thrown ProductNotFound)
       end).
  { intros (H1 & H2 & H3 & H4 & H5 & H6 & H7).
    exact (conj H1 (conj H2 (conj H3 (conj H4 (conj H5 (conj H6 (conj H7 Hconv))))))). }
  clear Hconv.
  assert (r = Done true \/ r <> Done true) as [->|Hr]
    by (destruct r as [[]|]; [by left|by right|by right]).
  - apply product_update_done in H as (p & Hp & Hn & Hq & Hs & Hsome & _ & ->).
    repeat split; try done.
    + intros k Hk. unfold getOne. simpl. by rewrite lookup_insert_ne.
    + intros Hnn pid st. unfold getProductStock. simpl.
      destruct (decide (id = pid)) as [<-|Hne].
      * rewrite lookup_insert_eq. simpl. intros [= <-].
        destruct (up_stock data) as [s|] eqn:E; simpl; [by apply Hs|].
        apply (Hnn id). unfold getProductStock. by rewrite Hp.
      * rewrite lookup_insert_ne by done. apply Hnn.
    + exists p. split; [done|]. split; [unfold getOne; simpl; by rewrite lookup_insert_eq|].
      split; [done|]. split; [done|]. split; [|done].
      intros q E. apply negative_false. by apply Hq.
  - destruct (product_update_other now trim id data db db' r H Hr) as [-> Hrest].
    repeat split; try done. by destruct r as [[]|e].
Qed.

Lemma product_update_spec_witness :
  (exists p, getOne "p0" (fst Shelf.stocked) = Some p /\
     getOne "p0" (fst Shelf.recounted) =
       Some (updated 80 Shelf.strip (Shelf.recount 7) p) /\
     stock_movements (fst Shelf.recounted) =
       stock_movements (fst Shelf.stocked)) /\
  snd (ProductService.update 80 Shelf.strip "p0" Shelf.unchanged (fst Shelf.stocked)) =
    Done false.
Proof.
  split.
  - destruct (product_update_spec 80 Shelf.strip "p0" (Shelf.recount 7) (fst Shelf.stocked)
                (fst Shelf.recounted) (Done true))
      as (_ & _ & _ & Hm & _ & _ & (p & Hp & Hp' & _) & _).
    + vm_compute. reflexivity.
    + exists p. split; [exact Hp|]. split; [exact Hp'|exact Hm].
  - destruct (product_update_spec 80 Shelf.strip "p0" Shelf.unchanged (fst Shelf.stocked)
                (fst (ProductService.update 80 Shelf.strip "p0" Shelf.unchanged
                        (fst Shelf.stocked)))
                (snd (ProductService.update 80 Shelf.strip "p0" Shelf.unchanged
                        (fst Shelf.stocked))))
      as (_ & _ & _ & _ & _ & _ & _ & Hfalse & _).
    + exact (surjective_pairing _).
    + apply Hfalse; [vm_compute; by eexists|by repeat split].
Defined.

(** X20.  [ProductService.update] changes the stock behind the ledger: it
    writes no ledger row, so when it sets a stock other than the one the
    last ledger row of the product carries, the ledger and the stock no
    longer agree. *)
Theorem update_bypasses_ledger now trim id data db db' s m :
  ProductService.update now trim id data db = (db', Done true) ->
  up_stock data = Some s ->
  last_movement id db = Some m -> sm_new_stock m <> s ->
  stock_movements db' = stock_movements db /\ ~ reconciled db'.
Proof.
  intros H Hs Hlast Hne.
  apply product_update_done in H as (p & Hp & _ & _ & _ & _ & _ & ->).
  split; [done|]. intros Hrec. specialize (Hrec id m Hlast).
  unfold getProductStock in Hrec. simpl in Hrec.
  rewrite lookup_insert_eq in Hrec. simpl in Hrec. rewrite Hs in Hrec. simpl in Hrec.
  congruence.
Qed.

Lemma update_bypasses_ledger_witness :
  reconciled Sample.after_busy /\
  ~ reconciled
      (fst (ProductService.update 90000 Shelf.strip "p1" (Shelf.recount 7) Sample.after_busy)).
Proof.
  split.
  - intros pid m. unfold last_movement, getProductStock.
    destruct (decide (pid = "p1")) as [->|Hne].
    + vm_compute. by intros [= <-].
    + intros Hl. exfalso. revert Hl.
      assert (Hall : Forall (fun m => sm_product_id m = "p1")
                (stock_movements Sample.after_busy)) by (vm_compute; repeat constructor).
      rewrite filter_drop_all; [done|].
      eapply Forall_impl; [exact Hall|]. simpl. congruence.
  - eapply (update_bypasses_ledger 90000 Shelf.strip "p1" (Shelf.recount 7)
              Sample.after_busy _ 7).
    + vm_compute. reflexivity.
    + reflexivity.
    + vm_compute. reflexivity.
    + vm_compute. discriminate.
Defined.

(** ** ProductService.delete *)

Lemma delete_lookup now id db k :
  products (fst (delete now id db)) !! k =
  (fun p => if decide (k = id)
            then mkProduct (p_name p) (p_price p) (p_cost p) (p_stock p) (p_min_stock p)
                   (p_category p) (p_barcode p) (p_description p) (p_image_url p)
                   false (p_created_at p) now
            else p) <$> products db !! k.
Proof.
  unfold delete. simpl. destruct (decide (k = id)) as [->|Hne].
  - rewrite lookup_alter_eq. by destruct (products db !! id).
  - rewrite lookup_alter_ne by done. by destruct (products db !! k).
Qed.

Lemma delete_barcodes now id db pid :
  p_barcode <$> products (fst (delete now id db)) !! pid = p_barcode <$> products db !! pid.
Proof.
  rewrite delete_lookup. destruct (products db !! pid) as [p|]; simpl; [|done].
  by destruct (decide (pid = id)).
Qed.

Lemma delete_hides_barcode now id db p b :
  barcodes_unique db -> products db !! id = Some p -> p_barcode p = Some b ->
  barcodes_unique (fst (delete now id db)) /\ getByBarcode b (fst (delete now id db)) = None.
Proof.
  intros Hu Hp Hb.
  assert (Hu' : barcodes_unique (fst (delete now id db)))
    by (apply (barcodes_unique_same db); [apply delete_barcodes|done]).
  split; [done|].
  pose proof (delete_lookup now id db id) as Hl. rewrite Hp in Hl. simpl in Hl.
  rewrite decide_True in Hl by done.
  by rewrite (getByBarcode_row b _ id _ Hu' Hl Hb).
Qed.

(** X21.  [delete] reports whether the product exists.  The product keeps
    its row, its stock and its barcode and is only flagged inactive; no
    other product, no sale and no ledger row changes.  While no two
    products share a barcode, the deleted product is no longer found by its
    barcode. *)
Theorem delete_spec now id db :
  let db' := fst (delete now id db) in
  (snd (delete now id db) = true <-> is_Some (getOne id db)) /\
  (forall p, getOne id db = Some p ->
     exists p', getOne id db' = Some p' /\ p_is_active p' = false /\
       p_stock p' = p_stock p /\ p_barcode p' = p_barcode p /\ p_name p' = p_name p) /\
  (forall k, k <> id -> getOne k db' = getOne k db) /\
  sales db' = sales db /\ sale_items db' = sale_items db /\
  stock_movements db' = stock_movements db /\
  (barcodes_unique db ->
     barcodes_unique db' /\
     forall p b, getOne id db = Some p -> p_barcode p = Some b -> getByBarcode b db' = None).
Proof.
  cbv zeta. split; [|split; [|split; [|split; [done|split; [done|split; [done|]]]]]].
  - unfold delete, getOne. simpl. rewrite bool_decide_eq_true. apply elem_of_dom.
  - intros p Hp. unfold getOne in *. rewrite delete_lookup, Hp. simpl.
    rewrite decide_True by done. by eexists.
  - intros k Hk. unfold getOne. rewrite delete_lookup.
    destruct (products db !! k); simpl; [|done]. by rewrite decide_False.
  - intros Hu. split.
    + apply (barcodes_unique_same db); [apply delete_barcodes|done].
    + intros p b Hp Hb. by apply (delete_hides_barcode now id db p b).
Qed.

Lemma delete_spec_witness :
  snd Shelf.retired = true /\
  Demo.stock_of "p0" (fst Shelf.retired) = Some 20 /\
  getByBarcode "775001" (fst Shelf.retired) = None.
Proof.
  destruct (delete_spec 60 "p0" (fst Shelf.stocked)) as (Hret & _ & _ & _ & _ & _ & Hbar).
  split; [apply Hret; vm_compute; by eexists|]. split; [vm_compute; reflexivity|].
  destruct Hbar as [_ Hscan].
  - intros k1 k2 p1 p2 b H1 H2 Hb1 Hb2.
    assert (Hk : forall k p, products (fst Shelf.stocked) !! k = Some p ->
              p_barcode p = Some b -> k = "p0").
    { intros k p Hk Hb. apply elem_of_map_to_list in Hk. vm_compute in Hk.
      apply elem_of_cons in Hk as [Hk|Hk]; [injection Hk as -> ->; discriminate|].
      apply list_elem_of_singleton in Hk. by injection Hk as -> ->. }
    by rewrite (Hk k1 p1), (Hk k2 p2).
  - eapply Hscan; vm_compute; reflexivity.
Defined.

(** X22.  The barcode of a product cannot be given to a new one.  While
    the product is active, [ProductService.create] refuses the barcode with
    its own message.  After the product was deleted, the check of the
    service no longer sees it, the [UNIQUE] constraint of the table still
    does, and the call fails with the error of the store.  Both leave the
    store as it was. *)
Theorem deleted_barcode_blocks now gen trim data db k p b price t :
  barcodes_unique db ->
  getOne k db = Some p -> p_is_active p = true -> p_barcode p = Some b ->
  cp_barcode data = Some b -> b <> "" -> trim b = b ->
  cp_name data <> "" -> trim (cp_name data) <> "" ->
  cp_price data = Some price -> negative price = false ->
  getOne (gen 0%nat) db = None ->
  ProductService.create now gen trim data db = (db, Refused BarcodeTaken) /\
  ProductService.create now gen trim data (fst (delete t k db)) =
    (fst (delete t k db), Refused (Thrown (UniqueConstraintFailed "products.barcode"))).
Proof.
  intros Hu Hk Ha Hb Hdata Hb0 Htrim Hn1 Hn2 Hprice Hneg Hfresh. unfold getOne in *.
  assert (Hnull : or_null (Some b) = Some b) by (simpl; by rewrite decide_False).
  split.
  - unfold ProductService.create. rewrite decide_False by tauto. rewrite Hprice, Hneg, Hdata, Hnull.
    rewrite (getByBarcode_row b db k p Hu Hk Hb), Ha.
    by rewrite bool_decide_eq_true_2.
  - destruct (delete_hides_barcode t k db p b Hu Hk Hb) as [_ Hscan].
    unfold ProductService.create. rewrite decide_False by tauto. rewrite Hprice, Hneg, Hdata, Hnull.
    rewrite Hscan. rewrite bool_decide_eq_false_2 by (by intros [? ?]).
    rewrite decide_False; cycle 1.
    { rewrite elem_of_dom, (delete_lookup t k db (gen 0%nat)), Hfresh. simpl.
      by intros [? ?]. }
    rewrite decide_True; [done|].
    simpl. unfold trimmed. rewrite Hdata. simpl. rewrite Htrim, decide_False by done.
    apply barcode_in_use_spec. eexists k, _. split.
    + rewrite lookup_alter_eq, Hk. reflexivity.
    + split; [done|]. exact Hb.
Qed.

Lemma deleted_barcode_blocks_witness :
  ProductService.create 70 (Demo.ids "q") Shelf.strip Shelf.crayon (fst Shelf.stocked) =
    (fst Shelf.stocked, Refused BarcodeTaken) /\
  ProductService.create 70 (Demo.ids "q") Shelf.strip Shelf.crayon (fst Shelf.retired) =
    (fst Shelf.retired, Refused (Thrown (UniqueConstraintFailed "products.barcode"))).
Proof.
  eapply (deleted_barcode_blocks 70 (Demo.ids "q") Shelf.strip Shelf.crayon (fst Shelf.stocked)
            "p0" _ "775001" 1%Q 60).
  - intros k1 k2 p1 p2 b H1 H2 Hb1 Hb2.
    assert (Hk : forall k p, products (fst Shelf.stocked) !! k = Some p ->
              p_barcode p = Some b -> k = "p0").
    { intros k p Hk Hb. apply elem_of_map_to_list in Hk. vm_compute in Hk.
      apply elem_of_cons in Hk as [Hk|Hk]; [injection Hk as -> ->; discriminate|].
      apply list_elem_of_singleton in Hk. by injection Hk as -> ->. }
    by rewrite (Hk k1 p1), (Hk k2 p2).
  - vm_compute. reflexivity.
  - reflexivity.
  - reflexivity.
  - reflexivity.
  - discriminate.
  - vm_compute. reflexivity.
  - discriminate.
  - vm_compute. discriminate.
  - reflexivity.
  - reflexivity.
  - vm_compute. reflexivity.
Defined.

(** ** Barcodes stay unique *)

(** X23.  No operation gives two products the same barcode:
    [ProductService.update], [delete] and every sequence of sales,
    cancellations and stock adjustments lead from a store without shared
    barcodes to one without. *)
Theorem catalogue_keeps_barcodes :
  (forall now trim id data db db' r,
     ProductService.update now trim id data db = (db', r) ->
     barcodes_unique db -> barcodes_unique db') /\
  (forall now id db, barcodes_unique db -> barcodes_unique (fst (delete now id db))) /\
  (forall ops db db',
     perform_all ops db = Some db' -> barcodes_unique db -> barcodes_unique db').
Proof.
  split; [|split].
  - intros now trim id data db db' r H Hu.
    assert (r = Done true \/ r <> Done true) as [->|Hr]
      by (destruct r as [[]|]; [by left|by right|by right]).
    + apply product_update_done in H as (p & Hp & _ & _ & _ & _ & Hfree & ->).
      apply barcodes_unique_insert; [done|].
      destruct (up_barcode data) as [c|] eqn:Hc; [by apply Hfree|].
      unfold updated. rewrite Hc. simpl.
      destruct (p_barcode p) as [b|] eqn:Hb; [|by intros []].
      intros (k' & p' & Hk' & Hne & Hb')%barcode_in_use_spec.
      apply Hne. f_equal. by apply (Hu k' id p' p b).
    + by destruct (product_update_other now trim id data db db' r H Hr) as [-> _].
  - intros now id db. apply barcodes_unique_same, delete_barcodes.
  - intros ops. induction ops as [|op ops IH]; intros db db' H Hu.
    + by injection H as <-.
    + simpl in H. destruct (perform op db) as [db1|] eqn:Hperf; [|discriminate].
      apply (IH db1 db' H). apply (barcodes_unique_same db); [|done]. intros pid.
      pose proof (perform_described op db db1 pid Hperf) as Hd.
      destruct (products db1 !! pid) as [p'|], (products db !! pid) as [p|];
        simpl in *; try done.
      injection Hd as _ _ _ _ _ Hb _ _ _ _. by rewrite Hb.
Qed.

Lemma catalogue_keeps_barcodes_witness :
  barcodes_unique (fst Shelf.relabelled).
Proof.
  apply (proj1 catalogue_keeps_barcodes 80 Shelf.strip "p1" (Shelf.relabel " 990 ")
           (fst Shelf.stocked) _ (Done true)).
  - vm_compute. reflexivity.
  - intros k1 k2 p1 p2 b H1 H2 Hb1 Hb2.
    assert (Hk : forall k p, products (fst Shelf.stocked) !! k = Some p ->
              p_barcode p = Some b -> k = "p0").
    { intros k p Hk Hb. apply elem_of_map_to_list in Hk. vm_compute in Hk.
      apply elem_of_cons in Hk as [Hk|Hk]; [injection Hk as -> ->; discriminate|].
      apply list_elem_of_singleton in Hk. by injection Hk as -> ->. }
    by rewrite (Hk k1 p1), (Hk k2 p2).
Defined.

(** ** ProductService.getStats *)




(** ** updateProductStock of ProductModel *)

(** X25.  [updateProductStock] reports whether the product exists and sets
    its stock to any number, negative or not.  It changes no other product
    and writes no ledger row.  A stock adjustment that succeeds leaves the
    products that [updateProductStock] leaves for the sum of the stock and
    the adjustment. *)
Theorem updateProductStock_spec now id n db :
  let r := updateProductStock now id n db in
  (snd r = true <-> is_Some (getOne id db)) /\
  getProductStock id (fst r) = (if snd r then Some n else None) /\
  (forall k, k <> id -> getOne k (fst r) = getOne k db) /\
  stock_movements (fst r) = stock_movements db /\
  (forall gen q reason userId db' st,
     adjustStock now gen id q reason userId db = (db', Ok tt) ->
     getProductStock id db = Some st -> n = st + q ->
     products db' = products (fst r)).
Proof.
  cbv zeta. unfold updateProductStock, getOne, getProductStock. simpl.
  split; [|split; [|split; [|split; [done|]]]].
  - rewrite bool_decide_eq_true. apply elem_of_dom.
  - rewrite lookup_alter_eq. destruct (products db !! id) as [p|] eqn:Hp; simpl.
    + rewrite bool_decide_eq_true_2; [done|]. apply elem_of_dom. by eexists.
    + rewrite bool_decide_eq_false_2; [done|]. rewrite elem_of_dom, Hp. by intros [? ?].
  - intros k Hk. by rewrite lookup_alter_ne.
  - intros gen q reason userId db' st H Hst ->.
    apply adjustStock_ok in H as (p & Hp & _ & _ & ->). simpl.
    rewrite Hp in Hst. by injection Hst as <-.
Qed.

Lemma updateProductStock_spec_witness :
  snd (updateProductStock 70 "p1" (-3) Demo.db0) = true /\
  getProductStock "p1" (fst (updateProductStock 70 "p1" (-3) Demo.db0)) = Some (-3).
Proof.
  destruct (updateProductStock_spec 70 "p1" (-3) Demo.db0) as (Hret & Hstock & _).
  assert (Hr : snd (updateProductStock 70 "p1" (-3) Demo.db0) = true)
    by (apply Hret; vm_compute; by eexists).
  split; [exact Hr|]. rewrite Hstock, Hr. reflexivity.
Defined.

(** ** The listings of SaleModel *)

(** X26.  The listings of SaleModel are listings of the service: each is
    [getAll] under one filter, and [findTodaySales] is [getToday].  For the
    cashier the two differ on the empty string, which [findSalesByCashier]
    looks for and [getAll] takes for no filter. *)
Theorem SaleModel_listings db :
  findAllSales db = getAll (mkSaleFilters None None None None None) db /\
  findActiveSales db = getAll (mkSaleFilters None None None None (Some active_sales)) db /\
  (forall d, findSalesByDate d db =
             getAll (mkSaleFilters (Some d) (Some d) None None None) db) /\
  (forall from to, findSalesByDateRange from to db =
                   getAll (mkSaleFilters (Some from) (Some to) None None None) db) /\
  (forall c, c <> "" ->
     findSalesByCashier c db = getAll (mkSaleFilters None None None (Some c) None) db) /\
  getAll (mkSaleFilters None None None (Some "") None) db = findAllSales db /\
  (forall now, findTodaySales now db = getToday now db).
Proof.
  unfold findAllSales, findActiveSales, findSalesByDate, findSalesByDateRange,
    findSalesByCashier, findTodaySales, getAll.
  assert (Hall : forall f : SaleFilters, (forall s, matches f s) ->
            filter (matches f) (sales db) = sales db).
  { intros f Hf. apply filter_keep_all. by apply Forall_forall. }
  split; [|split; [|split; [|split; [|split; [|split]]]]].
  - rewrite Hall; [done|]. intros s. by repeat split.
  - f_equal. apply list_filter_iff. intros s. unfold matches, in_period. simpl. tauto.
  - intros d. f_equal. apply list_filter_iff. intros s. unfold matches, in_period. simpl.
    split; [intros ->; repeat split; lia|intros ([? ?] & _); lia].
  - intros from to. f_equal. apply list_filter_iff. intros s.
    unfold matches, in_period. simpl. tauto.
  - intros c Hc. f_equal. apply list_filter_iff. intros s. unfold matches, in_period. simpl.
    rewrite decide_False by done. tauto.
  - rewrite Hall; [done|]. intros s. by repeat split.
  - done.
Qed.

Lemma SaleModel_listings_witness :
  findSalesByCashier "admin-001" Sample.after_busy =
  getAll (mkSaleFilters None None None (Some "admin-001") None) Sample.after_busy.
Proof.
  destruct (SaleModel_listings Sample.after_busy) as (_ & _ & _ & _ & H & _).
  apply (H "admin-001"). discriminate.
Defined.

(** ** The migrations of the schema *)

Import Migrations.

Lemma currentVersion_bound s v :
  v ∈ (schema_version s).*1 -> v <= currentVersion s.
Proof.
  unfold currentVersion. destruct ((schema_version s).*1) as [|v0 vs]; [by intros ?%elem_of_nil|].
  revert v0. induction vs as [|v1 vs IH]; intros v0 Hin; simpl.
  - apply list_elem_of_singleton in Hin. lia.
  - apply elem_of_cons in Hin as [->|Hin].
    + specialize (IH v0 (list_elem_of_here _ _)). lia.
    + apply elem_of_cons in Hin as [->|Hin]; [lia|].
      specialize (IH v0 (list_elem_of_further _ _ _ Hin)). lia.
Qed.


Lemma max_snoc v0 (l : list Z) v :
  foldr Z.max v0 (l ++ [v]) = Z.max (foldr Z.max v0 l) v.
Proof. induction l as [|x l IH]; simpl; [|rewrite IH]; lia. Qed.

Lemma currentVersion_snoc s v d r' :
  currentVersion (mkSchema (schema_version s ++ [(v, d)]) r') =
  if decide (schema_version s = []) then v else Z.max (currentVersion s) v.
Proof.
  unfold currentVersion. simpl. destruct (schema_version s) as [|[v0 d0] t]; [done|].
  rewrite decide_False by done. simpl. rewrite fmap_app. apply max_snoc.
Qed.

Lemma apply_migration_new m s :
  currentVersion s < version m ->
  apply_migration m s =
  Some (mkSchema (schema_version s ++ [(version m, description m)]) (ran s ++ [version m])).
Proof.
  intros Hlt. unfold apply_migration. rewrite decide_False; [done|].
  intros Hin%currentVersion_bound. lia.
Qed.

(** X27.  [runMigrations] applies the migrations above the version of the
    schema, in order and each once, and records them; the primary key of
    [schema_version] never refuses a row.  The schema is then at version 2
    at least, and a second start applies nothing. *)
Theorem runMigrations_spec s :
  let s' := fst (runMigrations s) in
  let todo := filter (fun v => currentVersion s < v) [1; 2] in
  snd (runMigrations s) = true /\
  ran s' = ran s ++ todo /\
  (schema_version s').*1 = (schema_version s).*1 ++ todo /\
  currentVersion s' = Z.max 2 (currentVersion s) /\
  runMigrations s' = (s', true).
Proof.
  cbv zeta.
  assert (Hdone : forall s0, 2 <= currentVersion s0 -> runMigrations s0 = (s0, true)).
  { intros s0 H0. unfold runMigrations, migrations, pending. simpl.
    destruct (Z.ltb_spec (currentVersion s0) 1); [lia|].
    destruct (Z.ltb_spec (currentVersion s0) 2); [lia|]. done. }
  assert (Hnext : forall s0 v d, currentVersion s0 < v ->
            currentVersion (mkSchema (schema_version s0 ++ [(v, d)]) (ran s0 ++ [v])) = v).
  { intros s0 v d H0. rewrite currentVersion_snoc. destruct (decide _); lia. }
  rewrite !filter_cons, filter_nil.
  destruct (Z.ltb_spec (currentVersion s) 1) as [H1|H1];
    [|destruct (Z.ltb_spec (currentVersion s) 2) as [H2|H2]].
  - set (s1 := mkSchema (schema_version s ++ [(1, "Initial schema")]) (ran s ++ [1])).
    set (s2 := mkSchema (schema_version s1 ++ [(2, "Add triggers for timestamps")])
                 (ran s1 ++ [2])).
    assert (Hc1 : currentVersion s1 = 1) by (by apply Hnext).
    assert (Hc2 : currentVersion s2 = 2) by (apply Hnext; lia).
    assert (Hrun : runMigrations s = (s2, true)).
    { unfold runMigrations, migrations, pending.
      rewrite (proj2 (Z.ltb_lt _ _)) by (simpl; lia).
      rewrite apply_migration_new by (simpl; lia).
      rewrite (proj2 (Z.ltb_lt _ _)) by (simpl; lia).
      rewrite apply_migration_new by (simpl; fold s1; lia). done. }
    rewrite Hrun, !decide_True by lia. cbn [fst snd].
    split; [done|]. split; [unfold s2, s1; simpl; by rewrite <- app_assoc|].
    split; [unfold s2, s1; simpl; by rewrite !fmap_app, <- app_assoc|].
    split; [lia|]. apply Hdone. lia.
  - set (s2 := mkSchema (schema_version s ++ [(2, "Add triggers for timestamps")])
                 (ran s ++ [2])).
    assert (Hc2 : currentVersion s2 = 2) by (by apply Hnext).
    assert (Hrun : runMigrations s = (s2, true)).
    { unfold runMigrations, migrations, pending.
      rewrite (proj2 (Z.ltb_ge _ _)) by (simpl; lia).
      rewrite (proj2 (Z.ltb_lt _ _)) by (simpl; lia).
      rewrite apply_migration_new by (simpl; lia). done. }
    rewrite Hrun, decide_False, decide_True by lia. cbn [fst snd].
    split; [done|]. split; [done|]. split; [unfold s2; simpl; by rewrite fmap_app|].
    split; [lia|]. apply Hdone. lia.
  - rewrite (Hdone s H2), !decide_False by lia. cbn [fst snd]. rewrite !app_nil_r.
    split; [done|]. split; [done|]. split; [done|]. split; [lia|]. by apply Hdone.
Qed.

Lemma runMigrations_spec_witness :
  ran (fst (runMigrations (mkSchema [(1, "Initial schema")] []))) = [2] /\
  currentVersion (fst (runMigrations (mkSchema [(1, "Initial schema")] []))) = 2.
Proof.
  destruct (runMigrations_spec (mkSchema [(1, "Initial schema")] []))
    as (_ & Hran & _ & Hcur & _).
  split; [exact Hran|exact Hcur].
Defined.
